(** * Catalog generator (scripts/generate_appstore.py)

    A shallow embedding of [AppStoreGenerator] and the properties of the
    catalog it builds.

    A Python [str] is modelled as a [string] holding its UTF-8 encoding
    (a lone surrogate by the three bytes the generalized encoding gives
    it); the bytewise order of such strings is the code point order
    Python compares [str] values by.  What the source takes from the
    interpreter and its libraries without fixing it is a parameter: the
    two parsers, and the [Runtime] with the Unicode data behind
    [str.title] and [\d], the range of [time.gmtime] and what
    [sys.stdout] accepts. *)

From Stdlib Require Import List String Ascii ZArith NArith Lia Bool Arith.
From Stdlib Require Import Sorting.Sorted Sorting.Permutation.
From Stdlib Require Import Floats.SpecFloat.
Import ListNotations.

Set Implicit Arguments.
Local Open Scope string_scope.
Local Open Scope list_scope.

(** * Definitions *)

(** ** Exceptions

    Every exception the model raises is a subclass of Python's
    [Exception], so an [except Exception] clause catches all of them. *)

Inductive exn : Type :=
| YAMLError
| JSONDecodeError
| TypeError
| AttributeError
| FileNotFoundError
| IsADirectoryError
| NotADirectoryError
| UnicodeDecodeError
| UnicodeEncodeError
| OSError
| OverflowError.

Inductive result (A : Type) : Type :=
| Ok (a : A)
| Raise (e : exn).

Arguments Ok {A} a.
Arguments Raise {A} e.

Definition bind {A B : Type} (m : result A) (k : A -> result B) : result B :=
  match m with
  | Ok a => k a
  | Raise e => Raise e
  end.

Notation "x <- m ;; k" := (bind m (fun x => k))
  (at level 61, m at next level, right associativity).

(** [try: body / except Exception as e: handler] *)
Definition try_except {A : Type} (body : result A) (handler : exn -> result A)
  : result A :=
  match body with
  | Ok a => Ok a
  | Raise e => handler e
  end.

Definition is_ok {A : Type} (m : result A) : bool :=
  match m with
  | Ok _ => true
  | Raise _ => false
  end.

(** ** Python [str] operations *)

Module Str.

(** [s.startswith(p)] *)
Definition startswith (s p : string) : bool := String.prefix p s.

(** [sub in s] *)
Fixpoint contains (sub s : string) : bool :=
  String.prefix sub s ||
  match s with
  | EmptyString => false
  | String _ s' => contains sub s'
  end.

(** The scan of [s.replace(old, new)] for a non-empty [old]: occurrences
    are taken left to right and do not overlap; [skip] counts the
    characters of the current occurrence still to be dropped. *)
Fixpoint replace_scan (old new : string) (skip : nat) (s : string) : string :=
  match s with
  | EmptyString => EmptyString
  | String c s' =>
      match skip with
      | S k => replace_scan old new k s'
      | O =>
          if String.prefix old s
          then (new ++ replace_scan old new (String.length old - 1) s')%string
          else String c (replace_scan old new 0 s')
      end
  end.

(** With an empty [old], [new] is put before every character and at the
    end. *)
Fixpoint interleave (new s : string) : string :=
  match s with
  | EmptyString => new
  | String c s' => (new ++ String c (interleave new s'))%string
  end.

(** [s.replace(old, new)] *)
Definition replace (s old new : string) : string :=
  match old with
  | EmptyString => interleave new s
  | String _ _ => replace_scan old new 0 s
  end.

(** Every occurrence of the character [a] turned into [b]. *)
Fixpoint subst_char (a b : ascii) (s : string) : string :=
  match s with
  | EmptyString => EmptyString
  | String c s' => String (if Ascii.eqb c a then b else c) (subst_char a b s')
  end.

(** The character [a] occurs in [s]. *)
Fixpoint occurs (a : ascii) (s : string) : Prop :=
  match s with
  | EmptyString => False
  | String c s' => c = a \/ occurs a s'
  end.

(** The [str] holds a surrogate (U+D800 to U+DFFF): in the encoding, the
    byte [ED] followed by a byte from [A0] to [BF].  Such a [str] has no
    UTF-8 encoding, so a strict UTF-8 stream refuses it. *)
Fixpoint has_surrogate (s : string) : bool :=
  match s with
  | EmptyString => false
  | String c s' =>
      match s' with
      | EmptyString => false
      | String c' _ =>
          ((N_of_ascii c =? 237) && (160 <=? N_of_ascii c') && (N_of_ascii c' <=? 191))%N
          || has_surrogate s'
      end
  end.

End Str.

(** ** Code points *)

Module Utf8.

Local Open Scope N_scope.

Definition byte (c : ascii) : N := N_of_ascii c.

Definition is_cont (c : ascii) : bool := (128 <=? byte c) && (byte c <? 192).

(** The six bits a continuation byte carries. *)
Definition payload (c : ascii) : N := byte c - 128.

(** The code points of a [str].  A byte that starts no sequence of the
    encoding (there is none in the encoding of a [str]) is taken for the
    code point U+DC00 plus the byte. *)
Fixpoint decode (s : string) : list N :=
  match s with
  | EmptyString => []
  | String c s1 =>
      let b := byte c in
      if b <? 128 then b :: decode s1
      else
        match s1 with
        | EmptyString => [56320 + b]
        | String c1 s2 =>
            if (192 <=? b) && (b <? 224) && is_cont c1
            then ((b - 192) * 64 + payload c1) :: decode s2
            else
              match s2 with
              | EmptyString => (56320 + b) :: decode s1
              | String c2 s3 =>
                  if (224 <=? b) && (b <? 240) && is_cont c1 && is_cont c2
                  then (((b - 224) * 64 + payload c1) * 64 + payload c2) :: decode s3
                  else
                    match s3 with
                    | EmptyString => (56320 + b) :: decode s1
                    | String c3 s4 =>
                        if (240 <=? b) && (b <? 248)
                           && is_cont c1 && is_cont c2 && is_cont c3
                        then ((((b - 240) * 64 + payload c1) * 64 + payload c2) * 64
                              + payload c3) :: decode s4
                        else (56320 + b) :: decode s1
                    end
              end
        end
  end.

Definition chr (n : N) : ascii := ascii_of_N n.

(** The encoding of one code point. *)
Definition encode1 (n : N) : string :=
  if n <? 128 then String (chr n) EmptyString
  else if n <? 2048
  then String (chr (192 + n / 64)) (String (chr (128 + n mod 64)) EmptyString)
  else if n <? 65536
  then String (chr (224 + n / 4096))
         (String (chr (128 + n / 64 mod 64))
            (String (chr (128 + n mod 64)) EmptyString))
  else String (chr (240 + n / 262144))
         (String (chr (128 + n / 4096 mod 64))
            (String (chr (128 + n / 64 mod 64))
               (String (chr (128 + n mod 64)) EmptyString))).

Fixpoint encode (cs : list N) : string :=
  match cs with
  | [] => EmptyString
  | n :: cs' => (encode1 n ++ encode cs')%string
  end.

(** The code point of an ASCII character. *)
Definition cp (c : ascii) : N := N_of_ascii c.

End Utf8.

(** ** Regular expressions ([re.match])

    The fragment of [re] the generator uses, matched by derivatives over
    the code points of the subject.  [re.match] looks for a match that
    starts at position 0 and may stop anywhere, so the leading [^] of
    the source pattern adds nothing. *)

Module Re.

Inductive regex : Type :=
| Void
| Eps
| Class (p : N -> bool)
| Seq (a b : regex)
| Alt (a b : regex)
| Star (a : regex).

(** [c], [a?] and [a+] *)
Definition Chr (c : ascii) : regex := Class (N.eqb (Utf8.cp c)).
Definition Opt (a : regex) : regex := Alt a Eps.
Definition Plus (a : regex) : regex := Seq a (Star a).

(** A bracketed set of characters *)
Definition OneOf (cs : list ascii) : regex :=
  Class (fun n => existsb (fun c => N.eqb (Utf8.cp c) n) cs).

Fixpoint nullable (r : regex) : bool :=
  match r with
  | Void => false
  | Eps => true
  | Class _ => false
  | Seq a b => nullable a && nullable b
  | Alt a b => nullable a || nullable b
  | Star _ => true
  end.

Fixpoint deriv (c : N) (r : regex) : regex :=
  match r with
  | Void => Void
  | Eps => Void
  | Class p => if p c then Eps else Void
  | Seq a b =>
      if nullable a then Alt (Seq (deriv c a) b) (deriv c b)
      else Seq (deriv c a) b
  | Alt a b => Alt (deriv c a) (deriv c b)
  | Star a => Seq (deriv c a) (Star a)
  end.

(** A match of [r] starts the code points [s]. *)
Fixpoint matches (r : regex) (s : list N) : bool :=
  nullable r ||
  match s with
  | [] => false
  | c :: s' => matches (deriv c r) s'
  end.

(** [re.match(r, s) is not None] *)
Definition match_ (r : regex) (s : string) : bool := matches r (Utf8.decode s).

(** The words a pattern denotes. *)
Fixpoint lang (r : regex) : list N -> Prop :=
  match r with
  | Void => fun _ => False
  | Eps => fun s => s = []
  | Class p => fun s => exists c, s = [c] /\ p c = true
  | Seq a b => fun s => exists s1 s2, s = s1 ++ s2 /\ lang a s1 /\ lang b s2
  | Alt a b => fun s => lang a s \/ lang b s
  | Star a => fun s =>
      exists ws, s = List.concat ws /\ Forall (lang a) ws
  end.

End Re.
(** ** Calendar time ([time.gmtime], [time.strftime]) *)

Module PyTime.

Local Open Scope Z_scope.

Record struct_time : Type := mk_tm {
  tm_year : Z; tm_mon : Z; tm_mday : Z;
  tm_hour : Z; tm_min : Z; tm_sec : Z
}.

(** Proleptic Gregorian date of a day count from 1970-01-01. *)
Definition civil_from_days (days : Z) : Z * Z * Z :=
  let z := days + 719468 in
  let era := z / 146097 in
  let doe := z - era * 146097 in
  let yoe := (doe - doe / 1460 + doe / 36524 - doe / 146096) / 365 in
  let doy := doe - (365 * yoe + yoe / 4 - yoe / 100) in
  let mp := (5 * doy + 2) / 153 in
  let d := doy - (153 * mp + 2) / 5 + 1 in
  let m := if mp <? 10 then mp + 3 else mp - 9 in
  let y := yoe + era * 400 + (if m <=? 2 then 1 else 0) in
  (y, m, d).

(** The calendar fields [time.gmtime(secs)] returns: seconds since the
    epoch as a UTC calendar time; the host's time zone plays no part. *)
Definition gmtime (secs : Z) : struct_time :=
  let '(y, m, d) := civil_from_days (secs / 86400) in
  let rem := secs mod 86400 in
  {| tm_year := y; tm_mon := m; tm_mday := d;
     tm_hour := rem / 3600; tm_min := rem mod 3600 / 60; tm_sec := rem mod 60 |}.

(** The day count of a proleptic Gregorian date, and the seconds
    since the epoch of a UTC calendar time ([calendar.timegm]). *)
Definition days_from_civil (y m d : Z) : Z :=
  let y := if m <=? 2 then y - 1 else y in
  let era := y / 400 in
  let yoe := y - era * 400 in
  let mp := if 2 <? m then m - 3 else m + 9 in
  let doy := (153 * mp + 2) / 5 + d - 1 in
  let doe := yoe * 365 + yoe / 4 - yoe / 100 + doy in
  era * 146097 + doe - 719468.

Definition timegm (t : struct_time) : Z :=
  days_from_civil (tm_year t) (tm_mon t) (tm_mday t) * 86400
  + tm_hour t * 3600 + tm_min t * 60 + tm_sec t.

(** [time.localtime(secs)] on a host whose local time is [utc_offset]
    seconds east of UTC. *)
Definition localtime (utc_offset : Z) (secs : Z) : struct_time :=
  gmtime (secs + utc_offset).

Definition digit_char (d : Z) : ascii := ascii_of_nat (48 + Z.to_nat d)%nat.

Fixpoint dec_digits (fuel : nat) (n : Z) (acc : string) : string :=
  match fuel with
  | O => acc
  | S fuel' =>
      let acc' := String (digit_char (n mod 10)) acc in
      if n / 10 =? 0 then acc' else dec_digits fuel' (n / 10) acc'
  end.

(** [str(n)] for an integer *)
Definition str_of_Z (n : Z) : string :=
  if n <? 0
  then String "-" (dec_digits (S (Z.to_nat (Z.log2 (- n)))) (- n) EmptyString)
  else dec_digits (S (Z.to_nat (Z.log2 n))) n EmptyString.

Fixpoint zeros (k : nat) : string :=
  match k with
  | O => EmptyString
  | S k' => String "0" (zeros k')
  end.

(** A number printed as [%02d]. *)
Definition two_digits (n : Z) : string :=
  let s := str_of_Z n in (zeros (2 - String.length s)%nat ++ s)%string.

(** [time.strftime(format, t)] for the directives [%Y %m %d %H %M %S],
    as the C library of a Linux host prints them: the year without
    padding. *)
Fixpoint strftime (format : string) (t : struct_time) : string :=
  match format with
  | EmptyString => EmptyString
  | String "%" (String d rest) =>
      ((if Ascii.eqb d "Y" then str_of_Z (tm_year t)
       else if Ascii.eqb d "m" then two_digits (tm_mon t)
       else if Ascii.eqb d "d" then two_digits (tm_mday t)
       else if Ascii.eqb d "H" then two_digits (tm_hour t)
       else if Ascii.eqb d "M" then two_digits (tm_min t)
       else if Ascii.eqb d "S" then two_digits (tm_sec t)
       else if Ascii.eqb d "%" then "%"
       else String "%" (String d EmptyString))
      ++ strftime rest t)%string
  | String c rest => String c (strftime rest t)
  end.

Arguments strftime : simpl never.

(** A string laid out as a template such as
    [YYYY-MM-DDTHH:MM:SS.000+00:00]: a digit wherever the template has
    one of the letters [Y M D H S], the template's own character
    everywhere else. *)
Definition is_digit (c : ascii) : bool :=
  let n := nat_of_ascii c in ((48 <=? n) && (n <=? 57))%nat.

Definition is_field_letter (c : ascii) : bool :=
  existsb (Ascii.eqb c) ["Y"; "M"; "D"; "H"; "S"]%char.

Fixpoint has_format (template s : string) : bool :=
  match template, s with
  | EmptyString, EmptyString => true
  | String t template', String c s' =>
      (if is_field_letter t then is_digit c else Ascii.eqb t c)
      && has_format template' s'
  | _, _ => false
  end.

End PyTime.

(** ** Python values

    What [yaml.safe_load] and [json.load] return: the values of JSON,
    and from a YAML document also [bytes] ([!!binary]), [datetime.date]
    and [datetime.datetime] ([!!timestamp]) and [set] ([!!set]).  A
    [dict] keeps its items in insertion order; a [tuple] stands as the
    [list] of its items, from which nothing the generator does tells it
    apart.  Values are finite trees: a YAML alias stands as the value
    it names. *)

Inductive pyval : Type :=
| PNone
| PBool (b : bool)
| PInt (n : Z)
| PFloat (x : spec_float)
| PStr (s : string)
| PList (xs : list pyval)
| PDict (items : list (pyval * pyval))
| PBytes (b : string)
| PDate (year month day : Z)
| PDatetime (year month day hour minute second microsecond : Z)
    (utcoffset : option Z)
| PSet (xs : list pyval).

Module Py.

(** [bool(v)] *)
Definition truthy (v : pyval) : bool :=
  match v with
  | PNone => false
  | PBool b => b
  | PInt n => negb (n =? 0)%Z
  | PFloat (S754_zero _) => false
  | PFloat _ => true
  | PStr s => negb (String.eqb s EmptyString)
  | PList xs => match xs with [] => false | _ :: _ => true end
  | PDict items => match items with [] => false | _ :: _ => true end
  | PBytes b => negb (String.eqb b EmptyString)
  | PDate _ _ _ => true
  | PDatetime _ _ _ _ _ _ _ _ => true
  | PSet xs => match xs with [] => false | _ :: _ => true end
  end.

(** [v or w] *)
Definition or (v w : pyval) : pyval := if truthy v then v else w.

(** Looking a [str] key up in the items of a [dict]; only a [str] key
    can be equal to it. *)
Fixpoint lookup (items : list (pyval * pyval)) (key : string) : option pyval :=
  match items with
  | [] => None
  | (PStr k, v) :: rest => if String.eqb k key then Some v else lookup rest key
  | _ :: rest => lookup rest key
  end.

(** The items after [d[key] = v]. *)
Fixpoint store (items : list (pyval * pyval)) (key : string) (v : pyval)
  : list (pyval * pyval) :=
  match items with
  | [] => [(PStr key, v)]
  | (PStr k, w) :: rest =>
      if String.eqb k key then (PStr k, v) :: rest
      else (PStr k, w) :: store rest key v
  | item :: rest => item :: store rest key v
  end.

Definition lookup_default (items : list (pyval * pyval)) (key : string)
    (default : pyval) : pyval :=
  match lookup items key with
  | Some v => v
  | None => default
  end.

(** [m.get(key, default)]; only a [dict] has the method. *)
Definition get (m : pyval) (key : string) (default : pyval) : result pyval :=
  match m with
  | PDict items => Ok (lookup_default items key default)
  | _ => Raise AttributeError
  end.

(** [m[key] = v], giving the updated object; indexing anything but a
    [dict] by a [str] is a [TypeError]. *)
Definition setitem (m : pyval) (key : string) (v : pyval) : result pyval :=
  match m with
  | PDict items => Ok (PDict (store items key v))
  | _ => Raise TypeError
  end.

(** [x in xs] for a list of strings *)
Definition str_in (x : string) (xs : list string) : bool :=
  existsb (String.eqb x) xs.

(** [xs.sort(key=key, reverse=reverse)]: a stable sort that compares
    keys with [<] only; with [reverse] the order is descending and
    equal keys still keep their original order. *)
Section Sort.
Variable A : Type.
Variable key : A -> string.
Variable reverse : bool.

Definition before (x y : A) : bool :=
  if reverse then String.ltb (key y) (key x) else String.ltb (key x) (key y).

Fixpoint insert (x : A) (l : list A) : list A :=
  match l with
  | [] => [x]
  | y :: l' => if before y x then y :: insert x l' else x :: l
  end.

Definition sort (l : list A) : list A := fold_right insert [] l.

(** The order a sorted list is in: ascending keys, or descending
    ones with [reverse]. *)
Definition in_order (x y : A) : Prop :=
  if reverse then String.leb (key y) (key x) = true
  else String.leb (key x) (key y) = true.
End Sort.

(** [extends base m]: [m] is [base], or both are dictionaries that
    agree on every key but [readMe] and [icon]. *)
Definition extends (base m : pyval) : Prop :=
  m = base \/
  exists b f, base = PDict b /\ m = PDict f /\
    forall key, key <> "readMe" -> key <> "icon" -> lookup f key = lookup b key.

End Py.

(** ** The file system

    A file carries what [stat] reports and its text ([None] when it
    cannot be decoded as UTF-8); [st_mtime] is in whole seconds.  A
    directory lists its entries in the order [iterdir] yields them. *)

Inductive node : Type :=
| File (st_size : Z) (st_mtime : Z) (content : option string)
| Dir (entries : list (string * node)).

Fixpoint assoc {A : Type} (k : string) (l : list (string * A)) : option A :=
  match l with
  | [] => None
  | (k', v) :: rest => if String.eqb k' k then Some v else assoc k rest
  end.

Module Path.

(** A path: its last component and what it leads to, if anything. *)
Record t : Type := mk { name : string; target : option node }.

Definition exists_ (p : t) : bool :=
  match target p with Some _ => true | None => false end.

Definition is_file (p : t) : bool :=
  match target p with Some (File _ _ _) => true | _ => false end.

Definition is_dir (p : t) : bool :=
  match target p with Some (Dir _) => true | _ => false end.

(** [p / child] *)
Definition join (p : t) (child : string) : t :=
  {| name := child;
     target := match target p with
               | Some (Dir entries) => assoc child entries
               | _ => None
               end |}.

(** The path of a directory entry. *)
Definition of_entry (e : string * node) : t :=
  {| name := fst e; target := Some (snd e) |}.

Definition iterdir (p : t) : result (list t) :=
  match target p with
  | Some (Dir entries) => Ok (map of_entry entries)
  | Some (File _ _ _) => Raise NotADirectoryError
  | None => Raise FileNotFoundError
  end.

(** [p.stat()], as the pair of [st_size] and [st_mtime]; a directory's
    own size and time are not part of the model (the generator only
    stats regular files). *)
Definition stat (p : t) : result (Z * Z) :=
  match target p with
  | Some (File size mtime _) => Ok (size, mtime)
  | Some (Dir _) => Ok (0%Z, 0%Z)
  | None => Raise FileNotFoundError
  end.

(** [open(p, 'r', encoding='utf-8')] followed by [read()] *)
Definition read_text (p : t) : result string :=
  match target p with
  | Some (File _ _ (Some text)) => Ok text
  | Some (File _ _ None) => Raise UnicodeDecodeError
  | Some (Dir _) => Raise IsADirectoryError
  | None => Raise FileNotFoundError
  end.

End Path.

(** ** The catalog *)

Module FileInfo.
Record t : Type := mk {
  name : string;
  size : Z;
  lastModified : string
}.
End FileInfo.

Module VersionData.
Record t : Type := mk {
  valid : bool;
  violations : list pyval;
  id : string;
  readMe : option string;
  name : string;
  lastModified : Z;
  files : list FileInfo.t;
  downloadUrl : string;
  downloadCallbackUrl : string
}.

Definition set_readMe (v : t) (text : option string) : t :=
  {| valid := valid v; violations := violations v; id := id v;
     readMe := text; name := name v; lastModified := lastModified v;
     files := files v; downloadUrl := downloadUrl v;
     downloadCallbackUrl := downloadCallbackUrl v |}.
End VersionData.

Module AdditionalProperties.
Record t : Type := mk {
  key : string;
  name : pyval;
  tags : pyval;
  shortDescZh : pyval;
  shortDescEn : pyval;
  description : pyval;
  type : pyval;
  crossVersionUpdate : pyval;
  limit : pyval;
  recommend : pyval;
  website : pyval;
  github : pyval;
  document : pyval;
  architectures : pyval
}.
End AdditionalProperties.

Module AppData.
Record t : Type := mk {
  valid : bool;
  violations : list pyval;
  id : string;
  lastModified : Z;
  icon : pyval;
  readMe : pyval;
  description : pyval;
  name : pyval;
  tags : pyval;
  title : pyval;
  additionalProperties : AdditionalProperties.t;
  versions : list VersionData.t
}.

Definition append_version (a : t) (v : VersionData.t) : t :=
  {| valid := valid a; violations := violations a; id := id a;
     lastModified := lastModified a; icon := icon a; readMe := readMe a;
     description := description a; name := name a; tags := tags a;
     title := title a; additionalProperties := additionalProperties a;
     versions := versions a ++ [v] |}.
End AppData.

Module StoreData.
Record t : Type := mk {
  valid : bool;
  violations : list pyval;
  id : string;
  icon : string;
  lastModified : Z;
  name : string;
  title : string;
  extra : list (string * string);
  apps : list AppData.t
}.

Definition append_app (d : t) (a : AppData.t) : t :=
  {| valid := valid d; violations := violations d; id := id d;
     icon := icon d; lastModified := lastModified d; name := name d;
     title := title d; extra := extra d; apps := apps d ++ [a] |}.
End StoreData.

(** ** Writing JSON

    What [json.dump(data, f, indent=2, ensure_ascii=False)] raises on a
    file opened with [encoding='utf-8'], in the order the document is
    written: [TypeError] at a value that is none of the types JSON has
    and at a key that is not a [str], number, [bool] or [None];
    [UnicodeEncodeError] at a string or key that holds a surrogate.
    Integers of the clock and of [stat] are written as they are.  The
    model leaves out the limits of the interpreter (its recursion depth,
    the digits of an integer it agrees to print). *)

Module Json.

Definition write_str (s : string) : result unit :=
  if Str.has_surrogate s then Raise UnicodeEncodeError else Ok tt.

Definition write_key (k : pyval) : result unit :=
  match k with
  | PStr s => write_str s
  | PNone | PBool _ | PInt _ | PFloat _ => Ok tt
  | _ => Raise TypeError
  end.

(** The items of a list, one after the other. *)
Fixpoint each {A : Type} (write : A -> result unit) (l : list A) : result unit :=
  match l with
  | [] => Ok tt
  | x :: l' => _ <- write x ;; each write l'
  end.

Fixpoint write (v : pyval) : result unit :=
  match v with
  | PNone | PBool _ | PInt _ | PFloat _ => Ok tt
  | PStr s => write_str s
  | PList xs =>
      (fix write_items (xs : list pyval) : result unit :=
         match xs with
         | [] => Ok tt
         | x :: xs' => _ <- write x ;; write_items xs'
         end) xs
  | PDict items =>
      (fix write_items (items : list (pyval * pyval)) : result unit :=
         match items with
         | [] => Ok tt
         | (k, x) :: items' =>
             _ <- write_key k ;; _ <- write x ;; write_items items'
         end) items
  | PBytes _ | PDate _ _ _ | PDatetime _ _ _ _ _ _ _ _ | PSet _ => Raise TypeError
  end.

Definition write_file (f : FileInfo.t) : result unit :=
  _ <- write_str (FileInfo.name f) ;;
  write_str (FileInfo.lastModified f).

Definition write_version (v : VersionData.t) : result unit :=
  _ <- each write (VersionData.violations v) ;;
  _ <- write_str (VersionData.id v) ;;
  _ <- match VersionData.readMe v with
       | Some text => write_str text
       | None => Ok tt
       end ;;
  _ <- write_str (VersionData.name v) ;;
  _ <- each write_file (VersionData.files v) ;;
  _ <- write_str (VersionData.downloadUrl v) ;;
  write_str (VersionData.downloadCallbackUrl v).

Definition write_properties (p : AdditionalProperties.t) : result unit :=
  _ <- write_str (AdditionalProperties.key p) ;;
  _ <- write (AdditionalProperties.name p) ;;
  _ <- write (AdditionalProperties.tags p) ;;
  _ <- write (AdditionalProperties.shortDescZh p) ;;
  _ <- write (AdditionalProperties.shortDescEn p) ;;
  _ <- write (AdditionalProperties.description p) ;;
  _ <- write (AdditionalProperties.type p) ;;
  _ <- write (AdditionalProperties.crossVersionUpdate p) ;;
  _ <- write (AdditionalProperties.limit p) ;;
  _ <- write (AdditionalProperties.recommend p) ;;
  _ <- write (AdditionalProperties.website p) ;;
  _ <- write (AdditionalProperties.github p) ;;
  _ <- write (AdditionalProperties.document p) ;;
  write (AdditionalProperties.architectures p).

Definition write_app (a : AppData.t) : result unit :=
  _ <- each write (AppData.violations a) ;;
  _ <- write_str (AppData.id a) ;;
  _ <- write (AppData.icon a) ;;
  _ <- write (AppData.readMe a) ;;
  _ <- write (AppData.description a) ;;
  _ <- write (AppData.name a) ;;
  _ <- write (AppData.tags a) ;;
  _ <- write (AppData.title a) ;;
  _ <- write_properties (AppData.additionalProperties a) ;;
  each write_version (AppData.versions a).

Definition write_extra (item : string * string) : result unit :=
  _ <- write_str (fst item) ;; write_str (snd item).

(** [json.dump] of the catalog *)
Definition dump (d : StoreData.t) : result unit :=
  _ <- each write (StoreData.violations d) ;;
  _ <- write_str (StoreData.id d) ;;
  _ <- write_str (StoreData.icon d) ;;
  _ <- write_str (StoreData.name d) ;;
  _ <- write_str (StoreData.title d) ;;
  _ <- each write_extra (StoreData.extra d) ;;
  each write_app (StoreData.apps d).

End Json.

(** ** The host

    The environment variables, the offset of local time from UTC in
    seconds, the working directory, and the clock: [time_time k] is what
    [int(time.time())] gives when the entity at path [k] is stamped (the
    catalog at [[]], an application at [[app]], a version at
    [[app; version]]); each is stamped once in a run. *)

Record Host : Type := mk_host {
  environ : list (string * string);
  utc_offset : Z;
  cwd : list (string * node);
  time_time : list string -> Z
}.

(** ** The interpreter

    What a run takes from the Python interpreter and the C library of
    the host:
    - [str_title s] is [s.title()], which follows the Unicode data of
      the interpreter;
    - [is_decimal c] tells whether the code point [c] is a decimal digit
      (category [Nd]), which is what [\d] matches in a [str] pattern;
      the digits [0] to [9] are decimal digits in every version of the
      data and no other ASCII character is;
    - [gmtime_error secs] is the exception [time.gmtime(secs)] raises
      ([OSError] or [OverflowError] when the time is out of the range of
      the platform), if it raises one;
    - [strftime_error t] is the exception [time.strftime] raises for the
      calendar time [t] ([OverflowError] when its year does not fit the
      C library), if it raises one;
    - [stdout_accepts text] tells whether [print(text)] succeeds, that
      is whether [sys.stdout] can encode [text];
    - [exn_str e] is the text of the exception, [str(e)]. *)

Record Runtime : Type := mk_runtime {
  str_title : string -> string;
  is_decimal : N -> bool;
  gmtime_error : Z -> option exn;
  strftime_error : PyTime.struct_time -> option exn;
  stdout_accepts : string -> bool;
  exn_str : exn -> string
}.

(** [time.gmtime(secs)] *)
Definition time_gmtime (rt : Runtime) (secs : Z) : result PyTime.struct_time :=
  match gmtime_error rt secs with
  | Some e => Raise e
  | None => Ok (PyTime.gmtime secs)
  end.

(** [time.strftime(format, t)] *)
Definition time_strftime (rt : Runtime) (format : string) (t : PyTime.struct_time)
  : result string :=
  match strftime_error rt t with
  | Some e => Raise e
  | None => Ok (PyTime.strftime format t)
  end.

(** [print(text)] *)
Definition print (rt : Runtime) (text : string) : result unit :=
  if stdout_accepts rt text then Ok tt else Raise UnicodeEncodeError.

(** ** Version names in words *)

(** The pattern [^v?\d+[-._]\d+] in words: an optional leading [v], one or more
    digits, one of [-], [.] and [_], one or more digits, and then
    anything; the characters are the code points of the name and the
    digits the decimal digits of the interpreter. *)
Definition digits1 (rt : Runtime) (s : list N) : Prop :=
  s <> [] /\ forallb (is_decimal rt) s = true.

Definition version_like (rt : Runtime) (name : string) : Prop :=
  exists v ds1 sep ds2 rest,
    Utf8.decode name = v ++ ds1 ++ sep :: ds2 ++ rest /\
    (v = [] \/ v = [Utf8.cp "v"]) /\
    digits1 rt ds1 /\
    (sep = Utf8.cp "-" \/ sep = Utf8.cp "." \/ sep = Utf8.cp "_") /\
    digits1 rt ds2.

(** ** [AppStoreGenerator] *)

Module AppStoreGenerator.

(** The attributes of an instance ([self]). *)
Record t : Type := mk {
  github_repo : string;
  base_url : string;
  apps_dir : string;
  output_file : string
}.

(** [AppStoreGenerator.__init__] *)
Definition init (environ : list (string * string)) (github_repo : string)
  : t :=
  let github_repo :=
    if negb (String.eqb github_repo EmptyString) then github_repo
    else match assoc "GITHUB_REPOSITORY" environ with
         | Some v => v
         | None => "yourusername/appstore"
         end in
  {| github_repo := github_repo;
     base_url := "https://raw.githubusercontent.com/" ++ github_repo ++ "/main";
     apps_dir := "apps";
     output_file := "appstore.json" |}.

(** ** [AppStoreGenerator.get_file_info] *)

Definition get_file_info (rt : Runtime) (file_path : Path.t) : result FileInfo.t :=
  stat <- Path.stat file_path ;;
  t <- time_gmtime rt (snd stat) ;;
  lastModified <- time_strftime rt "%Y-%m-%dT%H:%M:%S.000+00:00" t ;;
  Ok {| FileInfo.name := Path.name file_path;
        FileInfo.size := fst stat;
        FileInfo.lastModified := lastModified |}.

(** ** [AppStoreGenerator.parse_version] *)

Definition parse_version (version_dir : string) : string :=
  if Str.contains "-" version_dir then Str.replace version_dir "-" "."
  else if Str.contains "_" version_dir then Str.replace version_dir "_" "."
  else version_dir.

Definition icon_names : list string :=
  ["logo.png"; "icon.png"; "logo.svg"; "icon.svg"].

(** The pattern [^v?\d+[-._]\d+] *)
Definition version_pattern (rt : Runtime) : Re.regex :=
  let digit := Re.Class (is_decimal rt) in
  Re.Seq (Re.Opt (Re.Chr "v"))
    (Re.Seq (Re.Plus digit)
       (Re.Seq (Re.OneOf ["-"; "."; "_"]%char) (Re.Plus digit))).

Section Generator.

Variable rt : Runtime.

(** The parsers of the [yaml] and [json] libraries, applied to the text
    of a file. *)
Variable yaml_safe_load : string -> result pyval.
Variable json_load : string -> result pyval.

Variable host : Host.
Variable self : t.

(** *** [get_app_metadata] *)

(** The loop over the icon names: the first one that exists is stored
    and ends the loop. *)
Fixpoint find_icon (app_dir : Path.t) (names : list string) (metadata : pyval)
  : result pyval :=
  match names with
  | [] => Ok metadata
  | icon_name :: rest =>
      let icon_path := Path.join app_dir icon_name in
      if Path.exists_ icon_path
      then Py.setitem metadata "icon"
             (PStr (base_url self ++ "/apps/" ++ Path.name app_dir ++ "/" ++ icon_name))
      else find_icon app_dir rest metadata
  end.

Definition get_app_metadata (app_dir : Path.t) : result pyval :=
  let metadata := PDict [] in
  let metadata_yml := Path.join app_dir "metadata.yml" in
  let metadata_json := Path.join app_dir "metadata.json" in
  metadata <-
    (if Path.exists_ metadata_yml then
       f <- Path.read_text metadata_yml ;;
       v <- yaml_safe_load f ;;
       Ok (Py.or v (PDict []))
     else if Path.exists_ metadata_json then
       f <- Path.read_text metadata_json ;;
       json_load f
     else Ok metadata) ;;
  let readme_path := Path.join app_dir "README.md" in
  metadata <-
    (if Path.exists_ readme_path then
       f <- Path.read_text readme_path ;;
       Py.setitem metadata "readMe" (PStr f)
     else Ok metadata) ;;
  find_icon app_dir icon_names metadata.

(** *** [process_version] *)

Fixpoint collect_files (paths : list Path.t) (files : list FileInfo.t)
  : result (list FileInfo.t) :=
  match paths with
  | [] => Ok files
  | file_path :: rest =>
      if Path.is_file file_path
         && negb (Str.startswith (Path.name file_path) ".")
      then info <- get_file_info rt file_path ;;
           collect_files rest (files ++ [info])
      else collect_files rest files
  end.

Definition process_version (app_name : string) (version_dir : Path.t)
  : result VersionData.t :=
  let version_name := parse_version (Path.name version_dir) in
  paths <- Path.iterdir version_dir ;;
  files <- collect_files paths [] ;;
  let files := Py.sort FileInfo.name false files in
  let version_data :=
    {| VersionData.valid := true;
       VersionData.violations := [];
       VersionData.id := Path.name version_dir;
       VersionData.readMe := None;
       VersionData.name := version_name;
       VersionData.lastModified :=
         time_time host [app_name; Path.name version_dir];
       VersionData.files := files;
       VersionData.downloadUrl :=
         base_url self ++ "/apps/" ++ app_name ++ "/" ++ Path.name version_dir;
       VersionData.downloadCallbackUrl :=
         "https://api.github.com/repos/" ++ github_repo self
           ++ "/contents/apps/" ++ app_name ++ "/" ++ Path.name version_dir |} in
  let version_readme := Path.join version_dir "README.md" in
  if Path.exists_ version_readme then
    f <- Path.read_text version_readme ;;
    Ok (VersionData.set_readMe version_data (Some f))
  else Ok version_data.

(** *** [process_app] *)

(** The loop that picks the version directories. *)
Fixpoint collect_version_dirs (items : list Path.t) (version_dirs : list Path.t)
  : list Path.t :=
  match items with
  | [] => version_dirs
  | item :: rest =>
      if Path.is_dir item && negb (Str.startswith (Path.name item) ".")
      then
        if Re.match_ (version_pattern rt) (Path.name item)
           || Py.str_in (Path.name item) ["latest"; "stable"]
        then collect_version_dirs rest (version_dirs ++ [item])
        else collect_version_dirs rest version_dirs
      else collect_version_dirs rest version_dirs
  end.

(** The loop that processes them in turn. *)
Fixpoint process_versions (app_name : string) (version_dirs : list Path.t)
    (app_data : AppData.t) : result AppData.t :=
  match version_dirs with
  | [] => Ok app_data
  | version_dir :: rest =>
      version_data <- process_version app_name version_dir ;;
      process_versions app_name rest (AppData.append_version app_data version_data)
  end.

Definition process_app (app_dir : Path.t) : result AppData.t :=
  let app_name := Path.name app_dir in
  metadata <- get_app_metadata app_dir ;;
  let lastModified := time_time host [app_name] in
  icon <- Py.get metadata "icon" (PStr (base_url self ++ "/apps/" ++ app_name ++ "/logo.png")) ;;
  readMe <- Py.get metadata "readMe"
              (PStr ("# " ++ str_title rt app_name ++ String "010" (String "010"
                       ("Description for " ++ app_name ++ "...")))) ;;
  description <- Py.get metadata "description" (PStr ("Description for " ++ app_name)) ;;
  name <- Py.get metadata "name" (PStr (str_title rt app_name)) ;;
  tags <- Py.get metadata "tags" (PList []) ;;
  title <- Py.get metadata "title" (PStr (str_title rt app_name)) ;;
  ap_name <- Py.get metadata "name" (PStr (str_title rt app_name)) ;;
  ap_tags <- Py.get metadata "tags" (PList []) ;;
  shortDescZh <- Py.get metadata "shortDescZh" (PStr EmptyString) ;;
  shortDescEn_default <- Py.get metadata "description" (PStr EmptyString) ;;
  shortDescEn <- Py.get metadata "shortDescEn" shortDescEn_default ;;
  description_en <- Py.get metadata "description" (PStr EmptyString) ;;
  description_zh <- Py.get metadata "descriptionZh" (PStr EmptyString) ;;
  ap_description <- Py.get metadata "descriptions"
                      (PDict [(PStr "en", description_en); (PStr "zh", description_zh)]) ;;
  type <- Py.get metadata "type" (PStr "runtime") ;;
  crossVersionUpdate <- Py.get metadata "crossVersionUpdate" (PBool true) ;;
  limit <- Py.get metadata "limit" (PInt 1) ;;
  recommend <- Py.get metadata "recommend" (PInt 100) ;;
  website <- Py.get metadata "website" (PStr EmptyString) ;;
  github <- Py.get metadata "github" (PStr EmptyString) ;;
  document <- Py.get metadata "document" (PStr EmptyString) ;;
  architectures <- Py.get metadata "architectures" (PList [PStr "amd64"; PStr "arm64"]) ;;
  let app_data :=
    {| AppData.valid := true;
       AppData.violations := [];
       AppData.id := app_name;
       AppData.lastModified := lastModified;
       AppData.icon := icon;
       AppData.readMe := readMe;
       AppData.description := description;
       AppData.name := name;
       AppData.tags := tags;
       AppData.title := title;
       AppData.additionalProperties :=
         {| AdditionalProperties.key := app_name;
            AdditionalProperties.name := ap_name;
            AdditionalProperties.tags := ap_tags;
            AdditionalProperties.shortDescZh := shortDescZh;
            AdditionalProperties.shortDescEn := shortDescEn;
            AdditionalProperties.description := ap_description;
            AdditionalProperties.type := type;
            AdditionalProperties.crossVersionUpdate := crossVersionUpdate;
            AdditionalProperties.limit := limit;
            AdditionalProperties.recommend := recommend;
            AdditionalProperties.website := website;
            AdditionalProperties.github := github;
            AdditionalProperties.document := document;
            AdditionalProperties.architectures := architectures |};
       AppData.versions := [] |} in
  items <- Path.iterdir app_dir ;;
  let version_dirs := collect_version_dirs items [] in
  let version_dirs := Py.sort Path.name true version_dirs in
  process_versions app_name version_dirs app_data.

(** *** [save] and [generate]

    [save] gives the write it performs, the output path and the
    document dumped to it, or the exception [json.dump] raises (the
    output file is then left cut short).  The output path is taken to
    be writable. *)

Definition save (data : StoreData.t) : result (string * StoreData.t) :=
  _ <- Json.dump data ;;
  Ok (output_file self, data).

(** The loop over the application directories, with its
    [try]/[except Exception]: an application whose processing raises is
    left out and the loop goes on.  The two messages of the loop hold
    the name of the directory; the first is printed inside the [try],
    the second by the handler, where nothing catches what it raises. *)
Fixpoint process_apps (app_dirs : list Path.t) (store_data : StoreData.t)
  : result StoreData.t :=
  match app_dirs with
  | [] => Ok store_data
  | app_dir :: rest =>
      store_data <-
        try_except
          (_ <- print rt ("Processing app: " ++ Path.name app_dir) ;;
           app_data <- process_app app_dir ;;
           Ok (StoreData.append_app store_data app_data))
          (fun e =>
             _ <- print rt ("Error processing " ++ Path.name app_dir ++ ": "
                              ++ exn_str rt e) ;;
             Ok store_data) ;;
      process_apps rest store_data
  end.

(** The other two messages of [generate] are made of the generator's
    own constants; they are taken to be printed. *)

Definition generate : result (string * StoreData.t) :=
  let store_data :=
    {| StoreData.valid := true;
       StoreData.violations := [];
       StoreData.id := "corapanel";
       StoreData.icon := "https://cdn-icons-png.flaticon.com/512/4187/4187336.png";
       StoreData.lastModified := time_time host [];
       StoreData.name := "CoraPANEL";
       StoreData.title := "Official Appstore for CoraPANEL";
       StoreData.extra := [("version", "v1.0.0")];
       StoreData.apps := [] |} in
  let apps_path :=
    {| Path.name := apps_dir self; Path.target := assoc (apps_dir self) (cwd host) |} in
  if negb (Path.exists_ apps_path) then save store_data
  else
    ds <- Path.iterdir apps_path ;;
    let app_dirs :=
      filter (fun d => Path.is_dir d && negb (Str.startswith (Path.name d) ".")) ds in
    let app_dirs := Py.sort Path.name false app_dirs in
    store_data <- process_apps app_dirs store_data ;;
    save store_data.

End Generator.

End AppStoreGenerator.

Import AppStoreGenerator.

(** ** [main] *)

Definition main (rt : Runtime) (yaml_safe_load json_load : string -> result pyval)
    (host : Host) : result (string * StoreData.t) :=
  let generator := init (environ host) EmptyString in
  generate rt yaml_safe_load json_load host generator.

(** ** Notions the properties are stated with *)

Module Spec.

(** The files [process_version] lists. *)
Definition listed_file (file_path : Path.t) : bool :=
  Path.is_file file_path && negb (Str.startswith (Path.name file_path) ".").

(** The directories [process_app] takes for versions. *)
Definition is_version_dir (rt : Runtime) (item : Path.t) : bool :=
  Path.is_dir item && negb (Str.startswith (Path.name item) ".")
  && (Re.match_ (version_pattern rt) (Path.name item)
      || Py.str_in (Path.name item) ["latest"; "stable"]).

(** The directories [generate] takes for applications, and the order
    it visits them in. *)
Definition is_app_dir (d : Path.t) : bool :=
  Path.is_dir d && negb (Str.startswith (Path.name d) ".").

Definition app_dirs (entries : list (string * node)) : list Path.t :=
  Py.sort Path.name false (filter is_app_dir (map Path.of_entry entries)).

(** The application directories whose processing does not raise. *)
Definition processed (rt : Runtime) (yaml_safe_load json_load : string -> result pyval)
    (host : Host) (self : AppStoreGenerator.t) (d : Path.t) : bool :=
  is_ok (process_app rt yaml_safe_load json_load host self d).

(** The two lines the loop of [generate] prints for an application
    directory. *)
Definition progress_line (d : Path.t) : string :=
  "Processing app: " ++ Path.name d.

Definition error_line (rt : Runtime) (d : Path.t) (e : exn) : string :=
  "Error processing " ++ Path.name d ++ ": " ++ exn_str rt e.

(** The application directories that get an entry: the progress line
    is printed and the processing does not raise. *)
Definition entered (rt : Runtime) (yaml_safe_load json_load : string -> result pyval)
    (host : Host) (self : AppStoreGenerator.t) (d : Path.t) : bool :=
  stdout_accepts rt (progress_line d)
  && processed rt yaml_safe_load json_load host self d.

(** The catalog [generate] starts from. *)
Definition empty_catalog (host : Host) : StoreData.t :=
  {| StoreData.valid := true;
     StoreData.violations := [];
     StoreData.id := "corapanel";
     StoreData.icon := "https://cdn-icons-png.flaticon.com/512/4187/4187336.png";
     StoreData.lastModified := time_time host [];
     StoreData.name := "CoraPANEL";
     StoreData.title := "Official Appstore for CoraPANEL";
     StoreData.extra := [("version", "v1.0.0")];
     StoreData.apps := [] |}.

(** The mapping [get_app_metadata] starts from: the document of
    [metadata.yml] when the file exists (a false document counting as
    an empty mapping), else the document of [metadata.json] when that
    file exists, else the empty mapping. *)
Inductive metadata_source (yaml_safe_load json_load : string -> result pyval)
    (app_dir : Path.t) : pyval -> Prop :=
| source_yaml (text : string) (v : pyval) :
    Path.exists_ (Path.join app_dir "metadata.yml") = true ->
    Path.read_text (Path.join app_dir "metadata.yml") = Ok text ->
    yaml_safe_load text = Ok v ->
    metadata_source yaml_safe_load json_load app_dir (Py.or v (PDict []))
| source_json (text : string) (v : pyval) :
    Path.exists_ (Path.join app_dir "metadata.yml") = false ->
    Path.exists_ (Path.join app_dir "metadata.json") = true ->
    Path.read_text (Path.join app_dir "metadata.json") = Ok text ->
    json_load text = Ok v ->
    metadata_source yaml_safe_load json_load app_dir v
| source_none :
    Path.exists_ (Path.join app_dir "metadata.yml") = false ->
    Path.exists_ (Path.join app_dir "metadata.json") = false ->
    metadata_source yaml_safe_load json_load app_dir (PDict []).

(** The modification times [get_file_info] can render. *)
Definition stampable (rt : Runtime) (mtime : Z) : bool :=
  match gmtime_error rt mtime, strftime_error rt (PyTime.gmtime mtime) with
  | None, None => true
  | _, _ => false
  end.

(** Two outcomes that both return, with the same value, or both
    raise. *)
Definition same_result {A : Type} (r1 r2 : result A) : Prop :=
  match r1, r2 with
  | Ok a1, Ok a2 => a1 = a2
  | Raise _, Raise _ => True
  | _, _ => False
  end.

(** A catalog with its integer time stamps set to zero; the time
    stamps of the files are kept. *)
Definition untimed_version (v : VersionData.t) : VersionData.t :=
  {| VersionData.valid := VersionData.valid v;
     VersionData.violations := VersionData.violations v;
     VersionData.id := VersionData.id v;
     VersionData.readMe := VersionData.readMe v;
     VersionData.name := VersionData.name v;
     VersionData.lastModified := 0;
     VersionData.files := VersionData.files v;
     VersionData.downloadUrl := VersionData.downloadUrl v;
     VersionData.downloadCallbackUrl := VersionData.downloadCallbackUrl v |}.

Definition untimed_app (a : AppData.t) : AppData.t :=
  {| AppData.valid := AppData.valid a;
     AppData.violations := AppData.violations a;
     AppData.id := AppData.id a;
     AppData.lastModified := 0;
     AppData.icon := AppData.icon a;
     AppData.readMe := AppData.readMe a;
     AppData.description := AppData.description a;
     AppData.name := AppData.name a;
     AppData.tags := AppData.tags a;
     AppData.title := AppData.title a;
     AppData.additionalProperties := AppData.additionalProperties a;
     AppData.versions := map untimed_version (AppData.versions a) |}.

Definition untimed (doc : StoreData.t) : StoreData.t :=
  {| StoreData.valid := StoreData.valid doc;
     StoreData.violations := StoreData.violations doc;
     StoreData.id := StoreData.id doc;
     StoreData.icon := StoreData.icon doc;
     StoreData.lastModified := 0;
     StoreData.name := StoreData.name doc;
     StoreData.title := StoreData.title doc;
     StoreData.extra := StoreData.extra doc;
     StoreData.apps := map untimed_app (StoreData.apps doc) |}.

(** The entry [get_file_info] makes for a regular file. *)
Definition file_info (p : Path.t) : FileInfo.t :=
  {| FileInfo.name := Path.name p;
     FileInfo.size :=
       match Path.target p with Some (File size _ _) => size | _ => 0%Z end;
     FileInfo.lastModified :=
       PyTime.strftime "%Y-%m-%dT%H:%M:%S.000+00:00"
         (PyTime.gmtime
            match Path.target p with Some (File _ mtime _) => mtime | _ => 0%Z end) |}.

(** Two outcomes that raise the same exception or return related
    values. *)
Definition same_outcome {A : Type} (R : A -> A -> Prop) (r1 r2 : result A) : Prop :=
  match r1, r2 with
  | Ok a1, Ok a2 => R a1 a2
  | Raise e1, Raise e2 => e1 = e2
  | _, _ => False
  end.

End Spec.

Import Spec.

(** ** Sample inputs

    A stand-in for the two parsers on the few texts the examples below
    use, a stand-in for the interpreter, and some small directory
    trees. *)

Module Sample.

Local Open Scope N_scope.

(** The ASCII letters and the Latin-1 letters whose other case is a
    Latin-1 letter; every other character is taken for uncased. *)
Definition is_upper (c : N) : bool :=
  (65 <=? c) && (c <=? 90) || (192 <=? c) && (c <=? 222) && negb (c =? 215).
Definition is_lower (c : N) : bool :=
  (97 <=? c) && (c <=? 122) || (224 <=? c) && (c <=? 254) && negb (c =? 247).

(** A cased character that follows an uncased one (or starts the
    string) is upper-cased, one that follows a cased character is
    lower-cased. *)
Fixpoint title_scan (previous_is_cased : bool) (s : list N) : list N :=
  match s with
  | [] => []
  | c :: s' =>
      if is_upper c
      then (if previous_is_cased then c + 32 else c) :: title_scan true s'
      else if is_lower c
      then (if previous_is_cased then c else c - 32) :: title_scan true s'
      else c :: title_scan false s'
  end.

Definition title (s : string) : string :=
  Utf8.encode (title_scan false (Utf8.decode s)).

(** Three of the ranges of decimal digits: ASCII, Arabic-Indic and
    fullwidth. *)
Definition decimal (c : N) : bool :=
  (48 <=? c) && (c <=? 57) || (1632 <=? c) && (c <=? 1641)
  || (65296 <=? c) && (c <=? 65305).

Local Close Scope N_scope.

Definition exn_name (e : exn) : string :=
  match e with
  | YAMLError => "YAMLError"
  | JSONDecodeError => "JSONDecodeError"
  | TypeError => "TypeError"
  | AttributeError => "AttributeError"
  | FileNotFoundError => "FileNotFoundError"
  | IsADirectoryError => "IsADirectoryError"
  | NotADirectoryError => "NotADirectoryError"
  | UnicodeDecodeError => "UnicodeDecodeError"
  | UnicodeEncodeError => "UnicodeEncodeError"
  | OSError => "OSError"
  | OverflowError => "OverflowError"
  end.

(** An interpreter on a 64-bit Linux host whose standard output is
    strict UTF-8: [time.gmtime] gives up when the year leaves the range
    of the C library, [time.strftime] when it does not fit a C [int],
    and [print] on a surrogate. *)
Definition rt : Runtime :=
  {| str_title := title;
     is_decimal := decimal;
     gmtime_error := fun secs =>
       if ((secs <? -67768040609740800) || (67768036191676800 <=? secs))%Z
       then Some OSError else None;
     strftime_error := fun t =>
       if (2147483647 <? PyTime.tm_year t)%Z then Some OverflowError else None;
     stdout_accepts := fun text => negb (Str.has_surrogate text);
     exn_str := exn_name |}.

Definition yaml_safe_load (text : string) : result pyval :=
  if String.eqb text EmptyString then Ok PNone
  else if String.eqb text "name: Nginx" then Ok (PDict [(PStr "name", PStr "Nginx")])
  else if String.eqb text "description: A web server"
  then Ok (PDict [(PStr "description", PStr "A web server")])
  else if String.eqb text "- a" then Ok (PList [PStr "a"])
  else if String.eqb text "description: 2024-01-01"
  then Ok (PDict [(PStr "description", PDate 2024 1 1)])
  else Raise YAMLError.

Definition json_load (text : string) : result pyval :=
  if String.eqb text "{}" then Ok (PDict [])
  else if String.eqb text "[]" then Ok (PList [])
  else if String.eqb text "null" then Ok PNone
  else Raise JSONDecodeError.

Definition text_file (text : string) : node :=
  File (Z.of_nat (String.length text)) 1700000000 (Some text).

(** An application with versions and entries that are not versions. *)
Definition nginx : node :=
  Dir [("metadata.yml", text_file "name: Nginx");
       ("1", Dir []);
       ("2.5.1", Dir [("b.tar.gz", text_file "bb"); (".keep", text_file "k");
                      ("a.yml", text_file "a"); ("sub", Dir [])]);
       ("data", Dir []);
       (".hidden", Dir []);
       ("latest", Dir []);
       ("v1-0", Dir [("README.md", text_file "notes")]);
       ("stable", Dir [])].

(** An application whose metadata file does not parse. *)
Definition broken : node :=
  Dir [("metadata.yml", text_file ": : :"); ("1.0", Dir [])].

(** An application with no metadata file. *)
Definition plain : node :=
  Dir [("1-26-0", Dir []); ("1_27_0", Dir [])].

(** Two versions whose order as strings is not their order as
    version numbers. *)
Definition semver : node :=
  Dir [("2-0-0", Dir []); ("10-0-0", Dir [])].

(** An application with a YAML file, a JSON file and a README. *)
Definition both : node :=
  Dir [("metadata.json", text_file "{}");
       ("README.md", text_file "# Both");
       ("metadata.yml", text_file "description: A web server")].

Definition host (utc_offset : Z) (cwd : list (string * node)) : Host :=
  {| environ := [("GITHUB_REPOSITORY", "cloudora-vn/appstore")];
     utc_offset := utc_offset;
     cwd := cwd;
     time_time := fun _ => 1700000000%Z |}.

Definition self : AppStoreGenerator.t :=
  init [("GITHUB_REPOSITORY", "cloudora-vn/appstore")] "".

Definition apps_entries : list (string * node) :=
  [("nginx", nginx); ("broken", broken); ("my-app", plain);
   (".git", Dir []); ("README.md", text_file "apps")].

Definition apps : node := Dir apps_entries.

(** The path of a directory entry called [name]. *)
Definition path (name : string) (n : node) : Path.t :=
  {| Path.name := name; Path.target := Some n |}.

(** The entries of two version directories. *)
Definition release_entries : list (string * node) :=
  [("b.tar.gz", text_file "bb"); (".keep", text_file "k");
   ("a.yml", text_file "a"); ("sub", Dir [])].

Definition readme_entries : list (string * node) :=
  [("README.md", text_file "notes")].

(** An application with two icon files and no metadata. *)
Definition iconic : node :=
  Dir [("icon.svg", text_file "svg"); ("icon.png", text_file "png"); ("1.0", Dir [])].

(** An application with a version whose [README.md] is a directory. *)
Definition unreadable : node :=
  Dir [("1.0", Dir [("README.md", Dir [])])].

(** An application whose description is a YAML date. *)
Definition dated : node :=
  Dir [("metadata.yml", text_file "description: 2024-01-01"); ("1.0", Dir [])].

End Sample.

(** * Properties *)

Lemma prefix_empty (s : string) : String.prefix EmptyString s = true.
Proof. now destruct s. Qed.

Lemma string_append_assoc (s1 s2 s3 : string) :
  ((s1 ++ s2) ++ s3 = s1 ++ (s2 ++ s3))%string.
Proof. induction s1; simpl; congruence. Qed.

Lemma contains_char (a : ascii) (s : string) :
  Str.contains (String a EmptyString) s = true <-> Str.occurs a s.
Proof.
  induction s as [|c s IH]; simpl.
  - split; [discriminate | tauto].
  - rewrite orb_true_iff, IH, prefix_empty.
    destruct (ascii_dec a c) as [->|Hne].
    + split; now left.
    + split.
      * intros [H|H]; [discriminate | now right].
      * intros [H|H]; [congruence | now right].
Qed.

Lemma contains_char_false (a : ascii) (s : string) :
  Str.contains (String a EmptyString) s = false <-> ~ Str.occurs a s.
Proof.
  rewrite <- contains_char. destruct (Str.contains _ s); split; congruence.
Qed.

Lemma replace_char (a b : ascii) (s : string) :
  Str.replace s (String a EmptyString) (String b EmptyString) = Str.subst_char a b s.
Proof.
  unfold Str.replace.
  induction s as [|c s IH]; [reflexivity|].
  cbn [Str.replace_scan Str.subst_char String.prefix String.length Nat.sub].
  destruct (ascii_dec a c) as [->|Hne].
  - rewrite Ascii.eqb_refl, prefix_empty.
    simpl. now rewrite IH.
  - destruct (Ascii.eqb_spec c a) as [->|_]; [congruence|].
    now rewrite IH.
Qed.

(** C3.  The display name of a version directory: every ['-'] becomes
    ['.'] when the name has a ['-']; otherwise every ['_'] becomes ['.']
    when it has a ['_']; otherwise the name is returned as it is.  So
    ['1-26-0'] and ['1_26_0'] both give ['1.26.0'] and ['v2.0'] is
    unchanged. *)
Theorem parse_version_normalizes :
  (forall d : string,
      (Str.occurs "-" d -> parse_version d = Str.subst_char "-" "." d) /\
      (~ Str.occurs "-" d -> Str.occurs "_" d ->
       parse_version d = Str.subst_char "_" "." d) /\
      (~ Str.occurs "-" d -> ~ Str.occurs "_" d -> parse_version d = d)) /\
  parse_version "1-26-0" = "1.26.0" /\
  parse_version "1_26_0" = "1.26.0" /\
  parse_version "v2.0" = "v2.0".
Proof.
  split; [|repeat split; reflexivity].
  intros d. unfold parse_version. repeat split.
  - intros H. apply contains_char in H. rewrite H. apply replace_char.
  - intros H1 H2. apply contains_char_false in H1. apply contains_char in H2.
    rewrite H1, H2. apply replace_char.
  - intros H1 H2. apply contains_char_false in H1, H2. now rewrite H1, H2.
Qed.



(** ** String order and [sort] *)

Lemma ascii_compare_N (a b : ascii) :
  Ascii.compare a b = N.compare (N_of_ascii a) (N_of_ascii b).
Proof. reflexivity. Qed.

Lemma string_leb_trans (a b c : string) :
  String.leb a b = true -> String.leb b c = true -> String.leb a c = true.
Proof.
  unfold String.leb. revert b c.
  induction a as [|x a IH]; intros [|y b] [|z c]; simpl; try congruence.
  rewrite !ascii_compare_N.
  destruct (N.compare_spec (N_of_ascii x) (N_of_ascii y));
    destruct (N.compare_spec (N_of_ascii y) (N_of_ascii z));
    destruct (N.compare_spec (N_of_ascii x) (N_of_ascii z));
    try congruence; try lia.
  apply IH.
Qed.

Lemma string_ltb_false (a b : string) :
  String.ltb a b = false <-> String.leb b a = true.
Proof.
  unfold String.ltb, String.leb. rewrite (String.compare_antisym a b).
  destruct (String.compare b a); simpl; split; congruence.
Qed.

Lemma string_ltb_true (a b : string) :
  String.ltb a b = true -> String.leb a b = true.
Proof.
  unfold String.ltb, String.leb. destruct (String.compare a b); congruence.
Qed.

Lemma string_leb_refl (a : string) : String.leb a a = true.
Proof. destruct (String.leb_total a a); assumption. Qed.

Section SortFacts.
Variable A : Type.
Variable key : A -> string.
Variable reverse : bool.

Lemma before_false (x y : A) : Py.before key reverse y x = false <-> (Py.in_order key reverse) x y.
Proof.
  unfold Py.before, Py.in_order. destruct reverse; apply string_ltb_false.
Qed.

Lemma before_true (x y : A) : Py.before key reverse y x = true -> (Py.in_order key reverse) y x.
Proof.
  unfold Py.before, Py.in_order. destruct reverse; apply string_ltb_true.
Qed.

Lemma in_order_trans (x y z : A) : (Py.in_order key reverse) x y -> (Py.in_order key reverse) y z -> (Py.in_order key reverse) x z.
Proof.
  unfold Py.in_order. destruct reverse; eauto using string_leb_trans.
Qed.

Lemma insert_perm (x : A) (l : list A) :
  Permutation (x :: l) (Py.insert key reverse x l).
Proof.
  induction l as [|y l IH]; simpl; [constructor; constructor|].
  destruct (Py.before key reverse y x); [|reflexivity].
  rewrite perm_swap. now constructor.
Qed.

Lemma sort_perm (l : list A) : Permutation l (Py.sort key reverse l).
Proof.
  induction l as [|x l IH]; simpl; [constructor|].
  rewrite <- insert_perm. now constructor.
Qed.

Lemma insert_sorted (x : A) (l : list A) :
  StronglySorted (Py.in_order key reverse) l -> StronglySorted (Py.in_order key reverse) (Py.insert key reverse x l).
Proof.
  induction 1 as [|y l Hl IH Hy]; simpl.
  - repeat constructor.
  - destruct (Py.before key reverse y x) eqn:E.
    + constructor; [assumption|].
      eapply Permutation_Forall; [apply insert_perm|].
      constructor; [now apply before_true | assumption].
    + apply before_false in E.
      constructor; [now constructor|].
      constructor; [assumption|].
      eapply Forall_impl; [|exact Hy].
      intros z Hz. eapply in_order_trans; eassumption.
Qed.

Lemma sort_sorted (l : list A) : StronglySorted (Py.in_order key reverse) (Py.sort key reverse l).
Proof.
  induction l as [|x l IH]; simpl; [constructor | now apply insert_sorted].
Qed.

Lemma sort_In (x : A) (l : list A) : In x (Py.sort key reverse l) <-> In x l.
Proof.
  split; apply Permutation_in; [symmetry|]; apply sort_perm.
Qed.
End SortFacts.

Lemma StronglySorted_map (A B : Type) (f : A -> B) (R : B -> B -> Prop) (l : list A) :
  StronglySorted (fun x y => R (f x) (f y)) l -> StronglySorted R (map f l).
Proof.
  induction 1 as [|x l Hl IH Hx]; simpl; constructor; [assumption|].
  now apply Forall_map.
Qed.

Lemma StronglySorted_filter (A : Type) (R : A -> A -> Prop) (p : A -> bool) (l : list A) :
  StronglySorted R l -> StronglySorted R (filter p l).
Proof.
  induction 1 as [|x l Hl IH Hx]; simpl; [constructor|].
  destruct (p x); [|assumption].
  constructor; [assumption|].
  apply Forall_forall. intros y Hy. apply filter_In in Hy.
  rewrite Forall_forall in Hx. now apply Hx.
Qed.

(** ** Matching by derivatives *)

Module ReFacts.
Import Re.

Lemma nullable_lang (r : regex) : nullable r = true <-> lang r [].
Proof.
  induction r as [| |p|a IHa b IHb|a IHa b IHb|a IHa]; simpl.
  - split; [discriminate | tauto].
  - tauto.
  - split; [discriminate | intros (c & H & _); discriminate].
  - rewrite andb_true_iff, IHa, IHb. split.
    + intros [Ha Hb]. now exists [], [].
    + intros (s1 & s2 & H & Ha & Hb).
      symmetry in H. apply app_eq_nil in H as [-> ->]. auto.
  - rewrite orb_true_iff, IHa, IHb. tauto.
  - split; [|reflexivity]. intros _. exists []. auto.
Qed.

Lemma star_cons (a : regex) (c : N) (s : list N) (ws : list (list N)) :
  c :: s = List.concat ws -> Forall (lang a) ws ->
  exists s1 s2, s = s1 ++ s2 /\ lang a (c :: s1) /\ lang (Star a) s2.
Proof.
  intros E H. induction H as [|w ws Hw Hws IH]; simpl in E; [discriminate|].
  destruct w as [|c' w]; simpl in E.
  - auto.
  - injection E as -> ->. exists w, (List.concat ws). repeat split; [assumption|].
    now exists ws.
Qed.

Lemma deriv_lang (c : N) (r : regex) :
  forall s, lang (deriv c r) s <-> lang r (c :: s).
Proof.
  induction r as [| |p|a IHa b IHb|a IHa b IHb|a IHa]; intros s; simpl.
  - tauto.
  - split; [tauto | discriminate].
  - destruct (p c) eqn:E; simpl.
    + split.
      * intros ->. now exists c.
      * intros (c' & H & _). now injection H.
    + split; [tauto|]. intros (c' & H & Hp). injection H as -> _. congruence.
  - assert (Hseq : (exists s1 s2, s = s1 ++ s2 /\ lang (deriv c a) s1 /\ lang b s2)
                   \/ (nullable a = true /\ lang (deriv c b) s)
                   <-> exists s1 s2, c :: s = s1 ++ s2 /\ lang a s1 /\ lang b s2).
    { split.
      - intros [(s1 & s2 & -> & Ha & Hb) | [Hn Hb]].
        + exists (c :: s1), s2. rewrite <- IHa. auto.
        + exists [], (c :: s). rewrite <- nullable_lang, <- IHb. auto.
      - intros (s1 & s2 & E & Ha & Hb). destruct s1 as [|c' s1]; simpl in E.
        + subst s2. right. rewrite nullable_lang, IHb. auto.
        + injection E as -> ->. left. exists s1, s2. rewrite IHa. auto. }
    rewrite <- Hseq. destruct (nullable a); simpl.
    + split.
      * intros [H|H]; [now left | now right].
      * intros [H|[_ H]]; [now left | now right].
    + split; [now left|]. intros [H|[H _]]; [assumption | discriminate].
  - now rewrite IHa, IHb.
  - split.
    + intros (s1 & s2 & -> & Ha & ws & -> & Hws).
      exists ((c :: s1) :: ws). split; [reflexivity|].
      constructor; [now apply IHa | assumption].
    + intros (ws & E & Hws).
      destruct (@star_cons a c s ws E Hws) as (s1 & s2 & -> & Ha & Hs).
      exists s1, s2. rewrite IHa. auto.
Qed.

(** [matches] finds a match exactly when some prefix of the subject is
    a word of the pattern. *)
Lemma matches_lang (s : list N) :
  forall r, matches r s = true <-> exists p rest, s = p ++ rest /\ lang r p.
Proof.
  induction s as [|c s IH]; intros r; simpl.
  - rewrite orb_false_r, nullable_lang. split.
    + intros H. now exists [], [].
    + intros (p & rest & E & H). symmetry in E.
      apply app_eq_nil in E as [-> _]. assumption.
  - rewrite orb_true_iff, IH, nullable_lang. split.
    + intros [H | (p & rest & -> & H)].
      * now exists [], (c :: s).
      * exists (c :: p), rest. rewrite <- deriv_lang. auto.
    + intros (p & rest & E & H). destruct p as [|c' p]; simpl in E.
      * now left.
      * injection E as -> ->. right. exists p, rest. rewrite deriv_lang. auto.
Qed.

Section Digits.
Variable rt : Runtime.

Local Notation digit := (Class (is_decimal rt)).

Lemma star_digits (ws : list (list N)) :
  Forall (lang digit) ws -> forallb (is_decimal rt) (List.concat ws) = true.
Proof.
  induction 1 as [|w ws (c & -> & Hc) _ IH]; simpl; [reflexivity|].
  now rewrite Hc, IH.
Qed.

Lemma digits_star (s : list N) :
  forallb (is_decimal rt) s = true -> lang (Star digit) s.
Proof.
  induction s as [|c s IH]; simpl.
  - intros _. now exists [].
  - rewrite andb_true_iff. intros [Hc Hs].
    destruct (IH Hs) as (ws & -> & Hws).
    exists ([c] :: ws). split; [reflexivity|].
    constructor; [now exists c | assumption].
Qed.

Lemma plus_digit (s : list N) : lang (Plus digit) s <-> digits1 rt s.
Proof.
  unfold digits1. split.
  - intros (s1 & s2 & -> & (c & -> & Hc) & ws & -> & Hws). simpl.
    split; [discriminate|]. now rewrite Hc, star_digits.
  - intros [Hne Hd]. destruct s as [|c s]; [congruence|].
    simpl in Hd. apply andb_true_iff in Hd as [Hc Hs].
    exists [c], s. repeat split.
    + now exists c.
    + now apply digits_star.
Qed.

Lemma one_of_sep (c : N) :
  existsb (fun a => N.eqb (Utf8.cp a) c) ["-"; "."; "_"]%char = true
  <-> c = Utf8.cp "-" \/ c = Utf8.cp "." \/ c = Utf8.cp "_".
Proof.
  cbv [existsb]. rewrite !orb_true_iff, !N.eqb_eq. intuition (try discriminate; auto).
Qed.

(** The pattern of the source says what [version_like] says in words. *)
Lemma version_pattern_spec (name : string) :
  match_ (version_pattern rt) name = true <-> version_like rt name.
Proof.
  unfold match_. rewrite matches_lang. unfold version_like, version_pattern. split.
  - intros (p & rest & -> & v & p1 & -> & Hv & ds1 & p2 & -> & H1 & s & ds2 & -> & (sep & -> & Hsep) & H2).
    exists v, ds1, sep, ds2, rest. repeat split.
    + simpl. now rewrite <- !app_assoc.
    + destruct Hv as [(c & -> & Hc)|Hv]; [right | now left].
      apply N.eqb_eq in Hc. now subst c.
    + now apply plus_digit.
    + now apply plus_digit.
    + now apply one_of_sep.
    + now apply plus_digit.
    + now apply plus_digit.
  - intros (v & ds1 & sep & ds2 & rest & -> & Hv & H1 & Hsep & H2).
    exists (v ++ ds1 ++ sep :: ds2), rest. split.
    + rewrite <- !app_assoc. simpl. reflexivity.
    + exists v, (ds1 ++ sep :: ds2). repeat split.
      * destruct Hv as [->| ->]; [now right | left].
        exists (Utf8.cp "v"). split; [reflexivity | apply N.eqb_refl].
      * exists ds1, (sep :: ds2). repeat split; [now apply plus_digit|].
        exists [sep], ds2. repeat split.
        -- exists sep. split; [reflexivity | now apply one_of_sep].
        -- now apply plus_digit.
Qed.

End Digits.

End ReFacts.

(** ** Calendar facts *)

Module TimeFacts.
Import PyTime.
Local Open Scope Z_scope.

Lemma civil_bounds (days : Z) :
  -354285 <= days < 2932897 ->
  let '(y, m, d) := civil_from_days days in
  1000 <= y <= 9999 /\ 1 <= m <= 12 /\ 1 <= d <= 31.
Proof.
  intros H. unfold civil_from_days.
  set (z := days + 719468).
  set (era := z / 146097).
  set (doe := z - era * 146097).
  set (yoe := (doe - doe / 1460 + doe / 36524 - doe / 146096) / 365).
  set (doy := doe - (365 * yoe + yoe / 4 - yoe / 100)).
  set (mp := (5 * doy + 2) / 153).
  assert (Hdoe : 0 <= doe < 146097)
    by (subst doe era z; Z.div_mod_to_equations; lia).
  assert (Hera : 2 <= era <= 24) by (subst era z; Z.div_mod_to_equations; lia).
  assert (Hy : 0 <= yoe <= 399 /\ 0 <= doy <= 365)
    by (subst doy yoe; Z.div_mod_to_equations; lia).
  assert (Hmp : 0 <= mp <= 11) by (subst mp; Z.div_mod_to_equations; lia).
  assert (Hd : 1 <= doy - (153 * mp + 2) / 5 + 1 <= 31)
    by (subst mp; Z.div_mod_to_equations; lia).
  assert (Hlo : era = 2 -> 72989 <= doe)
    by (subst doe era z; Z.div_mod_to_equations; lia).
  assert (Hhi : era = 24 -> doe < 146037)
    by (subst doe era z; Z.div_mod_to_equations; lia).
  clearbody doe era. clear z H.
  destruct (mp <? 10) eqn:E1.
  - apply Z.ltb_lt in E1.
    destruct (mp + 3 <=? 2) eqn:E2; [apply Z.leb_le in E2; lia|].
    repeat split; try lia.
    destruct (Z.eq_dec era 2) as [E|E]; [apply Hlo in E|lia].
    subst mp doy yoe. Z.div_mod_to_equations. lia.
  - apply Z.ltb_ge in E1.
    destruct (mp - 9 <=? 2) eqn:E2; [|apply Z.leb_gt in E2; lia].
    repeat split; try lia.
    + destruct (Z.eq_dec era 2) as [E|E]; [apply Hlo in E|lia].
      subst mp doy yoe. Z.div_mod_to_equations. lia.
    + destruct (Z.eq_dec era 24) as [E|E]; [apply Hhi in E|lia].
      subst mp doy yoe. Z.div_mod_to_equations. lia.
Qed.

(** The fields of [gmtime] for a time from the start of year 1000 up to
    the end of year 9999. *)
Lemma gmtime_bounds (secs : Z) :
  -30610224000 <= secs < 253402300800 ->
  1000 <= tm_year (gmtime secs) <= 9999 /\
  1 <= tm_mon (gmtime secs) <= 12 /\
  1 <= tm_mday (gmtime secs) <= 31 /\
  0 <= tm_hour (gmtime secs) <= 23 /\
  0 <= tm_min (gmtime secs) <= 59 /\
  0 <= tm_sec (gmtime secs) <= 59.
Proof.
  intros H. unfold gmtime.
  assert (Hd : -354285 <= secs / 86400 < 2932897) by (Z.div_mod_to_equations; lia).
  pose proof (civil_bounds Hd) as Hc.
  destruct (civil_from_days (secs / 86400)) as [[y m] d]. simpl.
  repeat split; try lia; Z.div_mod_to_equations; lia.
Qed.

(** The date of a day count names that day. *)
Lemma days_round_trip (days : Z) :
  let '(y, m, d) := civil_from_days days in days_from_civil y m d = days.
Proof.
  unfold civil_from_days.
  set (z := days + 719468).
  set (era := z / 146097).
  set (doe := z - era * 146097).
  set (yoe := (doe - doe / 1460 + doe / 36524 - doe / 146096) / 365).
  set (doy := doe - (365 * yoe + yoe / 4 - yoe / 100)).
  set (mp := (5 * doy + 2) / 153).
  assert (Hdoe : 0 <= doe < 146097)
    by (subst doe era; Z.div_mod_to_equations; lia).
  assert (Hy : 0 <= yoe <= 399 /\ 0 <= doy <= 365)
    by (subst doy yoe; Z.div_mod_to_equations; lia).
  assert (Hmp : 0 <= mp <= 11) by (subst mp; Z.div_mod_to_equations; lia).
  assert (Hz : days = era * 146097 + doe - 719468) by (subst doe z; lia).
  assert (Hdoy : doe = yoe * 365 + yoe / 4 - yoe / 100 + doy) by (subst doy; lia).
  clearbody mp doy yoe doe era. clear z.
  unfold days_from_civil.
  assert (Hera : forall k, 0 <= k <= 399 -> (k + era * 400) / 400 = era)
    by (intros k Hk; Z.div_mod_to_equations; lia).
  destruct (mp <? 10) eqn:E1.
  - apply Z.ltb_lt in E1.
    destruct (mp + 3 <=? 2) eqn:E2; [apply Z.leb_le in E2; lia|].
    destruct (2 <? mp + 3) eqn:E3; [|apply Z.ltb_ge in E3; lia].
    rewrite Z.add_0_r, Hera by lia.
    replace (yoe + era * 400 - era * 400) with yoe by lia.
    replace (mp + 3 - 3) with mp by lia. lia.
  - apply Z.ltb_ge in E1.
    destruct (mp - 9 <=? 2) eqn:E2; [|apply Z.leb_gt in E2; lia].
    destruct (2 <? mp - 9) eqn:E3; [apply Z.ltb_lt in E3; lia|].
    replace (yoe + era * 400 + 1 - 1) with (yoe + era * 400) by lia.
    rewrite Hera by lia.
    replace (yoe + era * 400 - era * 400) with yoe by lia.
    replace (mp - 9 + 9) with mp by lia. lia.
Qed.

(** The calendar time [gmtime] gives for a second names that second. *)
Lemma timegm_gmtime (secs : Z) : timegm (gmtime secs) = secs.
Proof.
  unfold timegm, gmtime.
  pose proof (days_round_trip (secs / 86400)) as Hd.
  destruct (civil_from_days (secs / 86400)) as [[y m] d].
  cbn [tm_year tm_mon tm_mday tm_hour tm_min tm_sec]. rewrite Hd.
  Z.div_mod_to_equations. lia.
Qed.

(** Away from UTC the local calendar time is not the UTC one. *)
Lemma localtime_differs (utc_offset secs : Z) :
  utc_offset <> 0 -> localtime utc_offset secs <> gmtime secs.
Proof.
  intros Hne E. apply (f_equal timegm) in E. unfold localtime in E.
  rewrite !timegm_gmtime in E. lia.
Qed.

Lemma digit_char_is_digit (d : Z) :
  0 <= d <= 9 -> is_digit (digit_char d) = true.
Proof.
  intros H.
  assert (E : d = 0 \/ d = 1 \/ d = 2 \/ d = 3 \/ d = 4 \/ d = 5 \/ d = 6
              \/ d = 7 \/ d = 8 \/ d = 9) by lia.
  repeat (destruct E as [->|E]; [reflexivity|]). subst d. reflexivity.
Qed.

Lemma dec_digits_last (fuel : nat) (n : Z) (acc : string) :
  0 <= n < 10 -> dec_digits (S fuel) n acc = String (digit_char n) acc.
Proof.
  intros H. simpl.
  replace (n / 10) with 0 by (Z.div_mod_to_equations; lia).
  replace (n mod 10) with n by (Z.div_mod_to_equations; lia).
  reflexivity.
Qed.

Lemma dec_digits_step (fuel : nat) (n : Z) (acc : string) :
  10 <= n ->
  dec_digits (S fuel) n acc
  = dec_digits fuel (n / 10) (String (digit_char (n mod 10)) acc).
Proof.
  intros H. simpl.
  destruct (n / 10 =? 0) eqn:E; [|reflexivity].
  apply Z.eqb_eq in E. Z.div_mod_to_equations. lia.
Qed.

(** The fuel of [str_of_Z] covers the decimal digits of its argument. *)
Lemma fuel_enough (n : Z) (k : Z) :
  2 ^ k <= n -> 0 <= k ->
  exists fuel, S (Z.to_nat (Z.log2 n)) = (S (Z.to_nat k) + fuel)%nat.
Proof.
  intros H Hk.
  assert (k <= Z.log2 n) by (apply Z.log2_le_pow2; lia).
  exists (Z.to_nat (Z.log2 n) - Z.to_nat k)%nat. lia.
Qed.

Lemma str_of_Z_1 (n : Z) :
  0 <= n < 10 -> str_of_Z n = String (digit_char n) EmptyString.
Proof.
  intros H. unfold str_of_Z.
  destruct (n <? 0) eqn:E; [apply Z.ltb_lt in E; lia|].
  now apply dec_digits_last.
Qed.

Lemma str_of_Z_2 (n : Z) :
  10 <= n < 100 ->
  str_of_Z n
  = String (digit_char (n / 10)) (String (digit_char (n mod 10)) EmptyString).
Proof.
  intros H. unfold str_of_Z.
  destruct (n <? 0) eqn:E; [apply Z.ltb_lt in E; lia|].
  destruct (@fuel_enough n 1) as [fuel ->]; [simpl; lia | lia |].
  simpl Nat.add. rewrite dec_digits_step by lia.
  apply dec_digits_last. Z.div_mod_to_equations. lia.
Qed.

Lemma str_of_Z_4 (n : Z) :
  1000 <= n < 10000 ->
  str_of_Z n
  = String (digit_char (n / 10 / 10 / 10))
      (String (digit_char (n / 10 / 10 mod 10))
         (String (digit_char (n / 10 mod 10))
            (String (digit_char (n mod 10)) EmptyString))).
Proof.
  intros H. unfold str_of_Z.
  destruct (n <? 0) eqn:E; [apply Z.ltb_lt in E; lia|].
  destruct (@fuel_enough n 3) as [fuel ->]; [simpl; lia | lia |].
  simpl Nat.add.
  rewrite !dec_digits_step by (Z.div_mod_to_equations; lia).
  apply dec_digits_last. Z.div_mod_to_equations. lia.
Qed.

Lemma two_digits_shape (n : Z) :
  0 <= n < 100 ->
  exists a b, two_digits n = String a (String b EmptyString)
              /\ is_digit a = true /\ is_digit b = true.
Proof.
  intros H. unfold two_digits. destruct (Z_lt_ge_dec n 10).
  - rewrite str_of_Z_1 by lia. simpl.
    exists "0"%char, (digit_char n). repeat split.
    apply digit_char_is_digit. lia.
  - rewrite str_of_Z_2 by lia. simpl.
    exists (digit_char (n / 10)), (digit_char (n mod 10)).
    repeat split; apply digit_char_is_digit; Z.div_mod_to_equations; lia.
Qed.

Lemma year_shape (n : Z) :
  1000 <= n < 10000 ->
  exists a b c d,
    str_of_Z n = String a (String b (String c (String d EmptyString)))
    /\ is_digit a = true /\ is_digit b = true
    /\ is_digit c = true /\ is_digit d = true.
Proof.
  intros H. rewrite str_of_Z_4 by assumption.
  do 4 eexists. split; [reflexivity|].
  repeat split; apply digit_char_is_digit; Z.div_mod_to_equations; lia.
Qed.

Lemma strftime_iso (t : struct_time) :
  strftime "%Y-%m-%dT%H:%M:%S.000+00:00" t
  = (str_of_Z (tm_year t) ++ "-" ++ two_digits (tm_mon t) ++ "-"
     ++ two_digits (tm_mday t) ++ "T" ++ two_digits (tm_hour t) ++ ":"
     ++ two_digits (tm_min t) ++ ":" ++ two_digits (tm_sec t)
     ++ ".000+00:00")%string.
Proof. reflexivity. Qed.

(** From the start of year 1000 to the end of year 9999 the rendered
    time has the layout [YYYY-MM-DDTHH:MM:SS.000+00:00]. *)
Lemma iso_format (secs : Z) :
  -30610224000 <= secs < 253402300800 ->
  has_format "YYYY-MM-DDTHH:MM:SS.000+00:00"
    (strftime "%Y-%m-%dT%H:%M:%S.000+00:00" (gmtime secs)) = true.
Proof.
  intros H. rewrite strftime_iso.
  destruct (gmtime_bounds H) as (Hy & Hm & Hd & Hh & Hmi & Hs).
  destruct (@year_shape (tm_year (gmtime secs))) as (y1 & y2 & y3 & y4 & -> & ? & ? & ? & ?);
    [lia|].
  destruct (@two_digits_shape (tm_mon (gmtime secs))) as (m1 & m2 & -> & ? & ?); [lia|].
  destruct (@two_digits_shape (tm_mday (gmtime secs))) as (d1 & d2 & -> & ? & ?); [lia|].
  destruct (@two_digits_shape (tm_hour (gmtime secs))) as (h1 & h2 & -> & ? & ?); [lia|].
  destruct (@two_digits_shape (tm_min (gmtime secs))) as (n1 & n2 & -> & ? & ?); [lia|].
  destruct (@two_digits_shape (tm_sec (gmtime secs))) as (s1 & s2 & -> & ? & ?); [lia|].
  cbn -[is_digit].
  repeat match goal with H : is_digit _ = true |- _ => rewrite H; clear H end.
  reflexivity.
Qed.

End TimeFacts.

(** ** Dictionaries *)

Lemma lookup_store_eq (items : list (pyval * pyval)) (key : string) (v : pyval) :
  Py.lookup (Py.store items key v) key = Some v.
Proof.
  induction items as [|[k w] items IH]; simpl.
  - now rewrite String.eqb_refl.
  - destruct k; simpl; try assumption.
    destruct (String.eqb s key) eqn:E; simpl; rewrite E; [reflexivity | assumption].
Qed.

Lemma lookup_store_ne (items : list (pyval * pyval)) (key key' : string) (v : pyval) :
  key <> key' -> Py.lookup (Py.store items key v) key' = Py.lookup items key'.
Proof.
  intros Hne. induction items as [|[k w] items IH]; simpl.
  - apply String.eqb_neq in Hne. now rewrite Hne.
  - destruct k; simpl; try assumption.
    destruct (String.eqb s key) eqn:E; simpl.
    + apply String.eqb_eq in E. subst s.
      apply String.eqb_neq in Hne. now rewrite Hne.
    + now rewrite IH.
Qed.

Lemma extends_refl (m : pyval) : Py.extends m m.
Proof. now left. Qed.

Lemma extends_setitem (base m m' : pyval) (key : string) (v : pyval) :
  key = "readMe" \/ key = "icon" ->
  Py.extends base m -> Py.setitem m key v = Ok m' -> Py.extends base m'.
Proof.
  intros Hkey Hext Hset. destruct m as [| | | | | |items| | | |]; try discriminate.
  injection Hset as <-. right.
  destruct Hext as [<-|(b & f & -> & E & Hf)].
  - exists items, (Py.store items key v). repeat split.
    intros k H1 H2. apply lookup_store_ne. destruct Hkey; congruence.
  - injection E as ->. exists b, (Py.store f key v). repeat split.
    intros k H1 H2. rewrite lookup_store_ne; [auto | destruct Hkey; congruence].
Qed.

Lemma Ok_inj (A : Type) (a b : A) : Ok a = Ok b -> a = b.
Proof. intros H. now injection H. Qed.

(** ** Lists related element by element *)

Lemma Forall2_In_r (A B : Type) (R : A -> B -> Prop) (l1 : list A) (l2 : list B) (b : B) :
  Forall2 R l1 l2 -> In b l2 -> exists a, In a l1 /\ R a b.
Proof.
  induction 1 as [|x y l1 l2 Hxy _ IH]; simpl; [tauto|].
  intros [<-|Hb]; [now exists x; auto|].
  destruct (IH Hb) as (a & Ha & HR). exists a. auto.
Qed.

Lemma Forall2_In_l (A B : Type) (R : A -> B -> Prop) (l1 : list A) (l2 : list B) (a : A) :
  Forall2 R l1 l2 -> In a l1 -> exists b, In b l2 /\ R a b.
Proof.
  induction 1 as [|x y l1 l2 Hxy _ IH]; simpl; [tauto|].
  intros [<-|Ha]; [now exists y; auto|].
  destruct (IH Ha) as (b & Hb & HR). exists b. auto.
Qed.

Lemma Forall2_sorted (A B : Type) (R : A -> B -> Prop)
    (ka : A -> string) (kb : B -> string) (reverse : bool)
    (l1 : list A) (l2 : list B) :
  (forall a b, R a b -> kb b = ka a) ->
  Forall2 R l1 l2 ->
  StronglySorted (Py.in_order ka reverse) l1 -> StronglySorted (Py.in_order kb reverse) l2.
Proof.
  intros Hk HF. induction HF as [|x y l1 l2 Hxy HF IH]; intros HS; [constructor|].
  inversion HS as [|? ? HS' Hx]; subst. constructor; [now apply IH|].
  apply Forall_forall. intros b Hb.
  destruct (Forall2_In_r b HF Hb) as (a & Ha & HR).
  rewrite Forall_forall in Hx. specialize (Hx a Ha).
  unfold Py.in_order in *. rewrite (Hk _ _ Hxy), (Hk _ _ HR). exact Hx.
Qed.

Lemma assoc_In_NoDup (A : Type) (k : string) (v : A) (l : list (string * A)) :
  NoDup (map fst l) -> In (k, v) l -> assoc k l = Some v.
Proof.
  induction l as [|[k' v'] l IH]; simpl; [tauto|].
  intros Hnd [E|Hin].
  - injection E as -> ->. now rewrite String.eqb_refl.
  - inversion Hnd as [|? ? Hni Hnd']; subst.
    destruct (String.eqb_spec k' k) as [->|_]; [|now apply IH].
    exfalso. apply Hni. apply in_map_iff. now exists (k, v).
Qed.

(** ** The generator *)

Section GeneratorFacts.

Variable rt : Runtime.
Variable yaml_safe_load : string -> result pyval.
Variable json_load : string -> result pyval.
Variable host : Host.
Variable self : AppStoreGenerator.t.

Local Notation get_app_metadata := (AppStoreGenerator.get_app_metadata yaml_safe_load json_load self).
Local Notation process_version := (AppStoreGenerator.process_version rt host self).
Local Notation process_versions := (AppStoreGenerator.process_versions rt host self).
Local Notation process_app := (AppStoreGenerator.process_app rt yaml_safe_load json_load host self).
Local Notation process_apps := (AppStoreGenerator.process_apps rt yaml_safe_load json_load host self).
Local Notation generate := (AppStoreGenerator.generate rt yaml_safe_load json_load host self).
Local Notation processed := (Spec.processed rt yaml_safe_load json_load host self).
Local Notation entered := (Spec.entered rt yaml_safe_load json_load host self).
Local Notation is_version_dir := (Spec.is_version_dir rt).
Local Notation version_like := (version_like rt).
Local Notation collect_version_dirs := (AppStoreGenerator.collect_version_dirs rt).

(** *** Files of a version *)

Lemma get_file_info_unfold (name : string) (size mtime : Z) (content : option string) :
  get_file_info rt {| Path.name := name; Path.target := Some (File size mtime content) |}
  = (t <- time_gmtime rt mtime ;;
     lastModified <- time_strftime rt "%Y-%m-%dT%H:%M:%S.000+00:00" t ;;
     Ok {| FileInfo.name := name; FileInfo.size := size;
           FileInfo.lastModified := lastModified |}).
Proof. reflexivity. Qed.

(** [get_file_info] returns for the times that can be rendered, and
    then gives the UTC time. *)
Lemma get_file_info_file (name : string) (size mtime : Z) (content : option string) :
  stampable rt mtime = true ->
  get_file_info rt {| Path.name := name; Path.target := Some (File size mtime content) |}
  = Ok {| FileInfo.name := name; FileInfo.size := size;
          FileInfo.lastModified :=
            PyTime.strftime "%Y-%m-%dT%H:%M:%S.000+00:00" (PyTime.gmtime mtime) |}.
Proof.
  intros H. rewrite get_file_info_unfold. unfold stampable in H.
  unfold time_gmtime, time_strftime.
  destruct (gmtime_error rt mtime); [discriminate|]. cbn [bind].
  destruct (strftime_error rt (PyTime.gmtime mtime)); [discriminate|]. reflexivity.
Qed.

Lemma get_file_info_stampable (name : string) (size mtime : Z) (content : option string) :
  is_ok (get_file_info rt
           {| Path.name := name; Path.target := Some (File size mtime content) |})
  = stampable rt mtime.
Proof.
  rewrite get_file_info_unfold. unfold stampable, time_gmtime, time_strftime.
  destruct (gmtime_error rt mtime); [reflexivity|]. cbn [bind].
  destruct (strftime_error rt (PyTime.gmtime mtime)); reflexivity.
Qed.

Lemma get_file_info_inv (name : string) (size mtime : Z) (content : option string)
    (info : FileInfo.t) :
  get_file_info rt {| Path.name := name; Path.target := Some (File size mtime content) |}
  = Ok info ->
  stampable rt mtime = true /\
  info = {| FileInfo.name := name; FileInfo.size := size;
            FileInfo.lastModified :=
              PyTime.strftime "%Y-%m-%dT%H:%M:%S.000+00:00" (PyTime.gmtime mtime) |}.
Proof.
  intros H.
  assert (Hs : stampable rt mtime = true).
  { rewrite <- (get_file_info_stampable name size mtime content), H. reflexivity. }
  split; [exact Hs|].
  rewrite (@get_file_info_file name size mtime content Hs) in H. now injection H.
Qed.

Lemma is_file_inv (p : Path.t) :
  Path.is_file p = true ->
  exists size mtime content,
    p = {| Path.name := Path.name p; Path.target := Some (File size mtime content) |}.
Proof.
  destruct p as [n [[size mtime content|es]|]]; simpl; try discriminate.
  intros _. now exists size, mtime, content.
Qed.

(** The loop over the entries of a version directory stops at the
    first listed file [get_file_info] raises on. *)
Lemma collect_files_spec (paths : list Path.t) :
  forall files r,
    collect_files rt paths files = Ok r ->
    exists infos,
      r = files ++ infos /\
      Forall2 (fun p info => get_file_info rt p = Ok info) (filter listed_file paths) infos.
Proof.
  induction paths as [|p paths IH]; intros files r; cbn [collect_files filter].
  - intros H. injection H as <-. exists []. rewrite app_nil_r. auto.
  - change (Path.is_file p && negb (Str.startswith (Path.name p) "."))
      with (listed_file p).
    destruct (listed_file p); [|apply IH].
    destruct (get_file_info rt p) as [info|e] eqn:E; cbn [bind]; [|discriminate].
    intros H. destruct (IH _ _ H) as (infos & -> & HF).
    exists (info :: infos). rewrite <- app_assoc. split; [reflexivity|].
    now constructor.
Qed.

Lemma collect_files_ok (paths : list Path.t) :
  forall files,
    (forall p, In p paths -> listed_file p = true -> is_ok (get_file_info rt p) = true) ->
    is_ok (collect_files rt paths files) = true.
Proof.
  induction paths as [|p paths IH]; intros files Hok; cbn [collect_files]; [reflexivity|].
  change (Path.is_file p && negb (Str.startswith (Path.name p) "."))
    with (listed_file p).
  destruct (listed_file p) eqn:El.
  - pose proof (Hok p (or_introl eq_refl) El) as Hp.
    destruct (get_file_info rt p) as [info|e]; [|discriminate]. cbn [bind].
    apply IH. intros q Hq. apply Hok. now right.
  - apply IH. intros q Hq. apply Hok. now right.
Qed.

Lemma collect_files_raise (paths : list Path.t) :
  forall files e,
    collect_files rt paths files = Raise e ->
    exists p, In p paths /\ listed_file p = true /\ get_file_info rt p = Raise e.
Proof.
  induction paths as [|p paths IH]; intros files e; cbn [collect_files]; [discriminate|].
  change (Path.is_file p && negb (Str.startswith (Path.name p) "."))
    with (listed_file p).
  destruct (listed_file p) eqn:El.
  - destruct (get_file_info rt p) as [info|e'] eqn:E; cbn [bind].
    + intros H. destruct (IH _ _ H) as (q & Hq & Hl & He). exists q.
      split; [now right | auto].
    + intros H. injection H as <-. exists p. split; [now left | auto].
  - intros H. destruct (IH _ _ H) as (q & Hq & Hl & He). exists q.
    split; [now right | auto].
Qed.

(** *** One version *)

Lemma process_version_inv (app_name : string) (version_dir : Path.t)
    (version_data : VersionData.t) :
  process_version app_name version_dir = Ok version_data ->
  exists paths infos,
    Path.iterdir version_dir = Ok paths /\
    Forall2 (fun p info => get_file_info rt p = Ok info) (filter listed_file paths) infos /\
    VersionData.files version_data = Py.sort FileInfo.name false infos /\
    VersionData.valid version_data = true /\
    VersionData.violations version_data = [] /\
    VersionData.id version_data = Path.name version_dir /\
    VersionData.name version_data = parse_version (Path.name version_dir).
Proof.
  unfold AppStoreGenerator.process_version.
  destruct (Path.iterdir version_dir) as [paths|e]; simpl; [|discriminate].
  destruct (collect_files rt paths []) as [files|e] eqn:Ec; simpl; [|discriminate].
  destruct (collect_files_spec _ _ Ec) as (infos & -> & HF). simpl.
  destruct (Path.exists_ (Path.join version_dir "README.md")).
  - destruct (Path.read_text (Path.join version_dir "README.md")); simpl; [|discriminate].
    intros H. injection H as <-. exists paths, infos. simpl. auto 10.
  - intros H. injection H as <-. exists paths, infos. simpl. auto 10.
Qed.

(** *** The versions of an application *)

Lemma fold_append_version (vs : list VersionData.t) :
  forall a,
    AppData.versions (fold_left AppData.append_version vs a) = AppData.versions a ++ vs /\
    AppData.valid (fold_left AppData.append_version vs a) = AppData.valid a /\
    AppData.violations (fold_left AppData.append_version vs a) = AppData.violations a /\
    AppData.id (fold_left AppData.append_version vs a) = AppData.id a /\
    AppData.name (fold_left AppData.append_version vs a) = AppData.name a /\
    AppData.title (fold_left AppData.append_version vs a) = AppData.title a /\
    AppData.tags (fold_left AppData.append_version vs a) = AppData.tags a /\
    AppData.description (fold_left AppData.append_version vs a) = AppData.description a /\
    AppData.additionalProperties (fold_left AppData.append_version vs a)
    = AppData.additionalProperties a.
Proof.
  induction vs as [|v vs IH]; intros a; simpl.
  - rewrite app_nil_r. auto 10.
  - destruct (IH (AppData.append_version a v)) as (-> & -> & -> & -> & -> & -> & -> & -> & ->).
    simpl. rewrite <- app_assoc. auto 10.
Qed.

Lemma process_versions_spec (app_name : string) (version_dirs : list Path.t) :
  forall a a',
    process_versions app_name version_dirs a = Ok a' ->
    exists vs,
      Forall2 (fun d v => process_version app_name d = Ok v) version_dirs vs /\
      a' = fold_left AppData.append_version vs a.
Proof.
  induction version_dirs as [|d ds IH]; intros a a'; simpl.
  - intros H. injection H as <-. now exists [].
  - destruct (process_version app_name d) as [v|e] eqn:E; simpl; [|discriminate].
    intros H. destruct (IH _ _ H) as (vs & HF & ->).
    exists (v :: vs). split; [now constructor | reflexivity].
Qed.

Lemma collect_version_dirs_spec (items : list Path.t) :
  forall version_dirs,
    collect_version_dirs items version_dirs = version_dirs ++ filter is_version_dir items.
Proof.
  induction items as [|item items IH]; intros version_dirs; simpl.
  - now rewrite app_nil_r.
  - unfold is_version_dir at 1.
    destruct (Path.is_dir item && negb (Str.startswith (Path.name item) ".")); simpl.
    + match goal with |- context [if ?b then _ else _] => destruct b end.
      * rewrite IH, <- app_assoc. reflexivity.
      * apply IH.
    + apply IH.
Qed.

(** *** One application *)

Lemma process_app_inv (app_dir : Path.t) (a : AppData.t) :
  process_app app_dir = Ok a ->
  exists m items,
    get_app_metadata app_dir = Ok (PDict m) /\
    Path.iterdir app_dir = Ok items /\
    Forall2 (fun d v => process_version (Path.name app_dir) d = Ok v)
      (Py.sort Path.name true (filter is_version_dir items)) (AppData.versions a) /\
    AppData.valid a = true /\
    AppData.violations a = [] /\
    AppData.id a = Path.name app_dir /\
    AppData.name a
    = Py.lookup_default m "name" (PStr (str_title rt (Path.name app_dir))) /\
    AppData.title a
    = Py.lookup_default m "title" (PStr (str_title rt (Path.name app_dir))) /\
    AppData.tags a = Py.lookup_default m "tags" (PList []) /\
    AppData.description a
    = Py.lookup_default m "description"
        (PStr ("Description for " ++ Path.name app_dir)) /\
    AdditionalProperties.name (AppData.additionalProperties a)
    = Py.lookup_default m "name" (PStr (str_title rt (Path.name app_dir))) /\
    AdditionalProperties.tags (AppData.additionalProperties a)
    = Py.lookup_default m "tags" (PList []) /\
    AdditionalProperties.shortDescEn (AppData.additionalProperties a)
    = Py.lookup_default m "shortDescEn"
        (Py.lookup_default m "description" (PStr EmptyString)) /\
    AdditionalProperties.architectures (AppData.additionalProperties a)
    = Py.lookup_default m "architectures" (PList [PStr "amd64"; PStr "arm64"]).
Proof.
  unfold AppStoreGenerator.process_app.
  destruct (get_app_metadata app_dir) as [[| | | | | |m| | | |]|e]; simpl; try discriminate.
  destruct (Path.iterdir app_dir) as [items|e]; simpl; [|discriminate].
  rewrite collect_version_dirs_spec. simpl app.
  intros H. apply process_versions_spec in H as (vs & HF & ->).
  match goal with
  | |- context [fold_left AppData.append_version vs ?a0] =>
      destruct (fold_append_version vs a0)
        as (-> & -> & -> & -> & -> & -> & -> & -> & ->)
  end.
  exists m, items. simpl. auto 20.
Qed.

(** *** Metadata *)

Lemma find_icon_inv (app_dir : Path.t) (names : list string) (m m' : pyval) :
  find_icon self app_dir names m = Ok m' ->
  m' = m \/ exists v, Py.setitem m "icon" v = Ok m'.
Proof.
  induction names as [|n names IH]; simpl.
  - intros H. injection H as <-. now left.
  - destruct (Path.exists_ (Path.join app_dir n)); [|assumption].
    intros H. right. eauto.
Qed.

Lemma find_icon_same (app_dir app_dir' : Path.t) (names : list string) (m : pyval) :
  Path.name app_dir' = Path.name app_dir ->
  (forall k, In k names -> Path.join app_dir' k = Path.join app_dir k) ->
  find_icon self app_dir' names m = find_icon self app_dir names m.
Proof.
  intros Hn. induction names as [|n names IH]; intros Hj; simpl; [reflexivity|].
  rewrite (Hj n) by now left. rewrite Hn.
  destruct (Path.exists_ (Path.join app_dir n)); [reflexivity|].
  apply IH. intros k Hk. apply Hj. now right.
Qed.

(** What [get_app_metadata] returns comes from one source, [base]: the
    YAML file when there is one, else the JSON file when there is one,
    else the empty mapping; the README text is then stored under
    [readMe]. *)
Lemma get_app_metadata_inv (app_dir : Path.t) (m : pyval) :
  get_app_metadata app_dir = Ok m ->
  exists base,
    (Path.exists_ (Path.join app_dir "metadata.yml") = true ->
     exists text v,
       Path.read_text (Path.join app_dir "metadata.yml") = Ok text /\
       yaml_safe_load text = Ok v /\ base = Py.or v (PDict [])) /\
    (Path.exists_ (Path.join app_dir "metadata.yml") = false ->
     Path.exists_ (Path.join app_dir "metadata.json") = true ->
     exists text,
       Path.read_text (Path.join app_dir "metadata.json") = Ok text /\
       json_load text = Ok base) /\
    (Path.exists_ (Path.join app_dir "metadata.yml") = false ->
     Path.exists_ (Path.join app_dir "metadata.json") = false ->
     base = PDict []) /\
    Py.extends base m /\
    (Path.exists_ (Path.join app_dir "README.md") = true ->
     exists text items,
       Path.read_text (Path.join app_dir "README.md") = Ok text /\
       m = PDict items /\ Py.lookup items "readMe" = Some (PStr text)).
Proof.
  unfold AppStoreGenerator.get_app_metadata.
  set (yml := Path.join app_dir "metadata.yml").
  set (json := Path.join app_dir "metadata.json").
  set (readme := Path.join app_dir "README.md").
  intros H.
  match type of H with
  | bind ?load _ = _ => destruct load as [base|e] eqn:Hload; [|discriminate]
  end.
  cbn [bind] in H.
  match type of H with
  | bind ?rd _ = _ => destruct rd as [m1|e] eqn:Hrd; [|discriminate]
  end.
  cbn [bind] in H. exists base.
  assert (H1 : Py.extends base m1 /\
               (Path.exists_ readme = true ->
                exists text items,
                  Path.read_text readme = Ok text /\
                  m1 = PDict items /\ Py.lookup items "readMe" = Some (PStr text))).
  { destruct (Path.exists_ readme).
    - destruct (Path.read_text readme) as [text|e]; simpl in Hrd; [|discriminate].
      split.
      + eapply extends_setitem; [left; reflexivity | apply extends_refl | exact Hrd].
      + intros _. destruct base as [| | | | | |items| | | |]; try discriminate.
        injection Hrd as <-. exists text, (Py.store items "readMe" (PStr text)).
        repeat split. apply lookup_store_eq.
    - injection Hrd as <-. split; [apply extends_refl | discriminate]. }
  destruct H1 as [Hext Hreadme].
  assert (H2 : Py.extends base m /\
               (Path.exists_ readme = true ->
                exists text items,
                  Path.read_text readme = Ok text /\
                  m = PDict items /\ Py.lookup items "readMe" = Some (PStr text))).
  { destruct (find_icon_inv _ _ _ H) as [->|[v Hv]]; [auto|].
    split.
    - eapply extends_setitem; [right; reflexivity | exact Hext | exact Hv].
    - intros Hr. destruct (Hreadme Hr) as (text & items & Ht & -> & Hl).
      injection Hv as <-. exists text, (Py.store items "icon" v).
      repeat split; [assumption|].
      rewrite lookup_store_ne; [assumption | discriminate]. }
  destruct H2 as [Hext' Hreadme'].
  repeat split; try assumption.
  - intros Hy. rewrite Hy in Hload.
    destruct (Path.read_text yml) as [text|e]; simpl in Hload; [|discriminate].
    destruct (yaml_safe_load text) as [v|e] eqn:Ev; simpl in Hload; [|discriminate].
    injection Hload as <-. now exists text, v.
  - intros Hy Hj. rewrite Hy, Hj in Hload.
    destruct (Path.read_text json) as [text|e]; simpl in Hload; [|discriminate].
    now exists text.
  - intros Hy Hj. rewrite Hy, Hj in Hload. now injection Hload.
Qed.

(** With a YAML file present the JSON file plays no part. *)
Lemma get_app_metadata_yaml_only (app_dir app_dir' : Path.t) :
  Path.exists_ (Path.join app_dir "metadata.yml") = true ->
  Path.name app_dir' = Path.name app_dir ->
  (forall k, k <> "metadata.json" -> Path.join app_dir' k = Path.join app_dir k) ->
  get_app_metadata app_dir' = get_app_metadata app_dir.
Proof.
  intros Hy Hn Hj. unfold AppStoreGenerator.get_app_metadata.
  rewrite (Hj "metadata.yml") by discriminate.
  rewrite (Hj "README.md") by discriminate.
  rewrite Hy.
  destruct (Path.read_text (Path.join app_dir "metadata.yml")) as [text|e]; [|reflexivity].
  cbn [bind]. destruct (yaml_safe_load text) as [v|e]; [|reflexivity].
  cbn [bind].
  match goal with
  | |- bind ?rd _ = _ => destruct rd as [m1|e]; [|reflexivity]
  end.
  cbn [bind]. apply find_icon_same; [assumption|].
  intros k Hk. apply Hj. unfold icon_names in Hk. simpl in Hk.
  intuition (subst; discriminate).
Qed.

(** *** The applications of the catalog *)

Lemma fold_append_app (new : list AppData.t) :
  forall sd,
    StoreData.apps (fold_left StoreData.append_app new sd) = StoreData.apps sd ++ new /\
    StoreData.valid (fold_left StoreData.append_app new sd) = StoreData.valid sd /\
    StoreData.violations (fold_left StoreData.append_app new sd) = StoreData.violations sd.
Proof.
  induction new as [|a new IH]; intros sd; simpl.
  - rewrite app_nil_r. auto.
  - destruct (IH (StoreData.append_app sd a)) as (-> & -> & ->).
    simpl. rewrite <- app_assoc. auto.
Qed.

(** One turn of the loop of [generate]. *)
Lemma process_apps_cons (d : Path.t) (dirs : list Path.t) (sd : StoreData.t) :
  process_apps (d :: dirs) sd
  = match (if stdout_accepts rt (progress_line d) then process_app d
           else Raise UnicodeEncodeError) with
    | Ok a => process_apps dirs (StoreData.append_app sd a)
    | Raise e =>
        if stdout_accepts rt (error_line rt d e) then process_apps dirs sd
        else Raise UnicodeEncodeError
    end.
Proof.
  cbn [AppStoreGenerator.process_apps]. unfold print, progress_line, error_line.
  destruct (stdout_accepts rt ("Processing app: " ++ Path.name d)); cbn [bind try_except].
  - destruct (process_app d) as [a|e]; cbn [bind try_except]; [reflexivity|].
    destruct (stdout_accepts rt _); reflexivity.
  - destruct (stdout_accepts rt _); reflexivity.
Qed.

(** A loop that comes to its end has entered the applications whose
    progress line is printed and whose processing does not raise. *)
Lemma process_apps_spec (dirs : list Path.t) :
  forall sd sd',
    process_apps dirs sd = Ok sd' ->
    exists new,
      sd' = fold_left StoreData.append_app new sd /\
      Forall2 (fun d a => process_app d = Ok a) (filter entered dirs) new.
Proof.
  induction dirs as [|d dirs IH]; intros sd sd'.
  - intros H. injection H as <-. now exists [].
  - rewrite process_apps_cons. cbn [filter]. unfold Spec.entered at 1, Spec.processed at 1.
    destruct (stdout_accepts rt (progress_line d)); cbn [andb].
    + destruct (process_app d) as [a|e] eqn:E; cbn [is_ok].
      * intros H. destruct (IH _ _ H) as (new & -> & HF).
        exists (a :: new). split; [reflexivity | now constructor].
      * destruct (stdout_accepts rt (error_line rt d e)); [apply IH | discriminate].
    + destruct (stdout_accepts rt (error_line rt d UnicodeEncodeError));
        [apply IH | discriminate].
Qed.

(** When every line can be printed the loop comes to its end, with
    the applications whose processing does not raise. *)
Lemma process_apps_printed (dirs : list Path.t) :
  (forall d, In d dirs -> stdout_accepts rt (progress_line d) = true) ->
  (forall d e, In d dirs -> process_app d = Raise e ->
               stdout_accepts rt (error_line rt d e) = true) ->
  forall sd,
  exists new,
    process_apps dirs sd = Ok (fold_left StoreData.append_app new sd) /\
    Forall2 (fun d a => process_app d = Ok a) (filter processed dirs) new.
Proof.
  induction dirs as [|d dirs IH]; intros Hp He sd.
  - now exists [].
  - rewrite process_apps_cons, (Hp d) by now left.
    cbn [filter]. unfold Spec.processed at 1.
    assert (Hp' : forall d', In d' dirs -> stdout_accepts rt (progress_line d') = true)
      by (intros d' Hd'; apply Hp; now right).
    assert (He' : forall d' e, In d' dirs -> process_app d' = Raise e ->
                               stdout_accepts rt (error_line rt d' e) = true)
      by (intros d' e Hd'; apply He; now right).
    destruct (process_app d) as [a|e] eqn:E; cbn [is_ok].
    + destruct (IH Hp' He' (StoreData.append_app sd a)) as (new & -> & HF).
      exists (a :: new). split; [reflexivity | now constructor].
    + rewrite (He d e) by (auto; now left). apply (IH Hp' He').
Qed.

Lemma save_inv (data : StoreData.t) (out : string) (doc : StoreData.t) :
  save self data = Ok (out, doc) ->
  out = output_file self /\ doc = data /\ Json.dump data = Ok tt.
Proof.
  unfold save. destruct (Json.dump data) as [[]|e]; cbn [bind]; [|discriminate].
  intros H. injection H as <- <-. auto.
Qed.

(** The runs of [generate] that return. *)
Lemma generate_inv (out : string) (doc : StoreData.t) :
  generate = Ok (out, doc) ->
  out = output_file self /\
  StoreData.valid doc = true /\
  StoreData.violations doc = [] /\
  ((assoc (apps_dir self) (cwd host) = None /\ StoreData.apps doc = [])
   \/ exists entries,
        assoc (apps_dir self) (cwd host) = Some (Dir entries) /\
        Forall2 (fun d a => process_app d = Ok a)
          (filter entered (app_dirs entries)) (StoreData.apps doc)).
Proof.
  unfold AppStoreGenerator.generate, Path.exists_, Path.iterdir.
  cbn [Path.target negb].
  destruct (assoc (apps_dir self) (cwd host)) as [[size mtime content|entries]|];
    cbn [negb bind].
  - discriminate.
  - match goal with
    | |- context [AppStoreGenerator.process_apps _ _ _ _ _ ?ds ?sd] =>
        destruct (process_apps ds sd) as [sd'|e] eqn:Ep; cbn [bind]; [|discriminate];
        destruct (process_apps_spec _ _ Ep) as (new & -> & HF)
    end.
    intros H. apply save_inv in H as (-> & -> & _).
    match goal with
    | |- context [fold_left StoreData.append_app new ?sd] =>
        destruct (fold_append_app new sd) as (-> & -> & ->)
    end.
    simpl. repeat split. right. exists entries. split; [reflexivity | exact HF].
  - intros H. apply save_inv in H as (-> & -> & _). simpl. repeat split. now left.
Qed.

(** A run that returns has written a document [json.dump] accepts. *)
Lemma generate_dumped (out : string) (doc : StoreData.t) :
  generate = Ok (out, doc) -> Json.dump doc = Ok tt.
Proof.
  unfold AppStoreGenerator.generate.
  destruct (negb (Path.exists_ _)).
  - intros H. now apply save_inv in H as (_ & -> & H).
  - destruct (Path.iterdir _) as [ds|e]; cbn [bind]; [|discriminate].
    destruct (AppStoreGenerator.process_apps _ _ _ _ _ _ _) as [sd|e];
      cbn [bind]; [|discriminate].
    intros H. now apply save_inv in H as (_ & -> & H).
Qed.

Lemma app_dirs_In (entries : list (string * node)) (d : Path.t) :
  In d (app_dirs entries) <->
  exists e, In e entries /\ d = Path.of_entry e /\ is_app_dir d = true.
Proof.
  unfold app_dirs. rewrite sort_In, filter_In, in_map_iff. split.
  - intros [(e & <- & He) Hd]. now exists e.
  - intros (e & He & -> & Hd). split; [now exists e | assumption].
Qed.

Lemma process_app_id (d : Path.t) (a : AppData.t) :
  process_app d = Ok a -> AppData.id a = Path.name d.
Proof.
  intros H. apply process_app_inv in H.
  destruct H as (m & items & _ & _ & _ & _ & _ & H & _). exact H.
Qed.

Lemma entered_In (dirs : list Path.t) (d : Path.t) :
  In d (filter entered dirs) -> In d dirs /\ processed d = true.
Proof.
  intros H. apply filter_In in H as [Hd He]. split; [assumption|].
  unfold Spec.entered in He. now apply andb_true_iff in He as [_ He].
Qed.

(** With an apps root that is a directory and lines that can be printed,
    [generate] hands [save] the catalog of the applications whose
    processing does not raise. *)
Lemma generate_saves (entries : list (string * node)) :
  assoc (apps_dir self) (cwd host) = Some (Dir entries) ->
  (forall d, In d (app_dirs entries) -> stdout_accepts rt (progress_line d) = true) ->
  (forall d e, In d (app_dirs entries) -> process_app d = Raise e ->
               stdout_accepts rt (error_line rt d e) = true) ->
  exists new,
    generate = save self (fold_left StoreData.append_app new (empty_catalog host)) /\
    Forall2 (fun d a => process_app d = Ok a) (filter processed (app_dirs entries)) new.
Proof.
  intros Happs Hp He.
  unfold AppStoreGenerator.generate, Path.exists_, Path.iterdir.
  cbn [Path.target negb]. rewrite Happs. cbn [negb bind].
  destruct (process_apps_printed _ Hp He (empty_catalog host)) as (new & E & HF).
  exists new. split; [|exact HF].
  unfold Spec.app_dirs, Spec.is_app_dir, empty_catalog in E.
  unfold empty_catalog. rewrite E. reflexivity.
Qed.


Lemma iterdir_inv (p : Path.t) (paths : list Path.t) :
  Path.iterdir p = Ok paths ->
  exists entries, Path.target p = Some (Dir entries) /\ paths = map Path.of_entry entries.
Proof.
  unfold Path.iterdir. destruct (Path.target p) as [[size mtime content|entries]|];
    try discriminate.
  intros H. injection H as <-. now exists entries.
Qed.

(** *** Ordering *)

Lemma version_files_sorted (app_name : string) (version_dir : Path.t) (v : VersionData.t) :
  process_version app_name version_dir = Ok v ->
  StronglySorted (Py.in_order FileInfo.name false) (VersionData.files v).
Proof.
  intros H. apply process_version_inv in H.
  destruct H as (paths & infos & _ & _ & -> & _). apply sort_sorted.
Qed.

Lemma app_versions_sorted (app_dir : Path.t) (a : AppData.t) :
  process_app app_dir = Ok a ->
  StronglySorted (Py.in_order VersionData.id true) (AppData.versions a) /\
  Forall (fun v => StronglySorted (Py.in_order FileInfo.name false) (VersionData.files v))
    (AppData.versions a).
Proof.
  intros H. apply process_app_inv in H.
  destruct H as (m & items & _ & _ & HF & _). split.
  - eapply Forall2_sorted; [|exact HF|apply sort_sorted].
    intros d v Hv. apply process_version_inv in Hv.
    destruct Hv as (paths & infos & _ & _ & _ & _ & _ & Hid & _). exact Hid.
  - apply Forall_forall. intros v Hv.
    destruct (Forall2_In_r v HF Hv) as (d & _ & Hd).
    eapply version_files_sorted. exact Hd.
Qed.

Lemma output_sorted (out : string) (doc : StoreData.t) :
  generate = Ok (out, doc) ->
  StronglySorted (Py.in_order AppData.id false) (StoreData.apps doc) /\
  Forall (fun a =>
            StronglySorted (Py.in_order VersionData.id true) (AppData.versions a) /\
            Forall (fun v => StronglySorted (Py.in_order FileInfo.name false)
                               (VersionData.files v))
              (AppData.versions a))
    (StoreData.apps doc).
Proof.
  intros H.
  destruct (generate_inv H) as (_ & _ & _ & [[_ ->]|(entries & _ & HF)]).
  - split; constructor.
  - split.
    + eapply (@Forall2_sorted _ _ _ Path.name AppData.id false); [|exact HF|].
      * intros d a Ha. now apply process_app_id.
      * apply StronglySorted_filter. apply sort_sorted.
    + apply Forall_forall. intros a Ha.
      destruct (Forall2_In_r a HF Ha) as (d & _ & Hd).
      eapply app_versions_sorted. exact Hd.
Qed.

(** *** The validation placeholders *)

(** C9.  The catalog, each of its applications and each of their
    versions carry [valid] set to true and an empty [violations]
    list, whatever the file system holds. *)
Theorem validation_placeholders (out : string) (doc : StoreData.t) :
  generate = Ok (out, doc) ->
  StoreData.valid doc = true /\
  StoreData.violations doc = [] /\
  Forall (fun a =>
            AppData.valid a = true /\
            AppData.violations a = [] /\
            Forall (fun v => VersionData.valid v = true /\ VersionData.violations v = [])
              (AppData.versions a))
    (StoreData.apps doc).
Proof.
  intros H.
  destruct (generate_inv H) as (_ & Hv & Hvi & Happs).
  split; [assumption|]. split; [assumption|].
  destruct Happs as [[_ ->]|(entries & _ & HF)]; [constructor|].
  apply Forall_forall. intros a Ha.
  destruct (Forall2_In_r a HF Ha) as (d & _ & Hd).
  apply process_app_inv in Hd.
  destruct Hd as (m & items & _ & _ & HFv & Hva & Hvia & _).
  split; [assumption|]. split; [assumption|].
  apply Forall_forall. intros v Hv'.
  destruct (Forall2_In_r v HFv Hv') as (vd & _ & Hvd).
  apply process_version_inv in Hvd.
  destruct Hvd as (paths & infos & _ & _ & _ & Hvv & Hvvi & _). auto.
Qed.

(** *** Defaults *)

Lemma no_metadata_lookup (app_dir : Path.t) (m : list (pyval * pyval)) (key : string) :
  Path.exists_ (Path.join app_dir "metadata.yml") = false ->
  Path.exists_ (Path.join app_dir "metadata.json") = false ->
  get_app_metadata app_dir = Ok (PDict m) ->
  key <> "readMe" -> key <> "icon" ->
  Py.lookup m key = None.
Proof.
  intros Hy Hj H Hk1 Hk2. apply get_app_metadata_inv in H.
  destruct H as (base & _ & _ & Hb & Hext & _).
  rewrite (Hb Hy Hj) in Hext.
  destruct Hext as [E|(b & f & Eb & Ef & Hl)].
  - injection E as ->. reflexivity.
  - injection Eb as <-. injection Ef as ->. now rewrite Hl.
Qed.

(** C5.  Without [metadata.yml] and [metadata.json] the entry of an
    application has the title-cased directory name for [name] and
    [title], an empty [tags] list, and [amd64] and [arm64] for
    [additionalProperties.architectures]. *)
Theorem defaults_without_metadata (app_dir : Path.t) (a : AppData.t) :
  Path.exists_ (Path.join app_dir "metadata.yml") = false ->
  Path.exists_ (Path.join app_dir "metadata.json") = false ->
  process_app app_dir = Ok a ->
  AppData.name a = PStr (str_title rt (Path.name app_dir)) /\
  AppData.title a = PStr (str_title rt (Path.name app_dir)) /\
  AppData.tags a = PList [] /\
  AdditionalProperties.architectures (AppData.additionalProperties a)
  = PList [PStr "amd64"; PStr "arm64"].
Proof.
  intros Hy Hj H. apply process_app_inv in H.
  destruct H as (m & items & Hm & _ & _ & _ & _ & _ & -> & -> & -> & _ & _ & _ & _ & ->).
  unfold Py.lookup_default.
  rewrite !(no_metadata_lookup _ Hy Hj Hm) by discriminate.
  auto.
Qed.

(** C10.  [additionalProperties.shortDescEn] is the [shortDescEn] of
    the metadata when it has one; otherwise its [description] when it
    has one, which is then also the entry's [description]; otherwise
    the empty string. *)
Theorem short_description_fallback (app_dir : Path.t) (a : AppData.t) :
  process_app app_dir = Ok a ->
  exists m,
    get_app_metadata app_dir = Ok (PDict m) /\
    (forall v, Py.lookup m "shortDescEn" = Some v ->
               AdditionalProperties.shortDescEn (AppData.additionalProperties a) = v) /\
    (Py.lookup m "shortDescEn" = None ->
     forall v, Py.lookup m "description" = Some v ->
               AdditionalProperties.shortDescEn (AppData.additionalProperties a) = v /\
               AppData.description a = v) /\
    (Py.lookup m "shortDescEn" = None -> Py.lookup m "description" = None ->
     AdditionalProperties.shortDescEn (AppData.additionalProperties a) = PStr EmptyString).
Proof.
  intros H. apply process_app_inv in H.
  destruct H as (m & items & Hm & _ & _ & _ & _ & _ & _ & _ & _ & Hd & _ & _ & Hs & _).
  exists m. split; [assumption|]. rewrite Hs, Hd. unfold Py.lookup_default.
  split; [|split].
  - intros v ->. reflexivity.
  - intros -> v ->. auto.
  - intros -> ->. reflexivity.
Qed.

(** *** A missing apps root *)

(** C6.  When the apps root does not exist the run raises nothing and
    writes the catalog with its constant fields and no application. *)
Theorem missing_apps_root :
  assoc (apps_dir self) (cwd host) = None ->
  generate
  = Ok (output_file self,
        {| StoreData.valid := true;
           StoreData.violations := [];
           StoreData.id := "corapanel";
           StoreData.icon := "https://cdn-icons-png.flaticon.com/512/4187/4187336.png";
           StoreData.lastModified := time_time host [];
           StoreData.name := "CoraPANEL";
           StoreData.title := "Official Appstore for CoraPANEL";
           StoreData.extra := [("version", "v1.0.0")];
           StoreData.apps := [] |}).
Proof.
  intros H. unfold AppStoreGenerator.generate, Path.exists_. simpl.
  rewrite H. reflexivity.
Qed.

(** *** Metadata precedence *)

(** C7.  One metadata file is parsed: [metadata.yml] when it exists
    (and then [metadata.json] plays no part), else [metadata.json]
    when it exists, else the mapping starts empty.  When [README.md]
    exists its text is what the mapping holds under [readMe]. *)
Theorem metadata_loading_precedence (app_dir : Path.t) :
  (forall m,
      get_app_metadata app_dir = Ok m ->
      exists base,
        (Path.exists_ (Path.join app_dir "metadata.yml") = true ->
         exists text v,
           Path.read_text (Path.join app_dir "metadata.yml") = Ok text /\
           yaml_safe_load text = Ok v /\ base = Py.or v (PDict [])) /\
        (Path.exists_ (Path.join app_dir "metadata.yml") = false ->
         Path.exists_ (Path.join app_dir "metadata.json") = true ->
         exists text,
           Path.read_text (Path.join app_dir "metadata.json") = Ok text /\
           json_load text = Ok base) /\
        (Path.exists_ (Path.join app_dir "metadata.yml") = false ->
         Path.exists_ (Path.join app_dir "metadata.json") = false ->
         base = PDict []) /\
        Py.extends base m /\
        (Path.exists_ (Path.join app_dir "README.md") = true ->
         exists text items,
           Path.read_text (Path.join app_dir "README.md") = Ok text /\
           m = PDict items /\ Py.lookup items "readMe" = Some (PStr text))) /\
  (Path.exists_ (Path.join app_dir "metadata.yml") = true ->
   forall app_dir',
     Path.name app_dir' = Path.name app_dir ->
     (forall k, k <> "metadata.json" -> Path.join app_dir' k = Path.join app_dir k) ->
     get_app_metadata app_dir' = get_app_metadata app_dir).
Proof.
  split.
  - intros m. apply get_app_metadata_inv.
  - intros Hy app_dir'. now apply get_app_metadata_yaml_only.
Qed.

(** *** Version directories *)

Lemma str_in_latest_stable (n : string) :
  Py.str_in n ["latest"; "stable"] = true <-> n = "latest" \/ n = "stable".
Proof.
  unfold Py.str_in. simpl. rewrite !orb_true_iff, !String.eqb_eq.
  intuition discriminate.
Qed.

Lemma is_version_dir_spec (d : Path.t) :
  is_version_dir d = true <->
  Path.is_dir d = true /\ Str.startswith (Path.name d) "." = false /\
  (version_like (Path.name d) \/ Path.name d = "latest" \/ Path.name d = "stable").
Proof.
  unfold is_version_dir.
  rewrite !andb_true_iff, orb_true_iff, negb_true_iff.
  rewrite ReFacts.version_pattern_spec, str_in_latest_stable. tauto.
Qed.

Lemma version_ids (app_dir : Path.t) (entries : list (string * node)) (a : AppData.t)
    (n : string) :
  Path.target app_dir = Some (Dir entries) ->
  process_app app_dir = Ok a ->
  In n (map VersionData.id (AppData.versions a)) <->
  exists e, In e entries /\ fst e = n /\ is_version_dir (Path.of_entry e) = true.
Proof.
  intros Ht H. apply process_app_inv in H.
  destruct H as (m & items & _ & Hit & HF & _).
  apply iterdir_inv in Hit as (entries' & Ht' & ->).
  rewrite Ht in Ht'. injection Ht' as <-.
  rewrite in_map_iff. split.
  - intros (v & <- & Hv).
    destruct (Forall2_In_r v HF Hv) as (d & Hd & Hpv).
    apply sort_In, filter_In in Hd as [Hd Hvd].
    apply in_map_iff in Hd as (e & <- & He).
    apply process_version_inv in Hpv.
    destruct Hpv as (paths & infos & _ & _ & _ & _ & _ & Hid & _).
    exists e. rewrite Hid. auto.
  - intros (e & He & <- & Hvd).
    assert (Hd : In (Path.of_entry e)
                   (Py.sort Path.name true (filter is_version_dir (map Path.of_entry entries)))).
    { apply sort_In, filter_In. split; [now apply in_map | assumption]. }
    destruct (Forall2_In_l _ HF Hd) as (v & Hv & Hpv).
    apply process_version_inv in Hpv.
    destruct Hpv as (paths & infos & _ & _ & _ & _ & _ & Hid & _).
    exists v. auto.
Qed.

Lemma version_dirs_classified (app_dir : Path.t) (entries : list (string * node))
    (a : AppData.t) :
  Path.target app_dir = Some (Dir entries) ->
  process_app app_dir = Ok a ->
  forall n sub,
    In (n, Dir sub) entries ->
    (Str.startswith n "." = true ->
     ~ In n (map VersionData.id (AppData.versions a))) /\
    (Str.startswith n "." = false ->
     (In n (map VersionData.id (AppData.versions a))
      <-> version_like n \/ n = "latest" \/ n = "stable")).
Proof.
  intros Ht H n sub Hin. split.
  - intros Hhid Hn. apply (@version_ids app_dir entries a n Ht H) in Hn as ([n' x] & _ & E & Hvd).
    simpl in E. subst n'. apply is_version_dir_spec in Hvd as (_ & Hs & _).
    simpl in Hs. congruence.
  - intros Hnh. rewrite (@version_ids app_dir entries a n Ht H). split.
    + intros ([n' x] & _ & E & Hvd). simpl in E. subst n'.
      apply is_version_dir_spec in Hvd as (_ & _ & Hp). exact Hp.
    + intros Hp. exists (n, Dir sub). repeat split; [assumption|].
      apply is_version_dir_spec. simpl. auto.
Qed.

(** *** File timestamps *)

Lemma version_file_info (app_name : string) (version_dir : Path.t) (v : VersionData.t)
    (info : FileInfo.t) :
  process_version app_name version_dir = Ok v ->
  In info (VersionData.files v) ->
  exists entries size mtime content,
    Path.target version_dir = Some (Dir entries) /\
    In (FileInfo.name info, File size mtime content) entries /\
    FileInfo.size info = size /\
    FileInfo.lastModified info
    = PyTime.strftime "%Y-%m-%dT%H:%M:%S.000+00:00" (PyTime.gmtime mtime).
Proof.
  intros H Hin. apply process_version_inv in H.
  destruct H as (paths & infos & Hit & HF & Hfiles & _).
  apply iterdir_inv in Hit as (entries & Ht & ->).
  rewrite Hfiles in Hin. apply sort_In in Hin.
  destruct (Forall2_In_r info HF Hin) as (p & Hp & Hinfo).
  apply filter_In in Hp as [Hp Hl].
  apply in_map_iff in Hp as ([n x] & <- & He).
  unfold listed_file, Path.is_file in Hl. simpl in Hl.
  destruct x as [size mtime content|sub]; [|discriminate].
  change (Path.of_entry (n, File size mtime content))
    with {| Path.name := n; Path.target := Some (File size mtime content) |} in Hinfo.
  apply get_file_info_inv in Hinfo as [_ ->].
  exists entries, size, mtime, content.
  cbn [FileInfo.name FileInfo.size FileInfo.lastModified]. auto.
Qed.

End GeneratorFacts.

(** ** Version directories *)

(** The names of the claim, for every interpreter: the ASCII digits are
    decimal digits and no other ASCII character is. *)
Lemma version_like_examples (rt : Runtime) :
  (forall c : N, (c < 128)%N -> is_decimal rt c = ((48 <=? c) && (c <=? 57))%N) ->
  version_like rt "v1-0" /\ version_like rt "2.5.1" /\
  ~ version_like rt "1" /\ ~ version_like rt "data" /\
  ~ version_like rt "latest" /\ ~ version_like rt "stable".
Proof.
  intros H.
  repeat split.
  - apply ReFacts.version_pattern_spec. unfold Re.match_, version_pattern.
    vm_compute Utf8.decode.
    repeat (cbn; rewrite ?H by reflexivity). reflexivity.
  - apply ReFacts.version_pattern_spec. unfold Re.match_, version_pattern.
    vm_compute Utf8.decode.
    repeat (cbn; rewrite ?H by reflexivity). reflexivity.
  - intros Hv. apply ReFacts.version_pattern_spec in Hv.
    unfold Re.match_, version_pattern in Hv. vm_compute Utf8.decode in Hv.
    repeat (cbn in Hv; rewrite ?H in Hv by reflexivity). discriminate.
  - intros Hv. apply ReFacts.version_pattern_spec in Hv.
    unfold Re.match_, version_pattern in Hv. vm_compute Utf8.decode in Hv.
    repeat (cbn in Hv; rewrite ?H in Hv by reflexivity). discriminate.
  - intros Hv. apply ReFacts.version_pattern_spec in Hv.
    unfold Re.match_, version_pattern in Hv. vm_compute Utf8.decode in Hv.
    repeat (cbn in Hv; rewrite ?H in Hv by reflexivity). discriminate.
  - intros Hv. apply ReFacts.version_pattern_spec in Hv.
    unfold Re.match_, version_pattern in Hv. vm_compute Utf8.decode in Hv.
    repeat (cbn in Hv; rewrite ?H in Hv by reflexivity). discriminate.
Qed.

(** C2.  A subdirectory of an application whose name does not start
    with a dot is in the version list exactly when its name starts with
    an optional [v], digits, one of [-], [.], [_] and digits, or is
    [latest] or [stable]; one whose name starts with a dot never is.
    The digits are the decimal digits [\d] matches.  Of [1], [2.5.1],
    [data], [.hidden], [latest], [v1-0] and [stable] the list keeps
    [v1-0], [stable], [latest] and [2.5.1]. *)
Theorem version_directory_classification :
  (forall rt yaml_safe_load json_load host self app_dir entries a,
      Path.target app_dir = Some (Dir entries) ->
      process_app rt yaml_safe_load json_load host self app_dir = Ok a ->
      forall n sub,
        In (n, Dir sub) entries ->
        (Str.startswith n "." = true ->
         ~ In n (map VersionData.id (AppData.versions a))) /\
        (Str.startswith n "." = false ->
         (In n (map VersionData.id (AppData.versions a))
          <-> version_like rt n \/ n = "latest" \/ n = "stable"))) /\
  (forall rt,
      (forall c : N, (c < 128)%N -> is_decimal rt c = ((48 <=? c) && (c <=? 57))%N) ->
      version_like rt "v1-0" /\ version_like rt "2.5.1" /\
      ~ version_like rt "1" /\ ~ version_like rt "data") /\
  (exists a,
      process_app Sample.rt Sample.yaml_safe_load Sample.json_load (Sample.host 0 [])
        Sample.self (Sample.path "nginx" Sample.nginx) = Ok a /\
      map VersionData.id (AppData.versions a) = ["v1-0"; "stable"; "latest"; "2.5.1"]).
Proof.
  split; [|split].
  - intros rt yaml_safe_load json_load host self app_dir entries a Ht H.
    eapply version_dirs_classified; eassumption.
  - intros rt H. destruct (@version_like_examples rt H) as (H1 & H2 & H3 & H4 & _). auto.
  - eexists. split; [vm_compute; reflexivity|]. reflexivity.
Qed.

Lemma version_directory_classification_witness :
  exists a,
    Path.target (Sample.path "nginx" Sample.nginx)
    = Some (Dir [("metadata.yml", Sample.text_file "name: Nginx");
                 ("1", Dir []);
                 ("2.5.1", Dir [("b.tar.gz", Sample.text_file "bb");
                                (".keep", Sample.text_file "k");
                                ("a.yml", Sample.text_file "a"); ("sub", Dir [])]);
                 ("data", Dir []);
                 (".hidden", Dir []);
                 ("latest", Dir []);
                 ("v1-0", Dir [("README.md", Sample.text_file "notes")]);
                 ("stable", Dir [])]) /\
    process_app Sample.rt Sample.yaml_safe_load Sample.json_load (Sample.host 0 [])
      Sample.self (Sample.path "nginx" Sample.nginx) = Ok a /\
    ~ In ".hidden" (map VersionData.id (AppData.versions a)) /\
    (In "1" (map VersionData.id (AppData.versions a))
     <-> version_like Sample.rt "1" \/ "1" = "latest" \/ "1" = "stable").
Proof.
  eexists. split; [reflexivity|]. split; [vm_compute; reflexivity|].
  match goal with
  | |- context [AppData.versions ?a] =>
      pose proof (proj1 version_directory_classification Sample.rt
                    Sample.yaml_safe_load Sample.json_load (Sample.host 0 [])
                    Sample.self (Sample.path "nginx" Sample.nginx) _ a eq_refl) as H
  end.
  specialize (H ltac:(vm_compute; reflexivity)).
  split.
  - apply (H ".hidden" []); [simpl; auto 10 | reflexivity].
  - apply (H "1" []); [simpl; auto 10 | reflexivity].
Defined.

(** ** Ordering of the catalog *)

(** C4.  The applications of a catalog are in ascending order of their
    directory names, the versions of each application in descending
    order of theirs, and the files of each version in ascending order of
    their names; names are compared as strings, so version [2-0-0] comes
    before [10-0-0]. *)
Theorem output_ordering :
  (forall rt yaml_safe_load json_load host self out doc,
      generate rt yaml_safe_load json_load host self = Ok (out, doc) ->
      StronglySorted
        (fun a b => String.leb (AppData.id a) (AppData.id b) = true)
        (StoreData.apps doc) /\
      Forall
        (fun a =>
           StronglySorted
             (fun v w => String.leb (VersionData.id w) (VersionData.id v) = true)
             (AppData.versions a) /\
           Forall
             (fun v =>
                StronglySorted
                  (fun f g => String.leb (FileInfo.name f) (FileInfo.name g) = true)
                  (VersionData.files v))
             (AppData.versions a))
        (StoreData.apps doc)) /\
  (exists a,
      process_app Sample.rt Sample.yaml_safe_load Sample.json_load (Sample.host 0 [])
        Sample.self (Sample.path "semver" Sample.semver) = Ok a /\
      map VersionData.id (AppData.versions a) = ["2-0-0"; "10-0-0"]).
Proof.
  split.
  - intros rt yaml_safe_load json_load host self out doc H.
    exact (output_sorted _ _ _ _ _ H).
  - eexists. split; [vm_compute; reflexivity|]. reflexivity.
Qed.

Lemma output_ordering_witness :
  exists out doc,
    generate Sample.rt Sample.yaml_safe_load Sample.json_load
      (Sample.host 0 [("apps", Sample.apps)]) Sample.self = Ok (out, doc) /\
    StronglySorted
      (fun a b => String.leb (AppData.id a) (AppData.id b) = true)
      (StoreData.apps doc).
Proof.
  destruct (generate Sample.rt Sample.yaml_safe_load Sample.json_load
              (Sample.host 0 [("apps", Sample.apps)]) Sample.self)
    as [[out doc]|e] eqn:E.
  - exists out, doc. split; [reflexivity|].
    exact (proj1 (proj1 output_ordering _ _ _ _ _ _ _ E)).
  - vm_compute in E. discriminate E.
Defined.

(** ** File timestamps *)




(** ** The theorems at sample inputs *)

Lemma parse_version_normalizes_witness :
  Str.occurs "-" "1-26-0" /\
  parse_version "1-26-0" = Str.subst_char "-" "." "1-26-0".
Proof.
  split; [simpl; auto|].
  apply (proj1 (proj1 parse_version_normalizes "1-26-0")). simpl. auto.
Defined.


(** The reading of C1 that the code does not follow: with an
    application whose metadata does not parse and another whose
    description is a YAML date, both are processed as the claim says,
    the first raising and the second returning an entry, and yet the run
    does not complete: [json.dump] raises [TypeError] on the date. *)
Lemma fault_isolation_run_aborts :
  assoc (apps_dir Sample.self)
    (cwd (Sample.host 0 [("apps", Dir [("broken", Sample.broken);
                                       ("dated", Sample.dated)])]))
  = Some (Dir [("broken", Sample.broken); ("dated", Sample.dated)]) /\
  process_app Sample.rt Sample.yaml_safe_load Sample.json_load
    (Sample.host 0 [("apps", Dir [("broken", Sample.broken); ("dated", Sample.dated)])])
    Sample.self (Sample.path "broken" Sample.broken) = Raise YAMLError /\
  is_ok (process_app Sample.rt Sample.yaml_safe_load Sample.json_load
           (Sample.host 0 [("apps", Dir [("broken", Sample.broken);
                                         ("dated", Sample.dated)])])
           Sample.self (Sample.path "dated" Sample.dated)) = true /\
  generate Sample.rt Sample.yaml_safe_load Sample.json_load
    (Sample.host 0 [("apps", Dir [("broken", Sample.broken); ("dated", Sample.dated)])])
    Sample.self = Raise TypeError /\
  ~ (exists doc,
        generate Sample.rt Sample.yaml_safe_load Sample.json_load
          (Sample.host 0 [("apps", Dir [("broken", Sample.broken);
                                        ("dated", Sample.dated)])])
          Sample.self = Ok (output_file Sample.self, doc)).
Proof.
  split; [reflexivity|]. split; [vm_compute; reflexivity|].
  split; [vm_compute; reflexivity|]. split; [vm_compute; reflexivity|].
  intros [doc H]. vm_compute in H. discriminate H.
Qed.

Lemma validation_placeholders_witness :
  exists out doc,
    generate Sample.rt Sample.yaml_safe_load Sample.json_load
      (Sample.host 0 [("apps", Sample.apps)]) Sample.self = Ok (out, doc) /\
    StoreData.valid doc = true /\ StoreData.violations doc = [].
Proof.
  destruct (generate Sample.rt Sample.yaml_safe_load Sample.json_load
              (Sample.host 0 [("apps", Sample.apps)]) Sample.self)
    as [[out doc]|e] eqn:E.
  - exists out, doc. split; [reflexivity|].
    destruct (@validation_placeholders _ _ _ _ _ out doc E) as (Hv & Hvi & _). auto.
  - vm_compute in E. discriminate E.
Defined.

Lemma missing_apps_root_witness :
  assoc (apps_dir Sample.self) (cwd (Sample.host 0 [])) = None /\
  exists doc,
    generate Sample.rt Sample.yaml_safe_load Sample.json_load (Sample.host 0 []) Sample.self
    = Ok ("appstore.json", doc) /\
    StoreData.apps doc = [].
Proof.
  split; [reflexivity|]. eexists. split.
  - apply (@missing_apps_root Sample.rt Sample.yaml_safe_load Sample.json_load
             (Sample.host 0 []) Sample.self). reflexivity.
  - reflexivity.
Defined.

Lemma defaults_without_metadata_witness :
  Path.exists_ (Path.join (Sample.path "my-app" Sample.plain) "metadata.yml") = false /\
  Path.exists_ (Path.join (Sample.path "my-app" Sample.plain) "metadata.json") = false /\
  exists a,
    process_app Sample.rt Sample.yaml_safe_load Sample.json_load (Sample.host 0 [])
      Sample.self (Sample.path "my-app" Sample.plain) = Ok a /\
    AppData.name a = PStr "My-App" /\
    AppData.title a = PStr "My-App" /\
    AppData.tags a = PList [] /\
    AdditionalProperties.architectures (AppData.additionalProperties a)
    = PList [PStr "amd64"; PStr "arm64"].
Proof.
  split; [reflexivity|]. split; [reflexivity|].
  destruct (process_app Sample.rt Sample.yaml_safe_load Sample.json_load (Sample.host 0 [])
              Sample.self (Sample.path "my-app" Sample.plain)) as [a|e] eqn:E.
  - exists a. split; [reflexivity|].
    exact (@defaults_without_metadata _ _ _ _ _ (Sample.path "my-app" Sample.plain) a
             eq_refl eq_refl E).
  - vm_compute in E. discriminate E.
Defined.

Lemma short_description_fallback_witness :
  exists a m,
    process_app Sample.rt Sample.yaml_safe_load Sample.json_load (Sample.host 0 [])
      Sample.self (Sample.path "both" Sample.both) = Ok a /\
    get_app_metadata Sample.yaml_safe_load Sample.json_load Sample.self
      (Sample.path "both" Sample.both) = Ok (PDict m) /\
    Py.lookup m "shortDescEn" = None /\
    Py.lookup m "description" = Some (PStr "A web server") /\
    AdditionalProperties.shortDescEn (AppData.additionalProperties a)
    = PStr "A web server".
Proof.
  destruct (process_app Sample.rt Sample.yaml_safe_load Sample.json_load (Sample.host 0 [])
              Sample.self (Sample.path "both" Sample.both)) as [a|e] eqn:E.
  - destruct (@short_description_fallback _ _ _ _ _ _ a E) as (m & Hm & _ & Hd & _).
    exists a, m. split; [reflexivity|]. split; [exact Hm|].
    vm_compute in Hm. apply Ok_inj in Hm. injection Hm as <-.
    split; [reflexivity|]. split; [reflexivity|].
    apply (Hd eq_refl (PStr "A web server") eq_refl).
  - vm_compute in E. discriminate E.
Defined.

Lemma metadata_loading_precedence_witness :
  Path.exists_ (Path.join (Sample.path "both" Sample.both) "metadata.yml") = true /\
  Path.exists_ (Path.join (Sample.path "both" Sample.both) "README.md") = true /\
  exists items,
    get_app_metadata Sample.yaml_safe_load Sample.json_load Sample.self
      (Sample.path "both" Sample.both) = Ok (PDict items) /\
    Py.lookup items "readMe" = Some (PStr "# Both") /\
    get_app_metadata Sample.yaml_safe_load Sample.json_load Sample.self
      (Sample.path "both"
         (Dir [("README.md", Sample.text_file "# Both");
               ("metadata.yml", Sample.text_file "description: A web server")]))
    = Ok (PDict items).
Proof.
  split; [reflexivity|]. split; [reflexivity|].
  destruct (get_app_metadata Sample.yaml_safe_load Sample.json_load Sample.self
              (Sample.path "both" Sample.both)) as [m|e] eqn:E.
  - destruct (@metadata_loading_precedence Sample.yaml_safe_load Sample.json_load
                Sample.self (Sample.path "both" Sample.both)) as [H1 H2].
    destruct (H1 m E) as (base & _ & _ & _ & _ & Hr).
    destruct (Hr eq_refl) as (text & items & Ht & -> & Hl).
    vm_compute in Ht. apply Ok_inj in Ht. subst text.
    exists items. split; [reflexivity|]. split; [exact Hl|].
    rewrite <- E. apply (H2 eq_refl); [reflexivity|].
    intros k Hk. unfold Path.join, Sample.path, Sample.both.
    cbn [Path.target Path.name assoc].
    assert (Ek : String.eqb "metadata.json" k = false)
      by (apply String.eqb_neq; congruence).
    rewrite Ek. reflexivity.
  - vm_compute in E. discriminate E.
Defined.

(** * Further properties *)

(** ** Lists *)

Lemma NoDup_map_filter (A B : Type) (key : A -> B) (keep : A -> bool) (entries : list A)
    (Hnd : NoDup (map key entries)) :
  NoDup (map key (filter keep entries)).
Proof.
  induction entries as [|e entries IH]; cbn [filter map] in *; [exact Hnd|].
  apply NoDup_cons_iff in Hnd as [Hni Hnd].
  destruct (keep e); cbn [map]; [|exact (IH Hnd)].
  apply NoDup_cons; [|exact (IH Hnd)].
  rewrite in_map_iff. intros (y & E & Hy). apply Hni.
  apply filter_In in Hy as [Hy _]. rewrite in_map_iff. now exists y.
Qed.

Lemma Forall2_map_eq (A B C : Type) (R : A -> B -> Prop) (f : A -> C) (g : B -> C)
    (l1 : list A) (l2 : list B) :
  (forall a b, R a b -> g b = f a) -> Forall2 R l1 l2 -> map g l2 = map f l1.
Proof.
  intros H. induction 1 as [|a b l1 l2 Hab _ IH]; simpl; [reflexivity|].
  now rewrite IH, (H _ _ Hab).
Qed.

Lemma map_name_of_entry (entries : list (string * node)) :
  map Path.name (map Path.of_entry entries) = map fst entries.
Proof. rewrite map_map. reflexivity. Qed.

Lemma sorted_names_NoDup (reverse : bool) (p : Path.t -> bool)
    (entries : list (string * node)) :
  NoDup (map fst entries) ->
  NoDup (map Path.name
           (Py.sort Path.name reverse (filter p (map Path.of_entry entries)))).
Proof.
  intros H.
  eapply Permutation_NoDup.
  - apply Permutation_map. apply sort_perm.
  - apply NoDup_map_filter. now rewrite map_name_of_entry.
Qed.

(** ** The catalog as a whole *)

Section CatalogFacts.

Variable rt : Runtime.
Variable yaml_safe_load : string -> result pyval.
Variable json_load : string -> result pyval.
Variable host : Host.
Variable self : AppStoreGenerator.t.

Local Notation process_app := (AppStoreGenerator.process_app rt yaml_safe_load json_load host self).
Local Notation process_apps := (AppStoreGenerator.process_apps rt yaml_safe_load json_load host self).
Local Notation generate := (AppStoreGenerator.generate rt yaml_safe_load json_load host self).
Local Notation processed := (Spec.processed rt yaml_safe_load json_load host self).

Lemma fold_append_app_header (new : list AppData.t) :
  forall sd,
    StoreData.id (fold_left StoreData.append_app new sd) = StoreData.id sd /\
    StoreData.icon (fold_left StoreData.append_app new sd) = StoreData.icon sd /\
    StoreData.lastModified (fold_left StoreData.append_app new sd)
    = StoreData.lastModified sd /\
    StoreData.name (fold_left StoreData.append_app new sd) = StoreData.name sd /\
    StoreData.title (fold_left StoreData.append_app new sd) = StoreData.title sd /\
    StoreData.extra (fold_left StoreData.append_app new sd) = StoreData.extra sd.
Proof.
  induction new as [|a new IH]; intros sd; simpl; [auto 10|].
  destruct (IH (StoreData.append_app sd a)) as (-> & -> & -> & -> & -> & ->).
  simpl. auto 10.
Qed.

(** The loop of [generate] comes to its end unless the handler cannot
    print its line. *)
Lemma process_apps_outcome (dirs : list Path.t) :
  forall sd,
    (exists sd', process_apps dirs sd = Ok sd')
    \/ (process_apps dirs sd = Raise UnicodeEncodeError /\
        exists d e, In d dirs /\ stdout_accepts rt (error_line rt d e) = false).
Proof.
  induction dirs as [|d dirs IH]; intros sd.
  - left. now exists sd.
  - rewrite (process_apps_cons rt yaml_safe_load json_load host self).
    assert (Hrest : forall sd1,
               (exists sd', process_apps dirs sd1 = Ok sd')
               \/ (process_apps dirs sd1 = Raise UnicodeEncodeError /\
                   exists d' e, In d' (d :: dirs)
                                /\ stdout_accepts rt (error_line rt d' e) = false)).
    { intros sd1. destruct (IH sd1) as [H|(H & d' & e & Hd' & He)]; [now left|].
      right. split; [exact H|]. exists d', e. split; [now right | exact He]. }
    destruct (if stdout_accepts rt (progress_line d) then process_app d
              else Raise UnicodeEncodeError) as [a|e]; [apply Hrest|].
    destruct (stdout_accepts rt (error_line rt d e)) eqn:E; [apply Hrest|].
    right. split; [reflexivity|]. exists d, e. split; [now left | exact E].
Qed.


(** X2.  Every catalog carries the same header: the output path of the
    generator, the fixed identifier, icon, name, title and version tag,
    and the time the run started. *)
Theorem catalog_header (out : string) (doc : StoreData.t) :
  generate = Ok (out, doc) ->
  out = output_file self /\
  StoreData.id doc = "corapanel" /\
  StoreData.icon doc = "https://cdn-icons-png.flaticon.com/512/4187/4187336.png" /\
  StoreData.name doc = "CoraPANEL" /\
  StoreData.title doc = "Official Appstore for CoraPANEL" /\
  StoreData.extra doc = [("version", "v1.0.0")] /\
  StoreData.lastModified doc = time_time host [].
Proof.
  unfold AppStoreGenerator.generate, Path.exists_, Path.iterdir.
  cbn [Path.target negb].
  destruct (assoc (apps_dir self) (cwd host)) as [[size mtime content|entries]|];
    cbn [negb bind].
  - discriminate.
  - match goal with
    | |- context [AppStoreGenerator.process_apps _ _ _ _ _ ?ds ?sd] =>
        destruct (process_apps ds sd) as [sd'|e] eqn:Ep; cbn [bind]; [|discriminate];
        destruct (process_apps_spec _ _ _ _ _ _ _ Ep) as (new & -> & _);
        destruct (fold_append_app_header new sd) as (H1 & H2 & H3 & H4 & H5 & H6)
    end.
    intros H. apply save_inv in H as (-> & -> & _).
    rewrite H1, H2, H3, H4, H5, H6. simpl. auto 10.
  - intros H. apply save_inv in H as (-> & -> & _). simpl. auto 10.
Qed.

(** X3.  Every application of a catalog is a subdirectory of the apps
    root whose name does not start with a dot: plain files and hidden
    directories of the apps root never become applications. *)
Theorem catalog_apps_are_directories (out : string) (doc : StoreData.t) (a : AppData.t) :
  generate = Ok (out, doc) ->
  In a (StoreData.apps doc) ->
  exists entries sub,
    assoc (apps_dir self) (cwd host) = Some (Dir entries) /\
    In (AppData.id a, Dir sub) entries /\
    Str.startswith (AppData.id a) "." = false.
Proof.
  intros H Ha.
  destruct (generate_inv _ _ _ _ _ H) as (_ & _ & _ & [[_ E]|(entries & Hsome & HF)]).
  - rewrite E in Ha. destruct Ha.
  - destruct (Forall2_In_r a HF Ha) as (d & Hd & Hpa).
    apply filter_In in Hd as [Hd _].
    apply app_dirs_In in Hd as ([n x] & Hx & -> & Hdir).
    rewrite (process_app_id _ _ _ _ _ _ Hpa). simpl.
    unfold is_app_dir, Path.is_dir in Hdir. simpl in Hdir.
    destruct x as [size mtime content|sub]; [discriminate|].
    exists entries, sub. repeat split; try assumption.
    now apply negb_true_iff in Hdir.
Qed.

(** X4.  When the names in the apps root are distinct, so are the
    identifiers of the applications in the catalog. *)
Theorem catalog_app_ids_unique (out : string) (doc : StoreData.t)
    (entries : list (string * node)) :
  generate = Ok (out, doc) ->
  assoc (apps_dir self) (cwd host) = Some (Dir entries) ->
  NoDup (map fst entries) ->
  NoDup (map AppData.id (StoreData.apps doc)).
Proof.
  intros H Hsome Hnd.
  destruct (generate_inv _ _ _ _ _ H) as (_ & _ & _ & [[Hnone _]|(entries' & Hsome' & HF)]);
    [congruence|].
  rewrite Hsome in Hsome'. injection Hsome' as <-.
  rewrite (Forall2_map_eq Path.name AppData.id
             (fun d a Hda => process_app_id _ _ _ _ _ _ Hda) HF).
  apply NoDup_map_filter. now apply sorted_names_NoDup.
Qed.

End CatalogFacts.

(** ** Versions and their files *)

Section VersionFacts.

Variable rt : Runtime.
Variable host : Host.
Variable self : AppStoreGenerator.t.

Local Notation process_version := (AppStoreGenerator.process_version rt host self).

(** What [process_version] does with a directory: it collects the
    files, builds the entry [v0] without a README and then looks at
    [README.md]. *)
Lemma process_version_run (app_name : string) (version_dir : Path.t)
    (entries : list (string * node)) :
  Path.target version_dir = Some (Dir entries) ->
  match collect_files rt (map Path.of_entry entries) [] with
  | Raise e => process_version app_name version_dir = Raise e
  | Ok infos =>
      exists v0,
        Forall2 (fun p info => get_file_info rt p = Ok info)
          (filter listed_file (map Path.of_entry entries)) infos /\
        VersionData.files v0 = Py.sort FileInfo.name false infos /\
        VersionData.readMe v0 = None /\
        VersionData.id v0 = Path.name version_dir /\
        VersionData.name v0 = parse_version (Path.name version_dir) /\
        VersionData.lastModified v0 = time_time host [app_name; Path.name version_dir] /\
        VersionData.downloadUrl v0
        = (base_url self ++ "/apps/" ++ app_name ++ "/" ++ Path.name version_dir)%string /\
        VersionData.downloadCallbackUrl v0
        = ("https://api.github.com/repos/" ++ github_repo self ++ "/contents/apps/"
             ++ app_name ++ "/" ++ Path.name version_dir)%string /\
        process_version app_name version_dir
        = match assoc "README.md" entries with
          | None => Ok v0
          | Some (File _ _ (Some text)) => Ok (VersionData.set_readMe v0 (Some text))
          | Some (File _ _ None) => Raise UnicodeDecodeError
          | Some (Dir _) => Raise IsADirectoryError
          end
  end.
Proof.
  intros Ht. unfold AppStoreGenerator.process_version, Path.iterdir.
  rewrite Ht. cbn [bind].
  destruct (collect_files rt (map Path.of_entry entries) []) as [infos|e] eqn:Ec;
    cbn [bind]; [|reflexivity].
  destruct (collect_files_spec _ _ _ Ec) as (infos' & E & HF).
  cbn [app] in E. subst infos'.
  unfold Path.exists_, Path.read_text, Path.join. rewrite Ht.
  cbn [Path.target].
  eexists. split; [exact HF|].
  split; [|split; [|split; [|split; [|split; [|split; [|split]]]]]];
    [| | | | | | |
     destruct (assoc "README.md" entries) as [[size mtime [text|]|sub]|];
     reflexivity];
    reflexivity.
Qed.

Lemma assoc_In (A : Type) (k : string) (v : A) (l : list (string * A)) :
  assoc k l = Some v -> In (k, v) l.
Proof.
  induction l as [|[k' v'] l IH]; simpl; [discriminate|].
  destruct (String.eqb_spec k' k) as [->|_].
  - intros H. injection H as ->. now left.
  - intros H. right. now apply IH.
Qed.

Lemma listed_entry (n : string) (x : node) :
  listed_file (Path.of_entry (n, x)) = true <->
  (exists size mtime content, x = File size mtime content) /\
  Str.startswith n "." = false.
Proof.
  unfold listed_file, Path.is_file, Path.of_entry. simpl.
  destruct x as [size mtime content|sub]; simpl.
  - rewrite negb_true_iff. split; [intros H; split; eauto | tauto].
  - split; [discriminate | intros [(size & mtime & content & H) _]; discriminate].
Qed.

Lemma process_version_dir (app_name : string) (version_dir : Path.t) (v : VersionData.t) :
  process_version app_name version_dir = Ok v ->
  exists entries, Path.target version_dir = Some (Dir entries).
Proof.
  intros H. apply process_version_inv in H.
  destruct H as (paths & infos & Hit & _).
  apply iterdir_inv in Hit as (entries & Ht & _). eauto.
Qed.

(** The fields of a version entry that do not depend on its README. *)
Lemma process_version_fields (app_name : string) (version_dir : Path.t)
    (entries : list (string * node)) (v : VersionData.t) :
  Path.target version_dir = Some (Dir entries) ->
  process_version app_name version_dir = Ok v ->
  exists infos,
    Forall2 (fun p info => get_file_info rt p = Ok info)
      (filter listed_file (map Path.of_entry entries)) infos /\
    VersionData.files v = Py.sort FileInfo.name false infos /\
    VersionData.id v = Path.name version_dir /\
    VersionData.name v = parse_version (Path.name version_dir) /\
    VersionData.lastModified v = time_time host [app_name; Path.name version_dir] /\
    VersionData.downloadUrl v
    = (base_url self ++ "/apps/" ++ app_name ++ "/" ++ Path.name version_dir)%string /\
    VersionData.downloadCallbackUrl v
    = ("https://api.github.com/repos/" ++ github_repo self ++ "/contents/apps/"
         ++ app_name ++ "/" ++ Path.name version_dir)%string.
Proof.
  intros Ht H.
  pose proof (process_version_run app_name version_dir Ht) as Hrun0.
  destruct (collect_files rt (map Path.of_entry entries) []) as [infos|e];
    [|rewrite Hrun0 in H; discriminate].
  destruct Hrun0 as (v0 & HF & Hf & _ & Hid & Hn & Hl & Hu & Hc & Hrun).
  rewrite Hrun in H. exists infos. split; [exact HF|].
  destruct (assoc "README.md" entries) as [[size mtime [text|]|sub]|];
    try discriminate; apply Ok_inj in H; subst v; simpl; auto 10.
Qed.

(** X5.  The files of a version entry are exactly the regular files of
    the version directory whose names do not start with a dot, each once
    and with its size on disk; subdirectories and hidden files are not
    listed. *)
Theorem version_files_exact (app_name : string) (version_dir : Path.t)
    (entries : list (string * node)) (v : VersionData.t) :
  Path.target version_dir = Some (Dir entries) ->
  process_version app_name version_dir = Ok v ->
  (forall info,
      In info (VersionData.files v) <->
      exists n size mtime content,
        In (n, File size mtime content) entries /\
        Str.startswith n "." = false /\
        info = {| FileInfo.name := n; FileInfo.size := size;
                  FileInfo.lastModified :=
                    PyTime.strftime "%Y-%m-%dT%H:%M:%S.000+00:00" (PyTime.gmtime mtime) |}) /\
  List.length (VersionData.files v)
  = List.length (filter listed_file (map Path.of_entry entries)).
Proof.
  intros Ht H.
  destruct (@process_version_fields app_name version_dir entries v Ht H) as (infos & HF & -> & _).
  split.
  - intros info. rewrite sort_In. split.
    + intros Hin. destruct (Forall2_In_r info HF Hin) as (p & Hp & Hinfo).
      apply filter_In in Hp as [Hp Hl].
      apply in_map_iff in Hp as ([n x] & <- & He).
      apply listed_entry in Hl as [(size & mtime & content & ->) Hn].
      change (Path.of_entry (n, File size mtime content))
        with {| Path.name := n; Path.target := Some (File size mtime content) |} in Hinfo.
      apply get_file_info_inv in Hinfo as [_ Hinfo].
      exists n, size, mtime, content. auto.
    + intros (n & size & mtime & content & He & Hn & ->).
      assert (Hp : In (Path.of_entry (n, File size mtime content))
                     (filter listed_file (map Path.of_entry entries))).
      { apply filter_In. split; [now apply in_map|].
        apply listed_entry. split; [eauto | assumption]. }
      destruct (Forall2_In_l _ HF Hp) as (info & Hin & Hinfo).
      change (Path.of_entry (n, File size mtime content))
        with {| Path.name := n; Path.target := Some (File size mtime content) |} in Hinfo.
      apply get_file_info_inv in Hinfo as [_ Hinfo]. now subst info.
  - rewrite <- (Permutation_length (sort_perm FileInfo.name false infos)).
    symmetry. eapply Forall2_length. exact HF.
Qed.

(** X6.  The [readMe] of a version entry is the text of [README.md] in
    the version directory, or null when there is none; a README is also
    listed among the files of the version. *)
Theorem version_readme (app_name : string) (version_dir : Path.t)
    (entries : list (string * node)) (v : VersionData.t) :
  Path.target version_dir = Some (Dir entries) ->
  process_version app_name version_dir = Ok v ->
  (assoc "README.md" entries = None -> VersionData.readMe v = None) /\
  (forall size mtime text,
      assoc "README.md" entries = Some (File size mtime (Some text)) ->
      VersionData.readMe v = Some text /\
      In "README.md" (map FileInfo.name (VersionData.files v))).
Proof.
  intros Ht H.
  destruct (@process_version_fields app_name version_dir entries v Ht H) as (infos & HF & Hfiles & _).
  pose proof (process_version_run app_name version_dir Ht) as Hrun0.
  destruct (collect_files rt (map Path.of_entry entries) []) as [infos0|e];
    [|rewrite Hrun0 in H; discriminate].
  destruct Hrun0 as (v0 & _ & _ & Hr & _ & _ & _ & _ & _ & Hrun).
  rewrite Hrun in H. split.
  - intros E. rewrite E in H. apply Ok_inj in H. now subst v.
  - intros size mtime text E. rewrite E in H. apply Ok_inj in H. split.
    + now subst v.
    + apply assoc_In in E.
      assert (Hp : In (Path.of_entry ("README.md", File size mtime (Some text)))
                     (filter listed_file (map Path.of_entry entries))).
      { apply filter_In. split; [now apply in_map | reflexivity]. }
      destruct (Forall2_In_l _ HF Hp) as (info & Hin & Hinfo).
      change (Path.of_entry ("README.md", File size mtime (Some text)))
        with {| Path.name := "README.md";
                Path.target := Some (File size mtime (Some text)) |} in Hinfo.
      apply get_file_info_inv in Hinfo as [_ Hinfo].
      rewrite Hfiles. apply in_map_iff. exists info. split; [now subst info|].
      now apply sort_In.
Qed.

(** The listed files whose time cannot be rendered are what makes the
    collection of the files raise. *)
Lemma collect_files_not_ok (entries : list (string * node)) :
  is_ok (collect_files rt (map Path.of_entry entries) []) = false <->
  exists n size mtime content,
    In (n, File size mtime content) entries /\
    Str.startswith n "." = false /\
    stampable rt mtime = false.
Proof.
  split.
  - destruct (collect_files rt (map Path.of_entry entries) []) as [infos|e] eqn:Ec;
      [discriminate|]. intros _.
    destruct (collect_files_raise _ _ _ Ec) as (p & Hp & Hl & He).
    apply in_map_iff in Hp as ([n x] & <- & Hin).
    apply listed_entry in Hl as [(size & mtime & content & ->) Hn].
    exists n, size, mtime, content. split; [assumption|]. split; [assumption|].
    rewrite <- (get_file_info_stampable rt n size mtime content).
    change (Path.of_entry (n, File size mtime content))
      with {| Path.name := n; Path.target := Some (File size mtime content) |} in He.
    now rewrite He.
  - intros (n & size & mtime & content & Hin & Hn & Hs).
    destruct (collect_files rt (map Path.of_entry entries) []) as [infos|e] eqn:Ec;
      [|reflexivity].
    destruct (collect_files_spec _ _ _ Ec) as (infos' & _ & HF).
    assert (Hp : In (Path.of_entry (n, File size mtime content))
                   (filter listed_file (map Path.of_entry entries))).
    { apply filter_In. split; [now apply in_map|].
      apply listed_entry. split; [eauto | assumption]. }
    destruct (Forall2_In_l _ HF Hp) as (info & _ & Hinfo).
    change (Path.of_entry (n, File size mtime content))
      with {| Path.name := n; Path.target := Some (File size mtime content) |} in Hinfo.
    apply get_file_info_inv in Hinfo as [Hs' _]. congruence.
Qed.

Lemma process_version_not_ok (app_name : string) (version_dir : Path.t)
    (entries : list (string * node)) :
  Path.target version_dir = Some (Dir entries) ->
  (is_ok (process_version app_name version_dir) = false <->
   (exists n size mtime content,
       In (n, File size mtime content) entries /\
       Str.startswith n "." = false /\
       stampable rt mtime = false) \/
   (exists sub, assoc "README.md" entries = Some (Dir sub)) \/
   (exists size mtime, assoc "README.md" entries = Some (File size mtime None))).
Proof.
  intros Ht. rewrite <- collect_files_not_ok.
  pose proof (process_version_run app_name version_dir Ht) as Hrun0.
  destruct (collect_files rt (map Path.of_entry entries) []) as [infos|e].
  - destruct Hrun0 as (v0 & _ & _ & _ & _ & _ & _ & _ & _ & ->).
    destruct (assoc "README.md" entries) as [[size mtime [text|]|sub]|]; simpl; split;
      try discriminate; eauto.
    + intros [H|[[sub H]|(s & m & H)]]; discriminate.
    + intros [H|[[sub H]|(s & m & H)]]; discriminate.
  - rewrite Hrun0. simpl. split; auto.
Qed.


End VersionFacts.

(** ** Applications *)

Section AppFacts.

Variable rt : Runtime.
Variable yaml_safe_load : string -> result pyval.
Variable json_load : string -> result pyval.
Variable host : Host.
Variable self : AppStoreGenerator.t.

Local Notation get_app_metadata := (AppStoreGenerator.get_app_metadata yaml_safe_load json_load self).
Local Notation process_version := (AppStoreGenerator.process_version rt host self).
Local Notation process_versions := (AppStoreGenerator.process_versions rt host self).
Local Notation process_app := (AppStoreGenerator.process_app rt yaml_safe_load json_load host self).
Local Notation generate := (AppStoreGenerator.generate rt yaml_safe_load json_load host self).
Local Notation is_version_dir := (Spec.is_version_dir rt).
Local Notation collect_version_dirs := (AppStoreGenerator.collect_version_dirs rt).

Lemma process_versions_ok (app_name : string) (version_dirs : list Path.t) :
  forall a,
    is_ok (process_versions app_name version_dirs a)
    = forallb (fun d => is_ok (process_version app_name d)) version_dirs.
Proof.
  induction version_dirs as [|d ds IH]; intros a; simpl; [reflexivity|].
  destruct (process_version app_name d) as [v|e]; simpl; [apply IH | reflexivity].
Qed.

Lemma fold_append_version_rest (vs : list VersionData.t) :
  forall a,
    AppData.icon (fold_left AppData.append_version vs a) = AppData.icon a /\
    AppData.readMe (fold_left AppData.append_version vs a) = AppData.readMe a /\
    AppData.lastModified (fold_left AppData.append_version vs a)
    = AppData.lastModified a.
Proof.
  induction vs as [|v vs IH]; intros a; simpl; [auto|].
  destruct (IH (AppData.append_version a v)) as (-> & -> & ->). auto.
Qed.

(** The fields of an application entry that [process_app_inv] leaves
    out, in terms of the mapping [get_app_metadata] returns. *)
Lemma process_app_fields (app_dir : Path.t) (a : AppData.t) :
  process_app app_dir = Ok a ->
  exists m,
    get_app_metadata app_dir = Ok (PDict m) /\
    AppData.lastModified a = time_time host [Path.name app_dir] /\
    AppData.icon a
    = Py.lookup_default m "icon"
        (PStr (base_url self ++ "/apps/" ++ Path.name app_dir ++ "/logo.png")) /\
    AppData.readMe a
    = Py.lookup_default m "readMe"
        (PStr ("# " ++ str_title rt (Path.name app_dir)
                 ++ String "010" (String "010"
                      ("Description for " ++ Path.name app_dir ++ "...")))) /\
    AdditionalProperties.key (AppData.additionalProperties a) = Path.name app_dir /\
    AdditionalProperties.shortDescZh (AppData.additionalProperties a)
    = Py.lookup_default m "shortDescZh" (PStr EmptyString) /\
    AdditionalProperties.description (AppData.additionalProperties a)
    = Py.lookup_default m "descriptions"
        (PDict [(PStr "en", Py.lookup_default m "description" (PStr EmptyString));
                (PStr "zh", Py.lookup_default m "descriptionZh" (PStr EmptyString))]) /\
    AdditionalProperties.type (AppData.additionalProperties a)
    = Py.lookup_default m "type" (PStr "runtime") /\
    AdditionalProperties.crossVersionUpdate (AppData.additionalProperties a)
    = Py.lookup_default m "crossVersionUpdate" (PBool true) /\
    AdditionalProperties.limit (AppData.additionalProperties a)
    = Py.lookup_default m "limit" (PInt 1) /\
    AdditionalProperties.recommend (AppData.additionalProperties a)
    = Py.lookup_default m "recommend" (PInt 100) /\
    AdditionalProperties.website (AppData.additionalProperties a)
    = Py.lookup_default m "website" (PStr EmptyString) /\
    AdditionalProperties.github (AppData.additionalProperties a)
    = Py.lookup_default m "github" (PStr EmptyString) /\
    AdditionalProperties.document (AppData.additionalProperties a)
    = Py.lookup_default m "document" (PStr EmptyString).
Proof.
  unfold AppStoreGenerator.process_app.
  destruct (get_app_metadata app_dir) as [[| | | | | |m| | | |]|e]; simpl; try discriminate.
  destruct (Path.iterdir app_dir) as [items|e]; simpl; [|discriminate].
  intros H. apply process_versions_spec in H as (vs & _ & ->).
  match goal with
  | |- context [fold_left AppData.append_version vs ?a0] =>
      destruct (fold_append_version vs a0)
        as (_ & _ & _ & _ & _ & _ & _ & _ & ->);
      destruct (fold_append_version_rest vs a0) as (-> & -> & ->)
  end.
  exists m. simpl. auto 20.
Qed.

Lemma process_app_ok_iff (app_dir : Path.t) (entries : list (string * node)) :
  Path.target app_dir = Some (Dir entries) ->
  (is_ok (process_app app_dir) = true <->
   (exists m, get_app_metadata app_dir = Ok (PDict m)) /\
   forall e, In e entries -> is_version_dir (Path.of_entry e) = true ->
             is_ok (process_version (Path.name app_dir) (Path.of_entry e)) = true).
Proof.
  intros Ht. unfold AppStoreGenerator.process_app.
  destruct (get_app_metadata app_dir) as [[| | | | | |m| | | |]|e]; simpl;
    try (split; [discriminate | intros [[m H] _]; discriminate]).
  unfold Path.iterdir. rewrite Ht. simpl.
  rewrite collect_version_dirs_spec, process_versions_ok, forallb_forall. simpl app.
  split.
  - intros H. split; [eauto|]. intros e He Hv. apply H.
    apply sort_In, filter_In. split; [now apply in_map | assumption].
  - intros [_ H] d Hd. apply sort_In, filter_In in Hd as [Hd Hv].
    apply in_map_iff in Hd as (e & <- & He). now apply H.
Qed.

(** X8.  Processing an application directory succeeds exactly when its
    metadata loads to a mapping and each of its version directories
    processes without error. *)
Theorem process_app_succeeds_iff (app_dir : Path.t) (entries : list (string * node)) :
  Path.target app_dir = Some (Dir entries) ->
  (is_ok (process_app app_dir) = true <->
   (exists m, get_app_metadata app_dir = Ok (PDict m)) /\
   forall e, In e entries -> is_version_dir (Path.of_entry e) = true ->
             is_ok (process_version (Path.name app_dir) (Path.of_entry e)) = true).
Proof. apply process_app_ok_iff. Qed.

Lemma extends_dict (base : pyval) (m : list (pyval * pyval)) :
  Py.extends base (PDict m) -> exists b, base = PDict b.
Proof.
  intros [E|(b & f & -> & _)]; [|eauto]. exists m. now symmetry.
Qed.

(** X9.  An application gets an entry only if its metadata file holds a
    mapping: a YAML document must be a mapping or a false value (empty
    document, empty list, zero, ...), which counts as an empty mapping,
    and a JSON document must be an object ([null] and [[]] are not). *)
Theorem metadata_must_be_mapping (app_dir : Path.t) (a : AppData.t) :
  process_app app_dir = Ok a ->
  (Path.exists_ (Path.join app_dir "metadata.yml") = true ->
   exists text v,
     Path.read_text (Path.join app_dir "metadata.yml") = Ok text /\
     yaml_safe_load text = Ok v /\
     (Py.truthy v = false \/ exists items, v = PDict items)) /\
  (Path.exists_ (Path.join app_dir "metadata.yml") = false ->
   Path.exists_ (Path.join app_dir "metadata.json") = true ->
   exists text items,
     Path.read_text (Path.join app_dir "metadata.json") = Ok text /\
     json_load text = Ok (PDict items)).
Proof.
  intros H. apply process_app_inv in H. destruct H as (m & items & Hm & _).
  apply get_app_metadata_inv in Hm.
  destruct Hm as (base & Hy & Hj & _ & Hext & _).
  apply extends_dict in Hext as [b ->]. split.
  - intros Ey. destruct (Hy Ey) as (text & v & Hr & Hp & Hb).
    exists text, v. repeat split; try assumption.
    unfold Py.or in Hb. destruct (Py.truthy v); [right | now left].
    exists b. now symmetry.
  - intros Ey Ej. destruct (Hj Ey Ej) as (text & Hr & Hp). now exists text, b.
Qed.

(** X10.  An exception raised while reading or parsing the metadata
    file is the exception [process_app] raises. *)
Theorem metadata_errors_propagate (app_dir : Path.t) (e : exn) :
  (Path.exists_ (Path.join app_dir "metadata.yml") = true ->
   Path.read_text (Path.join app_dir "metadata.yml") = Raise e ->
   process_app app_dir = Raise e) /\
  (forall text,
      Path.exists_ (Path.join app_dir "metadata.yml") = true ->
      Path.read_text (Path.join app_dir "metadata.yml") = Ok text ->
      yaml_safe_load text = Raise e ->
      process_app app_dir = Raise e) /\
  (Path.exists_ (Path.join app_dir "metadata.yml") = false ->
   Path.exists_ (Path.join app_dir "metadata.json") = true ->
   Path.read_text (Path.join app_dir "metadata.json") = Raise e ->
   process_app app_dir = Raise e) /\
  (forall text,
      Path.exists_ (Path.join app_dir "metadata.yml") = false ->
      Path.exists_ (Path.join app_dir "metadata.json") = true ->
      Path.read_text (Path.join app_dir "metadata.json") = Ok text ->
      json_load text = Raise e ->
      process_app app_dir = Raise e).
Proof.
  unfold AppStoreGenerator.process_app, AppStoreGenerator.get_app_metadata.
  repeat split.
  - intros -> ->. reflexivity.
  - intros text -> ->. cbn [bind]. intros ->. reflexivity.
  - intros -> -> ->. reflexivity.
  - intros text -> -> ->. cbn [bind]. intros ->. reflexivity.
Qed.

(** *** Icon and README *)

Lemma find_icon_spec (app_dir : Path.t) (names : list string) (m : pyval) :
  find_icon self app_dir names m
  = match find (fun n => Path.exists_ (Path.join app_dir n)) names with
    | Some n =>
        Py.setitem m "icon"
          (PStr (base_url self ++ "/apps/" ++ Path.name app_dir ++ "/" ++ n))
    | None => Ok m
    end.
Proof.
  induction names as [|n names IH]; simpl; [reflexivity|].
  destruct (Path.exists_ (Path.join app_dir n)); [reflexivity | exact IH].
Qed.

(** The three steps of [get_app_metadata]: the mapping [base] loaded
    from the metadata file, the README stored into it, the icon stored
    into that. *)
Lemma get_app_metadata_steps (app_dir : Path.t) (m : pyval) :
  get_app_metadata app_dir = Ok m ->
  exists base m1,
    (Path.exists_ (Path.join app_dir "metadata.yml") = true ->
     exists text v,
       Path.read_text (Path.join app_dir "metadata.yml") = Ok text /\
       yaml_safe_load text = Ok v /\ base = Py.or v (PDict [])) /\
    (Path.exists_ (Path.join app_dir "metadata.yml") = false ->
     Path.exists_ (Path.join app_dir "metadata.json") = true ->
     exists text,
       Path.read_text (Path.join app_dir "metadata.json") = Ok text /\
       json_load text = Ok base) /\
    (Path.exists_ (Path.join app_dir "metadata.yml") = false ->
     Path.exists_ (Path.join app_dir "metadata.json") = false ->
     base = PDict []) /\
    (Path.exists_ (Path.join app_dir "README.md") = false -> m1 = base) /\
    (Path.exists_ (Path.join app_dir "README.md") = true ->
     exists text,
       Path.read_text (Path.join app_dir "README.md") = Ok text /\
       Py.setitem base "readMe" (PStr text) = Ok m1) /\
    find_icon self app_dir icon_names m1 = Ok m.
Proof.
  unfold AppStoreGenerator.get_app_metadata. intros H.
  match type of H with
  | bind ?load _ = _ => destruct load as [base|e] eqn:Hload; [|discriminate]
  end.
  cbn [bind] in H.
  match type of H with
  | bind ?rd _ = _ => destruct rd as [m1|e] eqn:Hrd; [|discriminate]
  end.
  cbn [bind] in H. exists base, m1.
  split; [|split; [|split; [|split; [|split]]]]; try assumption.
  - intros Hy. rewrite Hy in Hload.
    destruct (Path.read_text (Path.join app_dir "metadata.yml")) as [text|e];
      simpl in Hload; [|discriminate].
    destruct (yaml_safe_load text) as [v|e] eqn:Ev; simpl in Hload; [|discriminate].
    apply Ok_inj in Hload. subst base. now exists text, v.
  - intros Hy Hj. rewrite Hy, Hj in Hload.
    destruct (Path.read_text (Path.join app_dir "metadata.json")) as [text|e];
      simpl in Hload; [|discriminate].
    now exists text.
  - intros Hy Hj. rewrite Hy, Hj in Hload. apply Ok_inj in Hload. now symmetry.
  - intros Hr. rewrite Hr in Hrd. apply Ok_inj in Hrd. now symmetry.
  - intros Hr. rewrite Hr in Hrd.
    destruct (Path.read_text (Path.join app_dir "README.md")) as [text|e];
      simpl in Hrd; [|discriminate].
    now exists text.
Qed.

Lemma setitem_dict (m1 : pyval) (key : string) (v : pyval) (m : list (pyval * pyval)) :
  Py.setitem m1 key v = Ok (PDict m) ->
  exists i1, m1 = PDict i1 /\ m = Py.store i1 key v.
Proof.
  destruct m1 as [| | | | | |i1| | | |]; try discriminate.
  intros H. apply Ok_inj in H. injection H as <-. now exists i1.
Qed.

(** Where the [icon] and [readMe] of the returned mapping come from, [b]
    being the mapping loaded from the metadata file. *)
Lemma metadata_icon_readme (app_dir : Path.t) (m : list (pyval * pyval)) :
  get_app_metadata app_dir = Ok (PDict m) ->
  exists b,
    (Path.exists_ (Path.join app_dir "metadata.yml") = true ->
     exists text v,
       Path.read_text (Path.join app_dir "metadata.yml") = Ok text /\
       yaml_safe_load text = Ok v /\ PDict b = Py.or v (PDict [])) /\
    (Path.exists_ (Path.join app_dir "metadata.yml") = false ->
     Path.exists_ (Path.join app_dir "metadata.json") = true ->
     exists text,
       Path.read_text (Path.join app_dir "metadata.json") = Ok text /\
       json_load text = Ok (PDict b)) /\
    (Path.exists_ (Path.join app_dir "metadata.yml") = false ->
     Path.exists_ (Path.join app_dir "metadata.json") = false ->
     b = []) /\
    (forall n,
        find (fun n => Path.exists_ (Path.join app_dir n)) icon_names = Some n ->
        Py.lookup m "icon"
        = Some (PStr (base_url self ++ "/apps/" ++ Path.name app_dir ++ "/" ++ n))) /\
    (find (fun n => Path.exists_ (Path.join app_dir n)) icon_names = None ->
     Py.lookup m "icon" = Py.lookup b "icon") /\
    (Path.exists_ (Path.join app_dir "README.md") = true ->
     exists text,
       Path.read_text (Path.join app_dir "README.md") = Ok text /\
       Py.lookup m "readMe" = Some (PStr text)) /\
    (Path.exists_ (Path.join app_dir "README.md") = false ->
     Py.lookup m "readMe" = Py.lookup b "readMe").
Proof.
  intros H. apply get_app_metadata_steps in H.
  destruct H as (base & m1 & Hy & Hj & Hn & Hr0 & Hr1 & Hicon).
  rewrite find_icon_spec in Hicon.
  assert (H1 : exists i1, m1 = PDict i1 /\
                 (forall n,
                     find (fun n => Path.exists_ (Path.join app_dir n)) icon_names = Some n ->
                     Py.lookup m "icon"
                     = Some (PStr (base_url self ++ "/apps/" ++ Path.name app_dir
                                     ++ "/" ++ n))) /\
                 (find (fun n => Path.exists_ (Path.join app_dir n)) icon_names = None ->
                  Py.lookup m "icon" = Py.lookup i1 "icon") /\
                 Py.lookup m "readMe" = Py.lookup i1 "readMe").
  { destruct (find (fun n => Path.exists_ (Path.join app_dir n)) icon_names) as [n|].
    - apply setitem_dict in Hicon as (i1 & -> & ->). exists i1.
      split; [reflexivity|]. split; [|split].
      + intros n' E. injection E as <-. apply lookup_store_eq.
      + discriminate.
      + apply lookup_store_ne. discriminate.
    - apply Ok_inj in Hicon. subst m1. exists m. split; [reflexivity|].
      split; [discriminate|]. auto. }
  destruct H1 as (i1 & -> & Hsome & Hnone & Hrm).
  assert (H2 : exists b, base = PDict b /\
                 (Path.exists_ (Path.join app_dir "README.md") = true ->
                  exists text,
                    Path.read_text (Path.join app_dir "README.md") = Ok text /\
                    Py.lookup i1 "readMe" = Some (PStr text)) /\
                 (Path.exists_ (Path.join app_dir "README.md") = false ->
                  Py.lookup i1 "readMe" = Py.lookup b "readMe") /\
                 Py.lookup i1 "icon" = Py.lookup b "icon").
  { destruct (Path.exists_ (Path.join app_dir "README.md")).
    - destruct (Hr1 eq_refl) as (text & Ht & Hs).
      apply setitem_dict in Hs as (b & -> & ->). exists b.
      split; [reflexivity|]. split; [|split].
      + intros _. exists text. split; [assumption | apply lookup_store_eq].
      + discriminate.
      + apply lookup_store_ne. discriminate.
    - specialize (Hr0 eq_refl). exists i1. split; [now symmetry|].
      split; [discriminate|]. auto. }
  destruct H2 as (b & -> & Hre & Hrn & Hib).
  exists b. split; [|split; [|split; [|split; [|split; [|split]]]]].
  - intros E. destruct (Hy E) as (text & v & ? & ? & ?). now exists text, v.
  - exact Hj.
  - intros E1 E2. specialize (Hn E1 E2). now injection Hn.
  - exact Hsome.
  - intros E. now rewrite (Hnone E).
  - intros E. destruct (Hre E) as (text & ? & Hl). exists text.
    split; [assumption|]. now rewrite Hrm.
  - intros E. now rewrite Hrm, (Hrn E).
Qed.

Lemma or_dict (items : list (pyval * pyval)) :
  Py.or (PDict items) (PDict []) = PDict items.
Proof. now destruct items. Qed.

(** The mapping loaded from the metadata file is the one
    [metadata_source] describes, and there is only one. *)
Lemma metadata_source_unique (app_dir : Path.t) (x y : pyval) :
  metadata_source yaml_safe_load json_load app_dir x ->
  metadata_source yaml_safe_load json_load app_dir y ->
  x = y.
Proof.
  intros Hx Hy.
  destruct Hx as [text v Ey Hr Hp|text v Ey Ej Hr Hp|Ey Ej];
    destruct Hy as [text' v' Ey' Hr' Hp'|text' v' Ey' Ej' Hr' Hp'|Ey' Ej'];
    congruence.
Qed.

Lemma metadata_source_loaded (app_dir : Path.t) (b : list (pyval * pyval)) :
  (Path.exists_ (Path.join app_dir "metadata.yml") = true ->
   exists text v,
     Path.read_text (Path.join app_dir "metadata.yml") = Ok text /\
     yaml_safe_load text = Ok v /\ PDict b = Py.or v (PDict [])) ->
  (Path.exists_ (Path.join app_dir "metadata.yml") = false ->
   Path.exists_ (Path.join app_dir "metadata.json") = true ->
   exists text,
     Path.read_text (Path.join app_dir "metadata.json") = Ok text /\
     json_load text = Ok (PDict b)) ->
  (Path.exists_ (Path.join app_dir "metadata.yml") = false ->
   Path.exists_ (Path.join app_dir "metadata.json") = false ->
   b = []) ->
  metadata_source yaml_safe_load json_load app_dir (PDict b).
Proof.
  intros Hy Hj Hn.
  destruct (Path.exists_ (Path.join app_dir "metadata.yml")) eqn:Ey.
  - destruct (Hy eq_refl) as (text & v & Hr & Hp & ->).
    now apply source_yaml with (text := text).
  - destruct (Path.exists_ (Path.join app_dir "metadata.json")) eqn:Ej.
    + destruct (Hj eq_refl eq_refl) as (text & Hr & Hp).
      now apply source_json with (text := text).
    + rewrite (Hn eq_refl eq_refl). now apply source_none.
Qed.

(** X11.  The icon of an application: the first of [logo.png],
    [icon.png], [logo.svg], [icon.svg] that exists in its directory wins,
    also over an [icon] in the metadata; with none of them it is the
    [icon] of the mapping loaded from the metadata file (the document
    of [metadata.yml], a false document counting as an empty mapping,
    else the document of [metadata.json], else the empty mapping), and
    when that has none the URL of a [logo.png] that does not exist. *)
Theorem icon_precedence (app_dir : Path.t) (a : AppData.t) :
  process_app app_dir = Ok a ->
  forall base,
    metadata_source yaml_safe_load json_load app_dir base ->
    exists items,
      base = PDict items /\
      (forall n,
          find (fun n => Path.exists_ (Path.join app_dir n)) icon_names = Some n ->
          AppData.icon a
          = PStr (base_url self ++ "/apps/" ++ Path.name app_dir ++ "/" ++ n)) /\
      (find (fun n => Path.exists_ (Path.join app_dir n)) icon_names = None ->
       AppData.icon a
       = Py.lookup_default items "icon"
           (PStr (base_url self ++ "/apps/" ++ Path.name app_dir ++ "/logo.png"))) /\
      (find (fun n => Path.exists_ (Path.join app_dir n)) icon_names = None ->
       Path.exists_ (Path.join app_dir "metadata.yml") = false ->
       Path.exists_ (Path.join app_dir "metadata.json") = false ->
       AppData.icon a
       = PStr (base_url self ++ "/apps/" ++ Path.name app_dir ++ "/logo.png")).
Proof.
  intros H base Hbase. apply process_app_fields in H.
  destruct H as (m & Hm & _ & -> & _).
  apply metadata_icon_readme in Hm.
  destruct Hm as (b & Hy & Hj & Hn & Hsome & Hnone & _).
  pose proof (metadata_source_loaded app_dir Hy Hj Hn) as Hb.
  rewrite (metadata_source_unique Hbase Hb).
  exists b. split; [reflexivity|].
  unfold Py.lookup_default. split; [|split].
  - intros n E. now rewrite (Hsome n E).
  - intros E. now rewrite (Hnone E).
  - intros E Ey Ej. rewrite (Hnone E), (Hn Ey Ej). reflexivity.
Qed.

(** X12.  The [readMe] of an application: the text of its [README.md]
    when there is one, also over a [readMe] in the metadata; otherwise
    the [readMe] of the mapping loaded from the metadata file (the
    document of [metadata.yml], a false document counting as an empty
    mapping, else the document of [metadata.json], else the empty
    mapping); and when that has none a placeholder made from the
    directory name and its title-cased form. *)
Theorem readme_precedence (app_dir : Path.t) (a : AppData.t) :
  process_app app_dir = Ok a ->
  forall base,
    metadata_source yaml_safe_load json_load app_dir base ->
    exists items,
      base = PDict items /\
      (Path.exists_ (Path.join app_dir "README.md") = true ->
       exists text,
         Path.read_text (Path.join app_dir "README.md") = Ok text /\
         AppData.readMe a = PStr text) /\
      (Path.exists_ (Path.join app_dir "README.md") = false ->
       AppData.readMe a
       = Py.lookup_default items "readMe"
           (PStr ("# " ++ str_title rt (Path.name app_dir)
                    ++ String "010" (String "010"
                         ("Description for " ++ Path.name app_dir ++ "..."))))) /\
      (Path.exists_ (Path.join app_dir "README.md") = false ->
       Path.exists_ (Path.join app_dir "metadata.yml") = false ->
       Path.exists_ (Path.join app_dir "metadata.json") = false ->
       AppData.readMe a
       = PStr ("# " ++ str_title rt (Path.name app_dir)
                 ++ String "010" (String "010"
                      ("Description for " ++ Path.name app_dir ++ "...")))).
Proof.
  intros H base Hbase. apply process_app_fields in H.
  destruct H as (m & Hm & _ & _ & -> & _).
  apply metadata_icon_readme in Hm.
  destruct Hm as (b & Hy & Hj & Hn & _ & _ & Hre & Hrn).
  pose proof (metadata_source_loaded app_dir Hy Hj Hn) as Hb.
  rewrite (metadata_source_unique Hbase Hb).
  exists b. split; [reflexivity|].
  unfold Py.lookup_default. split; [|split].
  - intros E. destruct (Hre E) as (text & Hr & Hl). exists text. now rewrite Hl.
  - intros E. now rewrite (Hrn E).
  - intros E Ey Ej. rewrite (Hrn E), (Hn Ey Ej). reflexivity.
Qed.

(** *** Whole entries *)

(** X13.  An application directory with no metadata file, no README and
    no icon file gets an entry made of defaults only: placeholders built
    from the directory name, the [runtime] type, limit 1, weight 100,
    empty links and both architectures. *)
Theorem bare_app_defaults (app_dir : Path.t) (a : AppData.t) :
  Path.exists_ (Path.join app_dir "metadata.yml") = false ->
  Path.exists_ (Path.join app_dir "metadata.json") = false ->
  Path.exists_ (Path.join app_dir "README.md") = false ->
  find (fun n => Path.exists_ (Path.join app_dir n)) icon_names = None ->
  process_app app_dir = Ok a ->
  a = {| AppData.valid := true;
         AppData.violations := [];
         AppData.id := Path.name app_dir;
         AppData.lastModified := time_time host [Path.name app_dir];
         AppData.icon :=
           PStr (base_url self ++ "/apps/" ++ Path.name app_dir ++ "/logo.png");
         AppData.readMe :=
           PStr ("# " ++ str_title rt (Path.name app_dir)
                   ++ String "010" (String "010"
                        ("Description for " ++ Path.name app_dir ++ "...")));
         AppData.description := PStr ("Description for " ++ Path.name app_dir);
         AppData.name := PStr (str_title rt (Path.name app_dir));
         AppData.tags := PList [];
         AppData.title := PStr (str_title rt (Path.name app_dir));
         AppData.additionalProperties :=
           {| AdditionalProperties.key := Path.name app_dir;
              AdditionalProperties.name := PStr (str_title rt (Path.name app_dir));
              AdditionalProperties.tags := PList [];
              AdditionalProperties.shortDescZh := PStr EmptyString;
              AdditionalProperties.shortDescEn := PStr EmptyString;
              AdditionalProperties.description :=
                PDict [(PStr "en", PStr EmptyString); (PStr "zh", PStr EmptyString)];
              AdditionalProperties.type := PStr "runtime";
              AdditionalProperties.crossVersionUpdate := PBool true;
              AdditionalProperties.limit := PInt 1;
              AdditionalProperties.recommend := PInt 100;
              AdditionalProperties.website := PStr EmptyString;
              AdditionalProperties.github := PStr EmptyString;
              AdditionalProperties.document := PStr EmptyString;
              AdditionalProperties.architectures := PList [PStr "amd64"; PStr "arm64"] |};
         AppData.versions := AppData.versions a |}.
Proof.
  intros Ey Ej Er Ei H.
  destruct (process_app_inv _ _ _ _ _ _ H)
    as (m & items & Hm & _ & _ & A1 & A2 & A3 & A4 & A5 & A6 & A7 & A8 & A9 & A10 & A11).
  destruct (process_app_fields _ H)
    as (m' & Hm' & B1 & B2 & B3 & B4 & B5 & B6 & B7 & B8 & B9 & B10 & B11 & B12 & B13).
  rewrite Hm in Hm'. apply Ok_inj in Hm'. injection Hm' as <-.
  assert (Em : m = []).
  { apply get_app_metadata_steps in Hm.
    destruct Hm as (base & m1 & _ & _ & Hn & Hr0 & _ & Hicon).
    rewrite find_icon_spec, Ei in Hicon. apply Ok_inj in Hicon.
    rewrite (Hr0 Er), (Hn Ey Ej) in Hicon. now injection Hicon. }
  subst m. unfold Py.lookup_default in *. simpl in *.
  destruct a as [valid violations id lastModified icon readMe description name tags
                   title ap versions].
  destruct ap. simpl in *. congruence.
Qed.

(** X14.  In an application entry [additionalProperties] repeats the
    entry: its [key] is the entry's [id], which is the directory name,
    and its [name] and [tags] are the entry's. *)
Theorem app_entry_invariants (app_dir : Path.t) (a : AppData.t) :
  process_app app_dir = Ok a ->
  AppData.id a = Path.name app_dir /\
  AdditionalProperties.key (AppData.additionalProperties a) = AppData.id a /\
  AdditionalProperties.name (AppData.additionalProperties a) = AppData.name a /\
  AdditionalProperties.tags (AppData.additionalProperties a) = AppData.tags a.
Proof.
  intros H.
  destruct (process_app_inv _ _ _ _ _ _ H)
    as (m & items & Hm & _ & _ & _ & _ & A3 & A4 & _ & A6 & _ & A8 & A9 & _).
  destruct (process_app_fields _ H) as (m' & Hm' & _ & _ & _ & B4 & _).
  rewrite Hm in Hm'. apply Ok_inj in Hm'. injection Hm' as <-.
  rewrite A3, B4, A4, A6, A8, A9. auto.
Qed.

(** X15.  [additionalProperties.description] is the [descriptions] of
    the metadata when it has one, taken whole; otherwise a mapping with
    the metadata's [description] under [en] and its [descriptionZh] under
    [zh], each empty when missing. *)
Theorem descriptions_fallback (app_dir : Path.t) (a : AppData.t) :
  process_app app_dir = Ok a ->
  exists m,
    get_app_metadata app_dir = Ok (PDict m) /\
    (forall v, Py.lookup m "descriptions" = Some v ->
               AdditionalProperties.description (AppData.additionalProperties a) = v) /\
    (Py.lookup m "descriptions" = None ->
     AdditionalProperties.description (AppData.additionalProperties a)
     = PDict [(PStr "en", Py.lookup_default m "description" (PStr EmptyString));
              (PStr "zh", Py.lookup_default m "descriptionZh" (PStr EmptyString))]).
Proof.
  intros H. destruct (process_app_fields _ H) as (m & Hm & _ & _ & _ & _ & _ & B6 & _).
  exists m. split; [assumption|]. rewrite B6. split.
  - intros v E. unfold Py.lookup_default at 1. now rewrite E.
  - intros E. unfold Py.lookup_default at 1. now rewrite E.
Qed.

(** *** Versions in the catalog *)

Lemma generate_version_fields (out : string) (doc : StoreData.t)
    (a : AppData.t) (v : VersionData.t) :
  generate = Ok (out, doc) ->
  In a (StoreData.apps doc) ->
  In v (AppData.versions a) ->
  VersionData.name v = parse_version (VersionData.id v) /\
  VersionData.downloadUrl v
  = (base_url self ++ "/apps/" ++ AppData.id a ++ "/" ++ VersionData.id v)%string /\
  VersionData.downloadCallbackUrl v
  = ("https://api.github.com/repos/" ++ github_repo self ++ "/contents/apps/"
       ++ AppData.id a ++ "/" ++ VersionData.id v)%string.
Proof.
  intros H Ha Hv.
  destruct (generate_inv _ _ _ _ _ H) as (_ & _ & _ & [[_ E]|(entries & _ & HF)]).
  - rewrite E in Ha. destruct Ha.
  - destruct (Forall2_In_r a HF Ha) as (d & _ & Hd).
    destruct (process_app_inv _ _ _ _ _ _ Hd) as (m & items & _ & _ & HFv & _ & _ & Hid & _).
    destruct (Forall2_In_r v HFv Hv) as (vd & _ & Hvd).
    destruct (process_version_dir _ _ _ _ _ Hvd) as (ventries & Ht).
    destruct (@process_version_fields rt host self (Path.name d) vd ventries v Ht Hvd)
      as (infos & _ & _ & Hvid & Hvn & _ & Hu & Hc).
    rewrite Hvid, Hvn, Hu, Hc, Hid. auto.
Qed.

(** X16.  Every version in a catalog has the normalized directory name
    for display name, and URLs made of the generator's base URL (or
    repository), the application's identifier and the version's. *)
Theorem catalog_version_urls (out : string) (doc : StoreData.t)
    (a : AppData.t) (v : VersionData.t) :
  generate = Ok (out, doc) ->
  In a (StoreData.apps doc) ->
  In v (AppData.versions a) ->
  VersionData.name v = parse_version (VersionData.id v) /\
  VersionData.downloadUrl v
  = (base_url self ++ "/apps/" ++ AppData.id a ++ "/" ++ VersionData.id v)%string /\
  VersionData.downloadCallbackUrl v
  = ("https://api.github.com/repos/" ++ github_repo self ++ "/contents/apps/"
       ++ AppData.id a ++ "/" ++ VersionData.id v)%string.
Proof. apply generate_version_fields. Qed.

(** X17.  One version directory whose [README.md] cannot be read keeps
    the whole application out of the catalog. *)
Theorem unreadable_version_drops_app (out : string) (doc : StoreData.t)
    (entries sub vsub : list (string * node)) (n vn : string) :
  generate = Ok (out, doc) ->
  assoc (apps_dir self) (cwd host) = Some (Dir entries) ->
  NoDup (map fst entries) ->
  In (n, Dir sub) entries ->
  In (vn, Dir vsub) sub ->
  is_version_dir (Path.of_entry (vn, Dir vsub)) = true ->
  (exists x, assoc "README.md" vsub = Some (Dir x)) \/
  (exists size mtime, assoc "README.md" vsub = Some (File size mtime None)) ->
  ~ In n (map AppData.id (StoreData.apps doc)).
Proof.
  intros H Hsome Hnd Hn Hvn Hvd Hbad Hin.
  destruct (generate_inv _ _ _ _ _ H) as (_ & _ & _ & [[Hnone _]|(entries' & Hsome' & HF)]);
    [congruence|].
  rewrite Hsome in Hsome'. injection Hsome' as <-.
  apply in_map_iff in Hin as (a & Hid & Ha).
  destruct (Forall2_In_r a HF Ha) as (d & Hd & Hpa).
  apply filter_In in Hd as [Hd _].
  apply app_dirs_In in Hd as ([n' x] & Hx & -> & _).
  rewrite (process_app_id _ _ _ _ _ _ Hpa) in Hid. simpl in Hid. subst n'.
  pose proof (assoc_In_NoDup _ _ _ Hnd Hx) as E1.
  pose proof (assoc_In_NoDup _ _ _ Hnd Hn) as E2.
  rewrite E1 in E2. injection E2 as ->.
  assert (Hok : is_ok (process_app (Path.of_entry (n, Dir sub))) = true)
    by now rewrite Hpa.
  apply (process_app_ok_iff (Path.of_entry (n, Dir sub)) (entries := sub) eq_refl)
    in Hok as [_ Hall].
  specialize (Hall _ Hvn Hvd).
  pose proof (proj2 (process_version_not_ok rt host self n (Path.of_entry (vn, Dir vsub))
                       (entries := vsub) eq_refl) (or_intror Hbad)) as Hfail.
  simpl in Hall. simpl in Hfail. congruence.
Qed.

End AppFacts.

(** ** Normalized version names *)

Lemma subst_char_length (a b : ascii) (s : string) :
  String.length (Str.subst_char a b s) = String.length s.
Proof. induction s as [|c s IH]; simpl; congruence. Qed.

Lemma subst_char_removes (a b : ascii) (s : string) :
  a <> b -> ~ Str.occurs a (Str.subst_char a b s).
Proof.
  intros Hab. induction s as [|c s IH]; simpl; [tauto|].
  intros [E|H]; [|now apply IH].
  destruct (Ascii.eqb_spec c a) as [->|Hc]; congruence.
Qed.

Lemma subst_char_other (a b c : ascii) (s : string) :
  c <> a -> c <> b -> (Str.occurs c (Str.subst_char a b s) <-> Str.occurs c s).
Proof.
  intros Ha Hb. induction s as [|x s IH]; simpl; [tauto|].
  rewrite IH. destruct (Ascii.eqb_spec x a) as [->|Hx]; [|tauto].
  split; intros [E|H]; auto; congruence.
Qed.

(** X18.  A normalized version name never contains [-] and is as long as
    the directory name. *)
Theorem parse_version_no_dash (d : string) :
  ~ Str.occurs "-" (parse_version d) /\
  String.length (parse_version d) = String.length d.
Proof.
  unfold parse_version.
  destruct (Str.contains "-" d) eqn:E1.
  - rewrite replace_char. split; [now apply subst_char_removes | apply subst_char_length].
  - apply contains_char_false in E1.
    destruct (Str.contains "_" d) eqn:E2.
    + rewrite replace_char. split; [|apply subst_char_length].
      now rewrite subst_char_other.
    + auto.
Qed.

(** X19.  Only one kind of separator is replaced: in a name with a [-]
    every [_] stays where it is, so the normalized name of [1-2_3] is
    [1.2_3]. *)
Theorem parse_version_keeps_underscores (d : string) :
  Str.occurs "-" d ->
  (Str.occurs "_" (parse_version d) <-> Str.occurs "_" d).
Proof.
  intros H. unfold parse_version. apply contains_char in H. rewrite H, replace_char.
  now apply subst_char_other.
Qed.

Lemma parse_version_keeps_underscores_witness :
  Str.occurs "-" "1-2_3" /\ Str.occurs "_" (parse_version "1-2_3").
Proof.
  assert (H : Str.occurs "-" "1-2_3") by (simpl; auto).
  split; [exact H|].
  apply (proj2 (parse_version_keeps_underscores "1-2_3" H)). simpl. auto.
Defined.

(** ** [main] *)

(** X20.  [main] reads the [apps] directory and writes [appstore.json];
    the download URL of every version is under the raw-content URL of
    the repository named by [GITHUB_REPOSITORY] (used as it is, even
    when empty), or of [yourusername/appstore] when the variable is not
    set. *)
Theorem main_output (rt : Runtime) (yaml_safe_load json_load : string -> result pyval)
    (host : Host) (out : string) (doc : StoreData.t) :
  main rt yaml_safe_load json_load host = Ok (out, doc) ->
  out = "appstore.json" /\
  (assoc "apps" (cwd host) = None -> StoreData.apps doc = []) /\
  forall a v,
    In a (StoreData.apps doc) -> In v (AppData.versions a) ->
    VersionData.downloadUrl v
    = ("https://raw.githubusercontent.com/"
         ++ match assoc "GITHUB_REPOSITORY" (environ host) with
            | Some repo => repo
            | None => "yourusername/appstore"
            end
         ++ "/main/apps/" ++ AppData.id a ++ "/" ++ VersionData.id v)%string.
Proof.
  unfold main. intros H.
  destruct (generate_inv _ _ _ _ _ H) as (-> & _ & _ & Happs).
  split; [reflexivity|]. split.
  - intros Hnone. destruct Happs as [[_ E]|(entries & Hsome & _)]; [assumption|].
    simpl in Hsome. congruence.
  - intros a v Ha Hv.
    destruct (generate_version_fields _ _ _ _ _ _ _ H Ha Hv) as (_ & -> & _).
    simpl. now rewrite !string_append_assoc.
Qed.

(** ** The clock *)

Section ClockFacts.

Variable rt : Runtime.
Variable yaml_safe_load : string -> result pyval.
Variable json_load : string -> result pyval.
Variable self : AppStoreGenerator.t.
Variables host1 host2 : Host.

Lemma process_version_clock (app_name : string) (version_dir : Path.t) :
  same_outcome (fun v1 v2 => untimed_version v1 = untimed_version v2)
    (process_version rt host1 self app_name version_dir)
    (process_version rt host2 self app_name version_dir).
Proof.
  unfold process_version.
  destruct (Path.iterdir version_dir) as [paths|e]; cbn [bind]; [|reflexivity].
  destruct (collect_files rt paths []) as [infos|e]; cbn [bind]; [|reflexivity].
  destruct (Path.exists_ (Path.join version_dir "README.md")); [|reflexivity].
  destruct (Path.read_text (Path.join version_dir "README.md")); reflexivity.
Qed.

Lemma untimed_app_append (a1 a2 : AppData.t) (v1 v2 : VersionData.t) :
  untimed_app a1 = untimed_app a2 ->
  untimed_version v1 = untimed_version v2 ->
  untimed_app (AppData.append_version a1 v1) = untimed_app (AppData.append_version a2 v2).
Proof.
  intros Ha Hv. destruct a1, a2.
  unfold untimed_app, AppData.append_version in *. simpl in *.
  inversion Ha. subst. rewrite !map_app. simpl. congruence.
Qed.

Lemma process_versions_clock (app_name : string) (version_dirs : list Path.t) :
  forall a1 a2,
    untimed_app a1 = untimed_app a2 ->
    same_outcome (fun b1 b2 => untimed_app b1 = untimed_app b2)
      (process_versions rt host1 self app_name version_dirs a1)
      (process_versions rt host2 self app_name version_dirs a2).
Proof.
  induction version_dirs as [|d ds IH]; intros a1 a2 Ha; simpl; [exact Ha|].
  pose proof (process_version_clock app_name d) as Hd.
  destruct (process_version rt host1 self app_name d) as [v1|e1];
    destruct (process_version rt host2 self app_name d) as [v2|e2];
    simpl in Hd; try contradiction; simpl.
  - apply IH. now apply untimed_app_append.
  - exact Hd.
Qed.

Lemma process_app_clock (app_dir : Path.t) :
  same_outcome (fun a1 a2 => untimed_app a1 = untimed_app a2)
    (process_app rt yaml_safe_load json_load host1 self app_dir)
    (process_app rt yaml_safe_load json_load host2 self app_dir).
Proof.
  unfold process_app.
  destruct (get_app_metadata yaml_safe_load json_load self app_dir)
    as [[| | | | | |m| | | |]|e]; simpl; try reflexivity.
  destruct (Path.iterdir app_dir) as [items|e]; simpl; [|reflexivity].
  apply process_versions_clock. reflexivity.
Qed.

Lemma untimed_append (sd1 sd2 : StoreData.t) (a1 a2 : AppData.t) :
  untimed sd1 = untimed sd2 ->
  untimed_app a1 = untimed_app a2 ->
  untimed (StoreData.append_app sd1 a1) = untimed (StoreData.append_app sd2 a2).
Proof.
  intros Hs Ha. destruct sd1, sd2.
  unfold untimed, StoreData.append_app in *. simpl in *.
  inversion Hs. subst. rewrite !map_app. simpl. congruence.
Qed.

Lemma process_apps_clock (app_dirs : list Path.t) :
  forall sd1 sd2,
    untimed sd1 = untimed sd2 ->
    same_outcome (fun d1 d2 => untimed d1 = untimed d2)
      (process_apps rt yaml_safe_load json_load host1 self app_dirs sd1)
      (process_apps rt yaml_safe_load json_load host2 self app_dirs sd2).
Proof.
  induction app_dirs as [|d ds IH]; intros sd1 sd2 Hs; [exact Hs|].
  rewrite !process_apps_cons.
  pose proof (process_app_clock d) as Hd.
  destruct (stdout_accepts rt (progress_line d)).
  - destruct (process_app rt yaml_safe_load json_load host1 self d) as [a1|e1];
      destruct (process_app rt yaml_safe_load json_load host2 self d) as [a2|e2];
      simpl in Hd; try contradiction.
    + apply IH. now apply untimed_append.
    + subst e2. destruct (stdout_accepts rt (error_line rt d e1));
        [now apply IH | reflexivity].
  - destruct (stdout_accepts rt (error_line rt d UnicodeEncodeError));
      [now apply IH | reflexivity].
Qed.

Lemma each_map (A : Type) (write : A -> result unit) (f : A -> A) (l : list A) :
  (forall x, write (f x) = write x) ->
  Json.each write (map f l) = Json.each write l.
Proof.
  intros H. induction l as [|x l IH]; simpl; [reflexivity|]. now rewrite H, IH.
Qed.

(** What [json.dump] raises does not depend on the integer time
    stamps. *)
Lemma dump_untimed (doc : StoreData.t) : Json.dump (untimed doc) = Json.dump doc.
Proof.
  assert (Ha : forall a, Json.write_app (untimed_app a) = Json.write_app a).
  { intros a. unfold Json.write_app. cbn [untimed_app AppData.violations AppData.id
      AppData.icon AppData.readMe AppData.description AppData.name AppData.tags
      AppData.title AppData.additionalProperties AppData.versions].
    rewrite (each_map Json.write_version untimed_version); reflexivity. }
  unfold Json.dump. cbn [untimed StoreData.violations StoreData.id StoreData.icon
    StoreData.name StoreData.title StoreData.extra StoreData.apps].
  now rewrite (each_map Json.write_app untimed_app).
Qed.

Lemma save_clock (d1 d2 : StoreData.t) :
  untimed d1 = untimed d2 ->
  same_outcome
    (fun r1 r2 => fst r1 = fst r2 /\ untimed (snd r1) = untimed (snd r2))
    (save self d1) (save self d2).
Proof.
  intros H. unfold save.
  rewrite <- (dump_untimed d1), <- (dump_untimed d2), H.
  destruct (Json.dump (untimed d2)) as [[]|e]; simpl; auto.
Qed.

(** X21.  Two runs on the same working directory that read different
    clocks succeed or fail alike, and their catalogs differ at most in
    the integer [lastModified] of the catalog, the applications and the
    versions; the time stamps of the files are the same. *)
Theorem catalog_clock_independence :
  cwd host1 = cwd host2 ->
  same_outcome
    (fun r1 r2 => fst r1 = fst r2 /\ untimed (snd r1) = untimed (snd r2))
    (generate rt yaml_safe_load json_load host1 self)
    (generate rt yaml_safe_load json_load host2 self).
Proof.
  intros Hcwd. unfold generate, Path.exists_, Path.iterdir. cbn [Path.target].
  rewrite <- Hcwd.
  destruct (assoc (apps_dir self) (cwd host1)) as [[size mtime content|entries]|];
    cbn [negb bind].
  - reflexivity.
  - match goal with
    | |- context [process_apps _ _ _ host1 _ ?ds ?sd1] =>
        match goal with
        | |- context [process_apps _ _ _ host2 _ ds ?sd2] =>
            pose proof (@process_apps_clock ds sd1 sd2 eq_refl) as Hp
        end
    end.
    match type of Hp with
    | same_outcome _ ?r1 ?r2 => destruct r1 as [d1|e1]; destruct r2 as [d2|e2]
    end; simpl in Hp; try contradiction; cbn [bind].
    + now apply save_clock.
    + exact Hp.
  - now apply save_clock.
Qed.

End ClockFacts.

Lemma catalog_clock_independence_witness :
  cwd (Sample.host 0 [("apps", Sample.apps)])
  = cwd (mk_host [] 0 [("apps", Sample.apps)] (fun _ => 5%Z)) /\
  same_outcome
    (fun r1 r2 => fst r1 = fst r2 /\ untimed (snd r1) = untimed (snd r2))
    (generate Sample.rt Sample.yaml_safe_load Sample.json_load
       (Sample.host 0 [("apps", Sample.apps)]) Sample.self)
    (generate Sample.rt Sample.yaml_safe_load Sample.json_load
       (mk_host [] 0 [("apps", Sample.apps)] (fun _ => 5%Z)) Sample.self).
Proof.
  split; [reflexivity|].
  apply (@catalog_clock_independence Sample.rt Sample.yaml_safe_load Sample.json_load Sample.self
           (Sample.host 0 [("apps", Sample.apps)])
           (mk_host [] 0 [("apps", Sample.apps)] (fun _ => 5%Z))).
  reflexivity.
Defined.

(** ** The order of directory listings *)

Lemma filter_perm (A : Type) (p : A -> bool) (l1 l2 : list A) :
  Permutation l1 l2 -> Permutation (filter p l1) (filter p l2).
Proof.
  induction 1 as [|x l1 l2 _ IH|x y l|l1 l2 l3 _ IH1 _ IH2]; simpl.
  - constructor.
  - destruct (p x); [now constructor | assumption].
  - destruct (p x), (p y); try reflexivity. apply perm_swap.
  - now transitivity (filter p l2).
Qed.

Lemma assoc_perm (A : Type) (k : string) (l1 l2 : list (string * A)) :
  Permutation l1 l2 -> NoDup (map fst l1) -> assoc k l1 = assoc k l2.
Proof.
  intros Hp Hnd.
  assert (Hnd2 : NoDup (map fst l2))
    by (eapply Permutation_NoDup; [apply Permutation_map; exact Hp | exact Hnd]).
  destruct (assoc k l1) as [v|] eqn:E1.
  - apply assoc_In in E1. symmetry. apply assoc_In_NoDup; [assumption|].
    eapply Permutation_in; eassumption.
  - destruct (assoc k l2) as [v|] eqn:E2; [|reflexivity].
    apply assoc_In in E2.
    assert (E : assoc k l1 = Some v).
    { apply assoc_In_NoDup; [assumption|].
      eapply Permutation_in; [symmetry|]; eassumption. }
    congruence.
Qed.

Section SortedUnique.
Variable A : Type.
Variable key : A -> string.
Variable reverse : bool.

Lemma in_order_antisym (x y : A) :
  Py.in_order key reverse x y -> Py.in_order key reverse y x -> key x = key y.
Proof.
  unfold Py.in_order. destruct reverse; intros H1 H2;
    [symmetry|]; now apply String.leb_antisym.
Qed.

(** Two sorted lists with the same elements and distinct keys are the
    same list. *)
Lemma sorted_unique (l1 : list A) :
  forall l2,
    StronglySorted (Py.in_order key reverse) l1 ->
    StronglySorted (Py.in_order key reverse) l2 ->
    Permutation l1 l2 ->
    NoDup (map key l1) ->
    l1 = l2.
Proof.
  induction l1 as [|x l1 IH]; intros l2 H1 H2 Hp Hnd.
  - apply Permutation_nil in Hp. now symmetry.
  - destruct l2 as [|y l2].
    + symmetry in Hp. apply Permutation_nil in Hp. discriminate.
    + inversion H1 as [|? ? S1 F1]; subst. inversion H2 as [|? ? S2 F2]; subst.
      inversion Hnd as [|? ? Hni Hnd']; subst.
      rewrite Forall_forall in F1, F2.
      assert (Exy : x = y).
      { assert (Hy : In y (x :: l1))
          by (eapply Permutation_in; [symmetry; exact Hp | now left]).
        assert (Hx : In x (y :: l2))
          by (eapply Permutation_in; [exact Hp | now left]).
        destruct Hy as [E|Hy]; [assumption|].
        destruct Hx as [E|Hx]; [now symmetry|].
        exfalso. apply Hni.
        rewrite (@in_order_antisym x y (F1 _ Hy) (F2 _ Hx)).
        now apply in_map. }
      subst y. f_equal. apply IH; try assumption.
      eapply Permutation_cons_inv. exact Hp.
Qed.

Lemma sort_perm_eq (l1 l2 : list A) :
  Permutation l1 l2 -> NoDup (map key l1) ->
  Py.sort key reverse l1 = Py.sort key reverse l2.
Proof.
  intros Hp Hnd. apply sorted_unique; try apply sort_sorted.
  - rewrite <- (sort_perm key reverse l1), <- (sort_perm key reverse l2). exact Hp.
  - eapply Permutation_NoDup; [|exact Hnd].
    apply Permutation_map. apply sort_perm.
Qed.

End SortedUnique.

Lemma sort_entries_perm (reverse : bool) (p : Path.t -> bool)
    (entries entries' : list (string * node)) :
  Permutation entries entries' ->
  NoDup (map fst entries) ->
  Py.sort Path.name reverse (filter p (map Path.of_entry entries))
  = Py.sort Path.name reverse (filter p (map Path.of_entry entries')).
Proof.
  intros Hp Hnd. apply sort_perm_eq.
  - apply filter_perm. now apply Permutation_map.
  - apply NoDup_map_filter. now rewrite map_name_of_entry.
Qed.

Section ListingOrder.

Variable rt : Runtime.
Variable yaml_safe_load : string -> result pyval.
Variable json_load : string -> result pyval.
Variable self : AppStoreGenerator.t.

(** X22.  The catalog does not depend on the order in which the apps
    root lists its entries (their names being distinct). *)
Theorem catalog_listing_order (environ : list (string * string)) (offset : Z)
    (clock : list string -> Z) (cwd1 cwd2 entries entries' : list (string * node)) :
  assoc (apps_dir self) cwd1 = Some (Dir entries) ->
  assoc (apps_dir self) cwd2 = Some (Dir entries') ->
  Permutation entries entries' ->
  NoDup (map fst entries) ->
  generate rt yaml_safe_load json_load (mk_host environ offset cwd1 clock) self
  = generate rt yaml_safe_load json_load (mk_host environ offset cwd2 clock) self.
Proof.
  intros H1 H2 Hp Hnd.
  unfold generate, Path.exists_, Path.iterdir. cbn [Path.target cwd].
  rewrite H1, H2. cbn [negb bind].
  rewrite (sort_entries_perm false
             (fun d => Path.is_dir d && negb (Str.startswith (Path.name d) "."))
             Hp Hnd).
  reflexivity.
Qed.

Lemma collect_files_eq (paths : list Path.t) :
  forall files r,
    collect_files rt paths files = Ok r ->
    r = files ++ map file_info (filter listed_file paths).
Proof.
  induction paths as [|[n t] paths IH]; intros files r; cbn [collect_files filter].
  - intros H. injection H as <-. now rewrite app_nil_r.
  - change (Path.is_file {| Path.name := n; Path.target := t |}
            && negb (Str.startswith (Path.name {| Path.name := n; Path.target := t |}) "."))
      with (listed_file {| Path.name := n; Path.target := t |}).
    destruct (listed_file {| Path.name := n; Path.target := t |}) eqn:El; [|apply IH].
    unfold listed_file, Path.is_file in El. cbn [Path.target] in El.
    destruct t as [[size mtime content|es]|]; try discriminate.
    destruct (get_file_info rt _) as [info|e] eqn:E; cbn [bind]; [|discriminate].
    apply get_file_info_inv in E as [_ ->].
    intros H. rewrite (IH _ _ H), <- app_assoc. reflexivity.
Qed.

Lemma collect_files_perm (entries entries' : list (string * node)) :
  Permutation entries entries' ->
  is_ok (collect_files rt (map Path.of_entry entries) [])
  = is_ok (collect_files rt (map Path.of_entry entries') []).
Proof.
  intros Hp.
  destruct (is_ok (collect_files rt (map Path.of_entry entries) [])) eqn:E1;
    destruct (is_ok (collect_files rt (map Path.of_entry entries') [])) eqn:E2;
    try reflexivity.
  - apply collect_files_not_ok in E2 as (n & size & mtime & content & Hin & Hn & Hs).
    assert (E : is_ok (collect_files rt (map Path.of_entry entries) []) = false).
    { apply collect_files_not_ok. exists n, size, mtime, content.
      split; [|auto]. eapply Permutation_in; [symmetry; exact Hp | exact Hin]. }
    congruence.
  - apply collect_files_not_ok in E1 as (n & size & mtime & content & Hin & Hn & Hs).
    assert (E : is_ok (collect_files rt (map Path.of_entry entries') []) = false).
    { apply collect_files_not_ok. exists n, size, mtime, content.
      split; [|auto]. eapply Permutation_in; [exact Hp | exact Hin]. }
    congruence.
Qed.

Lemma sort_file_info_perm (entries entries' : list (string * node)) :
  Permutation entries entries' ->
  NoDup (map fst entries) ->
  Py.sort FileInfo.name false
    (map file_info (filter listed_file (map Path.of_entry entries)))
  = Py.sort FileInfo.name false
      (map file_info (filter listed_file (map Path.of_entry entries'))).
Proof.
  intros Hp Hnd. apply sort_perm_eq.
  - apply Permutation_map, filter_perm. now apply Permutation_map.
  - rewrite map_map. simpl.
    change (map (fun x => Path.name x) (filter listed_file (map Path.of_entry entries)))
      with (map Path.name (filter listed_file (map Path.of_entry entries))).
    apply NoDup_map_filter. now rewrite map_name_of_entry.
Qed.

Lemma join_perm (name : string) (entries entries' : list (string * node)) (k : string) :
  Permutation entries entries' ->
  NoDup (map fst entries) ->
  Path.join {| Path.name := name; Path.target := Some (Dir entries) |} k
  = Path.join {| Path.name := name; Path.target := Some (Dir entries') |} k.
Proof.
  intros Hp Hnd. unfold Path.join. simpl. now rewrite (assoc_perm k Hp Hnd).
Qed.

(** X23.  Whether a version directory gives an entry, and the entry it
    gives, do not depend on the order in which the directory lists its
    files.  When no listed file has a time that cannot be rendered the
    whole outcome is the same, exception included; otherwise both
    listings raise, with the exception of the first such file listed,
    as for a file [a] on whose time [time.gmtime] raises [OSError] and a
    file [b] on whose time [time.strftime] raises [OverflowError]. *)
Theorem version_listing_order (host : Host) (app_name name : string)
    (entries entries' : list (string * node)) :
  Permutation entries entries' ->
  NoDup (map fst entries) ->
  same_result
    (process_version rt host self app_name
       {| Path.name := name; Path.target := Some (Dir entries) |})
    (process_version rt host self app_name
       {| Path.name := name; Path.target := Some (Dir entries') |}) /\
  ((forall n size mtime content,
       In (n, File size mtime content) entries ->
       Str.startswith n "." = false ->
       stampable rt mtime = true) ->
   process_version rt host self app_name
     {| Path.name := name; Path.target := Some (Dir entries) |}
   = process_version rt host self app_name
       {| Path.name := name; Path.target := Some (Dir entries') |}) /\
  process_version Sample.rt host self app_name
    {| Path.name := name;
       Path.target := Some (Dir [("a", File 1 4611686018427387904 None);
                                 ("b", File 1 67767976233532800 None)]) |}
  = Raise OSError /\
  process_version Sample.rt host self app_name
    {| Path.name := name;
       Path.target := Some (Dir [("b", File 1 67767976233532800 None);
                                 ("a", File 1 4611686018427387904 None)]) |}
  = Raise OverflowError.
Proof.
  intros Hp Hnd.
  assert (Heq : forall files files',
             collect_files rt (map Path.of_entry entries) [] = Ok files ->
             collect_files rt (map Path.of_entry entries') [] = Ok files' ->
             process_version rt host self app_name
               {| Path.name := name; Path.target := Some (Dir entries) |}
             = process_version rt host self app_name
                 {| Path.name := name; Path.target := Some (Dir entries') |}).
  { intros files files' E1 E2.
    unfold process_version, Path.iterdir. cbn [Path.target Path.name bind].
    rewrite E1, E2. cbn [bind].
    apply collect_files_eq in E1, E2. cbn [app] in E1, E2. subst files files'.
    rewrite (join_perm name "README.md" Hp Hnd).
    rewrite (sort_file_info_perm Hp Hnd). reflexivity. }
  pose proof (collect_files_perm Hp) as Hok.
  split; [|split; [|split]].
  - unfold same_result.
    destruct (collect_files rt (map Path.of_entry entries) []) as [files|e] eqn:E1;
      destruct (collect_files rt (map Path.of_entry entries') []) as [files'|e'] eqn:E2;
      try discriminate Hok.
    + rewrite (Heq files files' eq_refl eq_refl). clear Heq.
      destruct (process_version rt host self app_name _); auto.
    + unfold process_version, Path.iterdir. cbn [Path.target Path.name bind].
      rewrite E1, E2. exact I.
  - intros Hst.
    assert (E1 : is_ok (collect_files rt (map Path.of_entry entries) []) = true).
    { destruct (is_ok (collect_files rt (map Path.of_entry entries) [])) eqn:E;
        [reflexivity|].
      apply collect_files_not_ok in E as (n & size & mtime & content & Hin & Hn & Hs).
      rewrite (Hst n size mtime content Hin Hn) in Hs. discriminate. }
    pose proof E1 as E2. rewrite Hok in E2.
    destruct (collect_files rt (map Path.of_entry entries) []) as [files|e] eqn:F1;
      [|discriminate].
    destruct (collect_files rt (map Path.of_entry entries') []) as [files'|e'] eqn:F2;
      [|discriminate].
    exact (Heq files files' eq_refl eq_refl).
  - reflexivity.
  - reflexivity.
Qed.

Lemma get_app_metadata_perm (name : string) (entries entries' : list (string * node)) :
  Permutation entries entries' ->
  NoDup (map fst entries) ->
  get_app_metadata yaml_safe_load json_load self
    {| Path.name := name; Path.target := Some (Dir entries) |}
  = get_app_metadata yaml_safe_load json_load self
      {| Path.name := name; Path.target := Some (Dir entries') |}.
Proof.
  intros Hp Hnd. unfold get_app_metadata.
  rewrite (join_perm name "metadata.yml" Hp Hnd).
  rewrite (join_perm name "metadata.json" Hp Hnd).
  rewrite (join_perm name "README.md" Hp Hnd).
  match goal with
  | |- bind ?load _ = _ => destruct load as [base|e]; [|reflexivity]
  end.
  cbn [bind].
  match goal with
  | |- bind ?rd _ = _ => destruct rd as [m1|e]; [|reflexivity]
  end.
  cbn [bind]. symmetry. apply find_icon_same; [reflexivity|].
  intros k _. symmetry. now apply join_perm.
Qed.

(** X24.  The entry of an application does not depend on the order in
    which the application directory lists its entries. *)
Theorem app_listing_order (host : Host) (name : string)
    (entries entries' : list (string * node)) :
  Permutation entries entries' ->
  NoDup (map fst entries) ->
  process_app rt yaml_safe_load json_load host self
    {| Path.name := name; Path.target := Some (Dir entries) |}
  = process_app rt yaml_safe_load json_load host self
      {| Path.name := name; Path.target := Some (Dir entries') |}.
Proof.
  intros Hp Hnd. unfold process_app.
  rewrite (get_app_metadata_perm name Hp Hnd).
  destruct (get_app_metadata yaml_safe_load json_load self
              {| Path.name := name; Path.target := Some (Dir entries') |})
    as [[| | | | | |m| | | |]|e]; simpl; try reflexivity.
  rewrite !collect_version_dirs_spec. simpl app.
  rewrite (sort_entries_perm true (is_version_dir rt) Hp Hnd).
  reflexivity.
Qed.

End ListingOrder.

(** ** The further properties at sample inputs *)

Lemma catalog_header_witness :
  exists out doc,
    generate Sample.rt Sample.yaml_safe_load Sample.json_load
      (Sample.host 0 [("apps", Sample.apps)]) Sample.self = Ok (out, doc) /\
    out = "appstore.json" /\ StoreData.id doc = "corapanel".
Proof.
  destruct (generate Sample.rt Sample.yaml_safe_load Sample.json_load
              (Sample.host 0 [("apps", Sample.apps)]) Sample.self)
    as [[out doc]|e] eqn:E.
  - exists out, doc. split; [reflexivity|].
    destruct (catalog_header _ _ _ _ _ E) as (-> & -> & _). auto.
  - vm_compute in E. discriminate E.
Defined.

Lemma catalog_apps_are_directories_witness :
  exists out doc a,
    generate Sample.rt Sample.yaml_safe_load Sample.json_load
      (Sample.host 0 [("apps", Sample.apps)]) Sample.self = Ok (out, doc) /\
    In a (StoreData.apps doc) /\
    Str.startswith (AppData.id a) "." = false.
Proof.
  destruct (generate Sample.rt Sample.yaml_safe_load Sample.json_load
              (Sample.host 0 [("apps", Sample.apps)]) Sample.self)
    as [[out doc]|e] eqn:E.
  - pose proof E as E'. vm_compute in E'. apply Ok_inj in E'.
    injection E' as _ Hdoc.
    assert (Hin : exists a, In a (StoreData.apps doc))
      by (rewrite <- Hdoc; eexists; left; reflexivity).
    destruct Hin as [a Ha]. exists out, doc, a.
    split; [reflexivity|]. split; [exact Ha|].
    destruct (catalog_apps_are_directories _ _ _ _ _ _ E Ha) as (entries & sub & _ & _ & H).
    exact H.
  - vm_compute in E. discriminate E.
Defined.

Lemma catalog_app_ids_unique_witness :
  exists out doc,
    generate Sample.rt Sample.yaml_safe_load Sample.json_load
      (Sample.host 0 [("apps", Sample.apps)]) Sample.self = Ok (out, doc) /\
    assoc (apps_dir Sample.self) (cwd (Sample.host 0 [("apps", Sample.apps)]))
    = Some (Dir Sample.apps_entries) /\
    NoDup (map fst Sample.apps_entries) /\
    NoDup (map AppData.id (StoreData.apps doc)).
Proof.
  assert (Hnd : NoDup (map fst Sample.apps_entries)).
  { repeat constructor; simpl; intuition discriminate. }
  destruct (generate Sample.rt Sample.yaml_safe_load Sample.json_load
              (Sample.host 0 [("apps", Sample.apps)]) Sample.self)
    as [[out doc]|e] eqn:E.
  - exists out, doc. split; [reflexivity|]. split; [reflexivity|].
    split; [exact Hnd|].
    exact (catalog_app_ids_unique _ _ _ _ _ E eq_refl Hnd).
  - vm_compute in E. discriminate E.
Defined.

Lemma version_files_exact_witness :
  exists v,
    Path.target (Sample.path "2.5.1" (Dir Sample.release_entries))
    = Some (Dir Sample.release_entries) /\
    process_version Sample.rt (Sample.host 0 []) Sample.self "nginx"
      (Sample.path "2.5.1" (Dir Sample.release_entries)) = Ok v /\
    List.length (VersionData.files v) = 2.
Proof.
  destruct (process_version Sample.rt (Sample.host 0 []) Sample.self "nginx"
              (Sample.path "2.5.1" (Dir Sample.release_entries)))
    as [v|e] eqn:E.
  - exists v. split; [reflexivity|]. split; [reflexivity|].
    destruct (@version_files_exact Sample.rt (Sample.host 0 []) Sample.self "nginx"
                (Sample.path "2.5.1" (Dir Sample.release_entries))
                Sample.release_entries v eq_refl E) as [_ H].
    rewrite H. reflexivity.
  - vm_compute in E. discriminate E.
Defined.

Lemma version_readme_witness :
  exists v,
    Path.target (Sample.path "v1-0" (Dir Sample.readme_entries))
    = Some (Dir Sample.readme_entries) /\
    process_version Sample.rt (Sample.host 0 []) Sample.self "nginx"
      (Sample.path "v1-0" (Dir Sample.readme_entries)) = Ok v /\
    VersionData.readMe v = Some "notes" /\
    In "README.md" (map FileInfo.name (VersionData.files v)).
Proof.
  destruct (process_version Sample.rt (Sample.host 0 []) Sample.self "nginx"
              (Sample.path "v1-0" (Dir Sample.readme_entries)))
    as [v|e] eqn:E.
  - exists v. split; [reflexivity|]. split; [reflexivity|].
    destruct (@version_readme Sample.rt (Sample.host 0 []) Sample.self "nginx"
                (Sample.path "v1-0" (Dir Sample.readme_entries))
                Sample.readme_entries v eq_refl E) as [_ H].
    exact (H _ _ "notes" eq_refl).
  - vm_compute in E. discriminate E.
Defined.


Lemma process_app_succeeds_iff_witness :
  Path.target (Sample.path "my-app" Sample.plain)
  = Some (Dir [("1-26-0", Dir []); ("1_27_0", Dir [])]) /\
  is_ok (process_app Sample.rt Sample.yaml_safe_load Sample.json_load (Sample.host 0 [])
           Sample.self (Sample.path "my-app" Sample.plain)) = true.
Proof.
  split; [reflexivity|].
  apply (proj2 (@process_app_succeeds_iff Sample.rt Sample.yaml_safe_load Sample.json_load
                  (Sample.host 0 []) Sample.self
                  (Sample.path "my-app" Sample.plain)
                  [("1-26-0", Dir []); ("1_27_0", Dir [])] eq_refl)).
  split.
  - eexists. vm_compute. reflexivity.
  - intros e [<-|[<-|[]]] _; vm_compute; reflexivity.
Defined.

Lemma metadata_must_be_mapping_witness :
  exists a text v,
    process_app Sample.rt Sample.yaml_safe_load Sample.json_load (Sample.host 0 [])
      Sample.self (Sample.path "nginx" Sample.nginx) = Ok a /\
    Path.exists_ (Path.join (Sample.path "nginx" Sample.nginx) "metadata.yml") = true /\
    Path.read_text (Path.join (Sample.path "nginx" Sample.nginx) "metadata.yml") = Ok text /\
    Sample.yaml_safe_load text = Ok v /\
    (Py.truthy v = false \/ exists items, v = PDict items).
Proof.
  destruct (process_app Sample.rt Sample.yaml_safe_load Sample.json_load (Sample.host 0 [])
              Sample.self (Sample.path "nginx" Sample.nginx)) as [a|e] eqn:E.
  - destruct (metadata_must_be_mapping _ _ _ _ _ _ E) as [H _].
    destruct (H eq_refl) as (text & v & Hr & Hp & Hv).
    exists a, text, v. auto.
  - vm_compute in E. discriminate E.
Defined.

Lemma metadata_errors_propagate_witness :
  Path.exists_ (Path.join (Sample.path "broken" Sample.broken) "metadata.yml") = true /\
  Path.read_text (Path.join (Sample.path "broken" Sample.broken) "metadata.yml")
  = Ok ": : :" /\
  Sample.yaml_safe_load ": : :" = Raise YAMLError /\
  process_app Sample.rt Sample.yaml_safe_load Sample.json_load (Sample.host 0 [])
    Sample.self (Sample.path "broken" Sample.broken) = Raise YAMLError.
Proof.
  split; [reflexivity|]. split; [reflexivity|]. split; [reflexivity|].
  apply (proj1 (proj2 (metadata_errors_propagate Sample.rt Sample.yaml_safe_load Sample.json_load
                         (Sample.host 0 []) Sample.self
                         (Sample.path "broken" Sample.broken) YAMLError))
           ": : :"); reflexivity.
Defined.

Lemma icon_precedence_witness :
  exists a,
    process_app Sample.rt Sample.yaml_safe_load Sample.json_load (Sample.host 0 [])
      Sample.self (Sample.path "iconic" Sample.iconic) = Ok a /\
    find (fun n => Path.exists_ (Path.join (Sample.path "iconic" Sample.iconic) n))
      icon_names = Some "icon.png" /\
    AppData.icon a
    = PStr "https://raw.githubusercontent.com/cloudora-vn/appstore/main/apps/iconic/icon.png".
Proof.
  destruct (process_app Sample.rt Sample.yaml_safe_load Sample.json_load (Sample.host 0 [])
              Sample.self (Sample.path "iconic" Sample.iconic)) as [a|e] eqn:E.
  - exists a. split; [reflexivity|]. split; [reflexivity|].
    destruct (@icon_precedence Sample.rt Sample.yaml_safe_load Sample.json_load
                (Sample.host 0 []) Sample.self (Sample.path "iconic" Sample.iconic) a E
                (PDict [])
                (@source_none Sample.yaml_safe_load Sample.json_load
                   (Sample.path "iconic" Sample.iconic) eq_refl eq_refl))
      as (items & _ & H & _).
    exact (H "icon.png" eq_refl).
  - vm_compute in E. discriminate E.
Defined.

Lemma readme_precedence_witness :
  exists a,
    process_app Sample.rt Sample.yaml_safe_load Sample.json_load (Sample.host 0 [])
      Sample.self (Sample.path "both" Sample.both) = Ok a /\
    Path.exists_ (Path.join (Sample.path "both" Sample.both) "README.md") = true /\
    AppData.readMe a = PStr "# Both".
Proof.
  destruct (process_app Sample.rt Sample.yaml_safe_load Sample.json_load (Sample.host 0 [])
              Sample.self (Sample.path "both" Sample.both)) as [a|e] eqn:E.
  - exists a. split; [reflexivity|]. split; [reflexivity|].
    destruct (@readme_precedence Sample.rt Sample.yaml_safe_load Sample.json_load
                (Sample.host 0 []) Sample.self (Sample.path "both" Sample.both) a E
                _
                (@source_yaml Sample.yaml_safe_load Sample.json_load
                   (Sample.path "both" Sample.both) "description: A web server"
                   (PDict [(PStr "description", PStr "A web server")])
                   eq_refl eq_refl eq_refl))
      as (items & _ & H & _).
    destruct (H eq_refl) as (text & Ht & Hr).
    vm_compute in Ht. apply Ok_inj in Ht. now subst text.
  - vm_compute in E. discriminate E.
Defined.

Lemma bare_app_defaults_witness :
  exists a,
    Path.exists_ (Path.join (Sample.path "my-app" Sample.plain) "metadata.yml") = false /\
    Path.exists_ (Path.join (Sample.path "my-app" Sample.plain) "metadata.json") = false /\
    Path.exists_ (Path.join (Sample.path "my-app" Sample.plain) "README.md") = false /\
    find (fun n => Path.exists_ (Path.join (Sample.path "my-app" Sample.plain) n))
      icon_names = None /\
    process_app Sample.rt Sample.yaml_safe_load Sample.json_load (Sample.host 0 [])
      Sample.self (Sample.path "my-app" Sample.plain) = Ok a /\
    AppData.description a = PStr "Description for my-app".
Proof.
  destruct (process_app Sample.rt Sample.yaml_safe_load Sample.json_load (Sample.host 0 [])
              Sample.self (Sample.path "my-app" Sample.plain)) as [a|e] eqn:E.
  - exists a. repeat (split; [reflexivity|]).
    rewrite (@bare_app_defaults Sample.rt Sample.yaml_safe_load Sample.json_load (Sample.host 0 [])
               Sample.self (Sample.path "my-app" Sample.plain) a
               eq_refl eq_refl eq_refl eq_refl E).
    reflexivity.
  - vm_compute in E. discriminate E.
Defined.

Lemma app_entry_invariants_witness :
  exists a,
    process_app Sample.rt Sample.yaml_safe_load Sample.json_load (Sample.host 0 [])
      Sample.self (Sample.path "nginx" Sample.nginx) = Ok a /\
    AppData.id a = "nginx" /\
    AdditionalProperties.key (AppData.additionalProperties a) = AppData.id a.
Proof.
  destruct (process_app Sample.rt Sample.yaml_safe_load Sample.json_load (Sample.host 0 [])
              Sample.self (Sample.path "nginx" Sample.nginx)) as [a|e] eqn:E.
  - exists a. split; [reflexivity|].
    destruct (app_entry_invariants _ _ _ _ _ _ E) as (H1 & H2 & _). auto.
  - vm_compute in E. discriminate E.
Defined.

Lemma descriptions_fallback_witness :
  exists a m,
    process_app Sample.rt Sample.yaml_safe_load Sample.json_load (Sample.host 0 [])
      Sample.self (Sample.path "both" Sample.both) = Ok a /\
    get_app_metadata Sample.yaml_safe_load Sample.json_load Sample.self
      (Sample.path "both" Sample.both) = Ok (PDict m) /\
    Py.lookup m "descriptions" = None /\
    AdditionalProperties.description (AppData.additionalProperties a)
    = PDict [(PStr "en", PStr "A web server"); (PStr "zh", PStr EmptyString)].
Proof.
  destruct (process_app Sample.rt Sample.yaml_safe_load Sample.json_load (Sample.host 0 [])
              Sample.self (Sample.path "both" Sample.both)) as [a|e] eqn:E.
  - destruct (descriptions_fallback _ _ _ _ _ _ E) as (m & Hm & _ & Hd).
    exists a, m. split; [reflexivity|]. split; [exact Hm|].
    vm_compute in Hm. apply Ok_inj in Hm. injection Hm as <-.
    split; [reflexivity|]. exact (Hd eq_refl).
  - vm_compute in E. discriminate E.
Defined.

Lemma catalog_version_urls_witness :
  exists out doc a v,
    generate Sample.rt Sample.yaml_safe_load Sample.json_load
      (Sample.host 0 [("apps", Sample.apps)]) Sample.self = Ok (out, doc) /\
    In a (StoreData.apps doc) /\
    In v (AppData.versions a) /\
    VersionData.name v = parse_version (VersionData.id v).
Proof.
  destruct (generate Sample.rt Sample.yaml_safe_load Sample.json_load
              (Sample.host 0 [("apps", Sample.apps)]) Sample.self)
    as [[out doc]|e] eqn:E.
  - pose proof E as E'. vm_compute in E'. apply Ok_inj in E'.
    injection E' as _ Hdoc.
    assert (Hin : exists a v, In a (StoreData.apps doc) /\ In v (AppData.versions a))
      by (rewrite <- Hdoc; eexists; eexists; split; [left; reflexivity | left; reflexivity]).
    destruct Hin as (a & v & Ha & Hv). exists out, doc, a, v.
    split; [reflexivity|]. split; [exact Ha|]. split; [exact Hv|].
    exact (proj1 (catalog_version_urls _ _ _ _ _ _ _ E Ha Hv)).
  - vm_compute in E. discriminate E.
Defined.

Lemma unreadable_version_drops_app_witness :
  exists out doc,
    generate Sample.rt Sample.yaml_safe_load Sample.json_load
      (Sample.host 0 [("apps", Dir [("unreadable", Sample.unreadable)])]) Sample.self
    = Ok (out, doc) /\
    ~ In "unreadable" (map AppData.id (StoreData.apps doc)).
Proof.
  destruct (generate Sample.rt Sample.yaml_safe_load Sample.json_load
              (Sample.host 0 [("apps", Dir [("unreadable", Sample.unreadable)])])
              Sample.self)
    as [[out doc]|e] eqn:E.
  - exists out, doc. split; [reflexivity|].
    apply (@unreadable_version_drops_app Sample.rt Sample.yaml_safe_load Sample.json_load
             (Sample.host 0 [("apps", Dir [("unreadable", Sample.unreadable)])])
             Sample.self out doc
             [("unreadable", Sample.unreadable)]
             [("1.0", Dir [("README.md", Dir [])])]
             [("README.md", Dir [])] "unreadable" "1.0" E eq_refl).
    + repeat constructor. simpl. tauto.
    + left. reflexivity.
    + left. reflexivity.
    + reflexivity.
    + left. exists []. reflexivity.
  - vm_compute in E. discriminate E.
Defined.

Lemma main_output_witness :
  exists out doc,
    main Sample.rt Sample.yaml_safe_load Sample.json_load
      (Sample.host 0 [("apps", Sample.apps)]) = Ok (out, doc) /\
    out = "appstore.json".
Proof.
  destruct (main Sample.rt Sample.yaml_safe_load Sample.json_load
              (Sample.host 0 [("apps", Sample.apps)])) as [[out doc]|e] eqn:E.
  - exists out, doc. split; [reflexivity|].
    exact (proj1 (main_output _ _ _ _ E)).
  - vm_compute in E. discriminate E.
Defined.

Lemma catalog_listing_order_witness :
  Permutation [("nginx", Sample.nginx); ("my-app", Sample.plain)]
    [("my-app", Sample.plain); ("nginx", Sample.nginx)] /\
  NoDup (map fst [("nginx", Sample.nginx); ("my-app", Sample.plain)]) /\
  generate Sample.rt Sample.yaml_safe_load Sample.json_load
    (mk_host [] 0 [("apps", Dir [("nginx", Sample.nginx); ("my-app", Sample.plain)])]
       (fun _ => 0%Z)) Sample.self
  = generate Sample.rt Sample.yaml_safe_load Sample.json_load
      (mk_host [] 0 [("apps", Dir [("my-app", Sample.plain); ("nginx", Sample.nginx)])]
         (fun _ => 0%Z)) Sample.self.
Proof.
  assert (Hp : Permutation [("nginx", Sample.nginx); ("my-app", Sample.plain)]
                 [("my-app", Sample.plain); ("nginx", Sample.nginx)])
    by apply perm_swap.
  assert (Hnd : NoDup (map fst [("nginx", Sample.nginx); ("my-app", Sample.plain)])).
  { repeat constructor; simpl; intuition discriminate. }
  split; [exact Hp|]. split; [exact Hnd|].
  eapply catalog_listing_order; [reflexivity | reflexivity | exact Hp | exact Hnd].
Defined.

Lemma version_listing_order_witness :
  Permutation [("b", Sample.text_file "b"); ("a", Sample.text_file "a")]
    [("a", Sample.text_file "a"); ("b", Sample.text_file "b")] /\
  NoDup (map fst [("b", Sample.text_file "b"); ("a", Sample.text_file "a")]) /\
  process_version Sample.rt (Sample.host 0 []) Sample.self "nginx"
    (Sample.path "1.0" (Dir [("b", Sample.text_file "b"); ("a", Sample.text_file "a")]))
  = process_version Sample.rt (Sample.host 0 []) Sample.self "nginx"
      (Sample.path "1.0" (Dir [("a", Sample.text_file "a"); ("b", Sample.text_file "b")])).
Proof.
  assert (Hp : Permutation [("b", Sample.text_file "b"); ("a", Sample.text_file "a")]
                 [("a", Sample.text_file "a"); ("b", Sample.text_file "b")])
    by apply perm_swap.
  assert (Hnd : NoDup (map fst [("b", Sample.text_file "b"); ("a", Sample.text_file "a")])).
  { repeat constructor; simpl; intuition discriminate. }
  split; [exact Hp|]. split; [exact Hnd|].
  apply (proj1 (proj2 (@version_listing_order Sample.rt Sample.self (Sample.host 0 [])
                         "nginx" "1.0" _ _ Hp Hnd))).
  intros n size mtime content [E|[E|[]]] _; injection E as <- <- <- <-; reflexivity.
Defined.

Lemma app_listing_order_witness :
  Permutation [("1-26-0", Dir []); ("1_27_0", Dir [])]
    [("1_27_0", Dir []); ("1-26-0", Dir [])] /\
  NoDup (map fst [("1-26-0", Dir []); ("1_27_0", Dir [])]) /\
  process_app Sample.rt Sample.yaml_safe_load Sample.json_load (Sample.host 0 []) Sample.self
    (Sample.path "my-app" (Dir [("1-26-0", Dir []); ("1_27_0", Dir [])]))
  = process_app Sample.rt Sample.yaml_safe_load Sample.json_load (Sample.host 0 []) Sample.self
      (Sample.path "my-app" (Dir [("1_27_0", Dir []); ("1-26-0", Dir [])])).
Proof.
  assert (Hp : Permutation [("1-26-0", Dir []); ("1_27_0", Dir [])]
                 [("1_27_0", Dir []); ("1-26-0", Dir [])])
    by apply perm_swap.
  assert (Hnd : NoDup (map fst [("1-26-0", Dir []); ("1_27_0", Dir [])])).
  { repeat constructor; simpl; intuition discriminate. }
  split; [exact Hp|]. split; [exact Hnd|].
  exact (@app_listing_order Sample.rt Sample.yaml_safe_load Sample.json_load Sample.self
           (Sample.host 0 []) "my-app" _ _ Hp Hnd).
Defined.

(** ** Identifiers within an application *)

Section UniqueFacts.

Variable rt : Runtime.
Variable yaml_safe_load : string -> result pyval.
Variable json_load : string -> result pyval.
Variable host : Host.
Variable self : AppStoreGenerator.t.

Lemma process_version_id (app_name : string) (d : Path.t) (v : VersionData.t) :
  process_version rt host self app_name d = Ok v -> VersionData.id v = Path.name d.
Proof.
  intros H. apply process_version_inv in H.
  destruct H as (paths & infos & _ & _ & _ & _ & _ & Hid & _). exact Hid.
Qed.

(** X25.  When the names in an application directory are distinct, so
    are the identifiers of the versions in its entry. *)
Theorem version_ids_unique (app_dir : Path.t) (entries : list (string * node))
    (a : AppData.t) :
  Path.target app_dir = Some (Dir entries) ->
  NoDup (map fst entries) ->
  process_app rt yaml_safe_load json_load host self app_dir = Ok a ->
  NoDup (map VersionData.id (AppData.versions a)).
Proof.
  intros Ht Hnd H. apply process_app_inv in H.
  destruct H as (m & items & _ & Hit & HF & _).
  apply iterdir_inv in Hit as (entries' & Ht' & ->).
  rewrite Ht in Ht'. injection Ht' as <-.
  rewrite (Forall2_map_eq Path.name VersionData.id
             (@process_version_id (Path.name app_dir)) HF).
  now apply sorted_names_NoDup.
Qed.

(** X26.  When the names in a version directory are distinct, so are
    the names of the files in its entry. *)
Theorem file_names_unique (app_name : string) (version_dir : Path.t)
    (entries : list (string * node)) (v : VersionData.t) :
  Path.target version_dir = Some (Dir entries) ->
  NoDup (map fst entries) ->
  process_version rt host self app_name version_dir = Ok v ->
  NoDup (map FileInfo.name (VersionData.files v)).
Proof.
  intros Ht Hnd H.
  unfold process_version, Path.iterdir in H. rewrite Ht in H. cbn [bind] in H.
  destruct (collect_files rt (map Path.of_entry entries) []) as [files|e] eqn:Ec;
    cbn [bind] in H; [|discriminate].
  apply collect_files_eq in Ec. cbn [app] in Ec. subst files.
  assert (Hfiles : VersionData.files v
                   = Py.sort FileInfo.name false
                       (map file_info (filter listed_file (map Path.of_entry entries)))).
  { destruct (Path.exists_ (Path.join version_dir "README.md")).
    - destruct (Path.read_text (Path.join version_dir "README.md")); [|discriminate].
      cbn [bind] in H. apply Ok_inj in H. now subst v.
    - apply Ok_inj in H. now subst v. }
  rewrite Hfiles.
  eapply Permutation_NoDup; [apply Permutation_map, sort_perm|].
  rewrite map_map.
  change (map (fun x => FileInfo.name (file_info x))
            (filter listed_file (map Path.of_entry entries)))
    with (map Path.name (filter listed_file (map Path.of_entry entries))).
  apply NoDup_map_filter. now rewrite map_name_of_entry.
Qed.

End UniqueFacts.

(** ** An empty metadata file *)

Section EmptyMetadata.

Variable rt : Runtime.
Variable yaml_safe_load : string -> result pyval.
Variable json_load : string -> result pyval.
Variable host : Host.
Variable self : AppStoreGenerator.t.

(** X27.  A [metadata.yml] whose document is a false value (an empty
    file, an empty mapping or list, zero, ...) counts as no metadata: the
    entry gets the defaults, and [metadata.json] is not consulted. *)
Theorem empty_yaml_metadata (app_dir : Path.t) (a : AppData.t) (text : string) (v : pyval) :
  Path.exists_ (Path.join app_dir "metadata.yml") = true ->
  Path.read_text (Path.join app_dir "metadata.yml") = Ok text ->
  yaml_safe_load text = Ok v ->
  Py.truthy v = false ->
  process_app rt yaml_safe_load json_load host self app_dir = Ok a ->
  AppData.name a = PStr (str_title rt (Path.name app_dir)) /\
  AppData.title a = PStr (str_title rt (Path.name app_dir)) /\
  AppData.tags a = PList [] /\
  AppData.description a = PStr ("Description for " ++ Path.name app_dir) /\
  AdditionalProperties.architectures (AppData.additionalProperties a)
  = PList [PStr "amd64"; PStr "arm64"].
Proof.
  intros Ey Hr Hp Hv H. apply process_app_inv in H.
  destruct H as (m & items & Hm & _ & _ & _ & _ & _ & -> & -> & -> & -> & _ & _ & _ & ->).
  apply get_app_metadata_inv in Hm.
  destruct Hm as (base & Hy & _ & _ & Hext & _).
  destruct (Hy Ey) as (text' & v' & Hr' & Hp' & Hb).
  rewrite Hr in Hr'. apply Ok_inj in Hr'. subst text'.
  rewrite Hp in Hp'. apply Ok_inj in Hp'. subst v'.
  unfold Py.or in Hb. rewrite Hv in Hb. subst base.
  assert (Hl : forall key, key <> "readMe" -> key <> "icon" -> Py.lookup m key = None).
  { intros key H1 H2. destruct Hext as [E|(b & f & Eb & Ef & Hl)].
    - injection E as ->. reflexivity.
    - injection Eb as <-. injection Ef as ->. now rewrite Hl. }
  unfold Py.lookup_default. rewrite !Hl by discriminate. auto.
Qed.

End EmptyMetadata.

Lemma empty_yaml_metadata_witness :
  exists a,
    Path.exists_ (Path.join (Sample.path "blank" (Dir [("metadata.yml", File 0 0 (Some EmptyString));
                                                      ("metadata.json", Sample.text_file "null")]))
                    "metadata.yml") = true /\
    process_app Sample.rt Sample.yaml_safe_load Sample.json_load (Sample.host 0 []) Sample.self
      (Sample.path "blank" (Dir [("metadata.yml", File 0 0 (Some EmptyString));
                                 ("metadata.json", Sample.text_file "null")])) = Ok a /\
    AppData.name a = PStr "Blank".
Proof.
  destruct (process_app Sample.rt Sample.yaml_safe_load Sample.json_load (Sample.host 0 []) Sample.self
              (Sample.path "blank" (Dir [("metadata.yml", File 0 0 (Some EmptyString));
                                         ("metadata.json", Sample.text_file "null")])))
    as [a|e] eqn:E.
  - exists a. split; [reflexivity|]. split; [reflexivity|].
    exact (proj1 (@empty_yaml_metadata Sample.rt Sample.yaml_safe_load Sample.json_load
                    (Sample.host 0 []) Sample.self
                    (Sample.path "blank"
                       (Dir [("metadata.yml", File 0 0 (Some EmptyString));
                             ("metadata.json", Sample.text_file "null")]))
                    a EmptyString PNone eq_refl eq_refl eq_refl eq_refl E)).
  - vm_compute in E. discriminate E.
Defined.

Lemma version_ids_unique_witness :
  exists a,
    Path.target (Sample.path "my-app" Sample.plain)
    = Some (Dir [("1-26-0", Dir []); ("1_27_0", Dir [])]) /\
    NoDup (map fst [("1-26-0", Dir (@nil (string * node))); ("1_27_0", Dir [])]) /\
    process_app Sample.rt Sample.yaml_safe_load Sample.json_load (Sample.host 0 []) Sample.self
      (Sample.path "my-app" Sample.plain) = Ok a /\
    NoDup (map VersionData.id (AppData.versions a)).
Proof.
  assert (Hnd : NoDup (map fst [("1-26-0", Dir (@nil (string * node))); ("1_27_0", Dir [])])).
  { repeat constructor; simpl; intuition discriminate. }
  destruct (process_app Sample.rt Sample.yaml_safe_load Sample.json_load (Sample.host 0 [])
              Sample.self (Sample.path "my-app" Sample.plain)) as [a|e] eqn:E.
  - exists a. split; [reflexivity|]. split; [exact Hnd|]. split; [reflexivity|].
    exact (@version_ids_unique Sample.rt Sample.yaml_safe_load Sample.json_load (Sample.host 0 [])
             Sample.self (Sample.path "my-app" Sample.plain) _ a eq_refl Hnd E).
  - vm_compute in E. discriminate E.
Defined.

Lemma file_names_unique_witness :
  exists v,
    Path.target (Sample.path "2.5.1" (Dir Sample.release_entries))
    = Some (Dir Sample.release_entries) /\
    NoDup (map fst Sample.release_entries) /\
    process_version Sample.rt (Sample.host 0 []) Sample.self "nginx"
      (Sample.path "2.5.1" (Dir Sample.release_entries)) = Ok v /\
    NoDup (map FileInfo.name (VersionData.files v)).
Proof.
  assert (Hnd : NoDup (map fst Sample.release_entries)).
  { repeat constructor; simpl; intuition discriminate. }
  destruct (process_version Sample.rt (Sample.host 0 []) Sample.self "nginx"
              (Sample.path "2.5.1" (Dir Sample.release_entries))) as [v|e] eqn:E.
  - exists v. split; [reflexivity|]. split; [exact Hnd|]. split; [reflexivity|].
    exact (@file_names_unique Sample.rt (Sample.host 0 []) Sample.self "nginx"
             (Sample.path "2.5.1" (Dir Sample.release_entries))
             Sample.release_entries v eq_refl Hnd E).
  - vm_compute in E. discriminate E.
Defined.
